(** * UserProfileApp: credential lifecycle and request authorization

    A shallow embedding of the Express/Mongoose back end:

    - [routes/auth]    (register, login, [createToken]),
    - [routes/profile] ([requireAuth], GET and PUT of the profile),
    - [models/User.js] (schema, pre-save hashing hook, [matchPassword]),
    - [server.js] / [db.js] ([startServer], [connectDB]),
    - [src/middleware/authMiddleware.js] and
      [src/controllers/userController.js] ([protect], [getProfile],
      [updateProfile]).

    JavaScript strings are modelled as Rocq strings: sequences of code
    units below 256, that is, text in Latin-1.  Text with other characters
    is outside the model.  Request-body members are [undefined], [null] or
    a string, which is what the HTML forms of the front end submit. *)

From Stdlib Require Import String Ascii List Bool Arith ZArith Lia.
Import ListNotations.
Local Open Scope string_scope.
Local Open Scope list_scope.
Local Open Scope nat_scope.

(** ** JavaScript strings *)

Module Js.

(** The class [\s] of a JavaScript regular expression, which is also the
    set removed by [String.prototype.trim] and by validator's [trim]:
    TAB, LF, VT, FF, CR, SPACE and NBSP among the 8-bit code units. *)
Definition is_space (c : ascii) : bool :=
  let n := nat_of_ascii c in
  ((9 <=? n) && (n <=? 13)) || (n =? 32) || (n =? 160).

Definition is_digit (c : ascii) : bool :=
  let n := nat_of_ascii c in (48 <=? n) && (n <=? 57).

Fixpoint ltrim (s : string) : string :=
  match s with
  | String c s' => if is_space c then ltrim s' else s
  | EmptyString => EmptyString
  end.

Fixpoint rev_append (s acc : string) : string :=
  match s with
  | EmptyString => acc
  | String c s' => rev_append s' (String c acc)
  end.

Definition rev (s : string) : string := rev_append s EmptyString.

Definition rtrim (s : string) : string := rev (ltrim (rev s)).

(** [str.trim()] *)
Definition trim (s : string) : string := rtrim (ltrim s).

(** [c.toLowerCase()] on one code unit: A-Z and the Latin-1 capitals. *)
Definition lower_char (c : ascii) : ascii :=
  let n := nat_of_ascii c in
  if ((65 <=? n) && (n <=? 90))
     || ((192 <=? n) && (n <=? 214))
     || ((216 <=? n) && (n <=? 222))
  then ascii_of_nat (n + 32) else c.

(** [str.toLowerCase()] *)
Fixpoint toLowerCase (s : string) : string :=
  match s with
  | EmptyString => EmptyString
  | String c s' => String (lower_char c) (toLowerCase s')
  end.

(** [str.startsWith(p)] *)
Definition startsWith (p s : string) : bool := String.prefix p s.

(** [str.split(sep)] for a one-character separator. *)
Fixpoint split_aux (sep : ascii) (s cur : string) : list string :=
  match s with
  | EmptyString => [rev cur]
  | String c s' =>
      if Ascii.eqb c sep then rev cur :: split_aux sep s' EmptyString
      else split_aux sep s' (String c cur)
  end.

Definition split (sep : ascii) (s : string) : list string :=
  split_aux sep s EmptyString.

(** The UTF-16 code units of a string. *)
Fixpoint units (s : string) : list N :=
  match s with
  | EmptyString => []
  | String c s' => N_of_ascii c :: units s'
  end.

(** [/(\uFE0F|\uFE0E)/]: a variation selector. *)
Definition is_selector (u : N) : bool := ((u =? 65039) || (u =? 65038))%N.

(** [/[\uD800-\uDBFF]/] and [/[\uDC00-\uDFFF]/]: the halves of a
    surrogate pair. *)
Definition is_high (u : N) : bool := ((55296 <=? u) && (u <=? 56319))%N.
Definition is_low (u : N) : bool := ((56320 <=? u) && (u <=? 57343))%N.

(** [(str.match(/[\uD800-\uDBFF][\uDC00-\uDFFF]/g) || []).length]: the
    matches are taken from left to right and do not overlap. *)
Fixpoint count_pairs (us : list N) : nat :=
  match us with
  | a :: ((b :: rest) as tl) =>
      if is_high a && is_low b then S (count_pairs rest) else count_pairs tl
  | _ => 0
  end.

(** The length validator.js [isLength] compares with its bounds:
    [str.length - presentationSequences.length - surrogatePairs.length]. *)
Definition isLength_len (us : list N) : nat :=
  List.length us - List.length (filter is_selector us) - count_pairs us.

End Js.

(** ** Regular expressions

    The two patterns of the routes are anchored at both ends, so a test is a
    full match.  Matching is by Brzozowski derivatives. *)

Module Regex.

Inductive re : Type :=
| Void                          (* matches nothing *)
| Eps                           (* the empty string *)
| Class (p : ascii -> bool)     (* one character of a class *)
| Cat (r1 r2 : re)
| Alt (r1 r2 : re)
| Star (r : re).

Definition Plus (r : re) : re := Cat r (Star r).      (* r+ *)
Definition Opt (r : re) : re := Alt Eps r.            (* r? *)

Fixpoint Times (n : nat) (r : re) : re :=             (* r{n} *)
  match n with
  | O => Eps
  | S n' => Cat r (Times n' r)
  end.

Fixpoint UpTo (n : nat) (r : re) : re :=              (* r{0,n} *)
  match n with
  | O => Eps
  | S n' => Opt (Cat r (UpTo n' r))
  end.

Definition Between (lo hi : nat) (r : re) : re :=     (* r{lo,hi} *)
  Cat (Times lo r) (UpTo (hi - lo) r).

Fixpoint nullable (r : re) : bool :=
  match r with
  | Void => false
  | Eps => true
  | Class _ => false
  | Cat r1 r2 => nullable r1 && nullable r2
  | Alt r1 r2 => nullable r1 || nullable r2
  | Star _ => true
  end.

Definition cat (r1 r2 : re) : re :=
  match r1, r2 with
  | Void, _ => Void
  | _, Void => Void
  | Eps, _ => r2
  | _, _ => Cat r1 r2
  end.

Definition alt (r1 r2 : re) : re :=
  match r1, r2 with
  | Void, _ => r2
  | _, Void => r1
  | _, _ => Alt r1 r2
  end.

Fixpoint deriv (c : ascii) (r : re) : re :=
  match r with
  | Void => Void
  | Eps => Void
  | Class p => if p c then Eps else Void
  | Cat r1 r2 =>
      alt (cat (deriv c r1) r2) (if nullable r1 then deriv c r2 else Void)
  | Alt r1 r2 => alt (deriv c r1) (deriv c r2)
  | Star r1 => cat (deriv c r1) (Star r1)
  end.

(** [/^r$/.test(s)] *)
Fixpoint test (r : re) (s : string) : bool :=
  match s with
  | EmptyString => nullable r
  | String c s' => test (deriv c r) s'
  end.

Definition chr (a : ascii) : re := Class (Ascii.eqb a).

End Regex.

(** [const EMAIL_REGEX = /^[^\s@]+@[^\s@]+\.[^\s@]+$/] *)
Definition not_space_at (c : ascii) : bool :=
  negb (Js.is_space c || Ascii.eqb c "@"%char).

Definition EMAIL_REGEX : Regex.re :=
  Regex.Cat (Regex.Plus (Regex.Class not_space_at))
   (Regex.Cat (Regex.chr "@"%char)
    (Regex.Cat (Regex.Plus (Regex.Class not_space_at))
     (Regex.Cat (Regex.chr "."%char)
      (Regex.Plus (Regex.Class not_space_at))))).

(** [const PHONE_REGEX = /^\+?[0-9\s\-()]{7,15}$/] *)
Definition phone_char (c : ascii) : bool :=
  Js.is_digit c || Js.is_space c || Ascii.eqb c "-"%char
  || Ascii.eqb c "("%char || Ascii.eqb c ")"%char.

Definition PHONE_REGEX : Regex.re :=
  Regex.Cat (Regex.Opt (Regex.chr "+"%char))
            (Regex.Between 7 15 (Regex.Class phone_char)).

(** ** Values, documents and responses *)

(** A member of a JavaScript object: missing ([undefined]), [null], or a
    value. *)
Inductive field (A : Type) : Type :=
| Undefined
| Null
| Val (a : A).
Arguments Undefined {A}.
Arguments Null {A}.
Arguments Val {A} a.

(** [!!v] for a string member: [undefined], [null] and [''] are falsy. *)
Definition truthy (v : field string) : bool :=
  match v with
  | Val s => negb (s =? "")%string
  | _ => false
  end.

(** [req.body]: the members the routes read. *)
Record Body : Type := mkBody {
  body_username : field string;
  body_password : field string;
  body_email : field string;
  body_phone : field string;
  body_dob : field string
}.

(** A stored document of the [User] model ([models/User.js]).  [username]
    and [password] are never written by a route after creation; [email] is
    [required] but a route may assign [''] or [null] to the loaded document
    before [save] validates it. *)
Record User : Type := mkUser {
  _id : string;
  username : string;
  password : string;
  email : field string;
  phone : field string;
  dob : field Z;
  createdAt : Z;
  updatedAt : Z
}.

(** JSON as [res.json] serializes it.  Dates are kept as instants. *)
#[warnings="-register-all"]
Inductive Json : Type :=
| JNull
| JStr (s : string)
| JDate (t : Z)
| JArr (items : list Json)
| JObj (members : list (string * Json)).

Record Response : Type := mkResponse {
  status : nat;
  body : Json
}.

(** [res.status(c).json(b)] and [res.json(b)] *)
Definition res_status_json (c : nat) (b : Json) : Response := mkResponse c b.
Definition res_json (b : Json) : Response := mkResponse 200 b.

(** Does the serialized object carry a member called [k]? *)
Definition has_member (k : string) (j : Json) : bool :=
  match j with
  | JObj ms => existsb (fun kv => (fst kv =? k)%string) ms
  | _ => false
  end.


(** The member [message] of a response body. *)
Definition message_of (j : Json) : option string :=
  match j with
  | JObj ms =>
      match find (fun kv => (fst kv =? "message")%string) ms with
      | Some (_, JStr m) => Some m
      | _ => None
      end
  | _ => None
  end.

(** A string member as JSON; [JSON.stringify] drops [undefined] members. *)
Definition member (k : string) (v : field string) : list (string * Json) :=
  match v with
  | Undefined => []
  | Null => [(k, JNull)]
  | Val s => [(k, JStr s)]
  end.

Definition json_of_body (b : Body) : Json :=
  JObj (member "username" (body_username b)
        ++ member "password" (body_password b)
        ++ member "email" (body_email b)
        ++ member "phone" (body_phone b)
        ++ member "dob" (body_dob b)).

(** [process.env] *)
Record Env : Type := mkEnv {
  JWT_SECRET : option string;
  JWT_EXPIRES_IN : option string;
  MONGO_URI : option string;
  PORT : option string
}.

(** An environment variable used as a condition: unset and [''] are falsy. *)
Definition env_truthy (v : option string) : bool :=
  match v with
  | Some s => negb (s =? "")%string
  | None => false
  end.

(** What a request takes from outside the program: the clock, the entropy
    [bcrypt.genSalt] draws, and the [ObjectId] the driver generates. *)
Record Ambient : Type := mkAmbient {
  now : Z;
  entropy : string;
  fresh_oid : string
}.

(** The npm packages the routes call, as an interface.
    - [isISO8601]: validator.js;  [Date_parse s]: [new Date(s)], [None]
      for an Invalid Date;
    - [bcrypt_*]: bcryptjs ([genSalt rounds] drawing from the entropy);
    - [jwt_sign id secret expiresIn now]: [jwt.sign({ id }, secret,
      { expiresIn })], [None] when it throws; [jwt_verify token secret now]:
      [decoded.id] of [jwt.verify(token, secret)], [None] when it throws
      (malformed, bad signature, expired);
    - [castObjectId]: whether Mongoose can cast the string to an ObjectId. *)
Class Libs : Type := mkLibs {
  isISO8601 : string -> bool;
  Date_parse : string -> option Z;
  bcrypt_genSalt : nat -> string -> string;
  bcrypt_hash : string -> string -> string;
  bcrypt_compare : string -> string -> bool;
  jwt_sign : string -> string -> string -> Z -> option string;
  jwt_verify : string -> string -> Z -> option string;
  castObjectId : string -> bool
}.

(** ** Effects: store, trace and exceptions *)

Inductive Exn : Type :=
| Error (msg : string)                    (* new Error(msg) *)
| JsonWebTokenError                       (* thrown by jsonwebtoken *)
| CastError (path : string)               (* Mongoose cast failure *)
| ValidationError (paths : list string)   (* Mongoose validation on save *)
| DuplicateKey (index : string).          (* MongoServerError E11000 *)

(** What a handler does besides answering, most recent first. *)
Inductive Event : Type :=
| EvFindOne
| EvFindById
| EvInsert
| EvUpdate
| EvGenSalt
| EvHash
| EvCompare
| EvSign
| EvVerify
| EvLog (line : string).

Record World : Type := mkWorld {
  users : list User;
  trace : list Event
}.

(** A computation reads and writes the world and returns or throws; what
    was written before a throw stays written. *)
Definition M (A : Type) : Type := World -> (Exn + A) * World.

Definition ret {A} (a : A) : M A := fun w => (inr a, w).

Definition bind {A B} (m : M A) (k : A -> M B) : M B :=
  fun w =>
    match m w with
    | (inr a, w') => k a w'
    | (inl e, w') => (inl e, w')
    end.

Definition throw {A} (e : Exn) : M A := fun w => (inl e, w).

(** [try { m } catch (error) { h error }] *)
Definition try_catch {A} (m : M A) (h : Exn -> M A) : M A :=
  fun w =>
    match m w with
    | (inr a, w') => (inr a, w')
    | (inl e, w') => h e w'
    end.

Definition emit (e : Event) : M unit :=
  fun w => (inr tt, mkWorld (users w) (e :: trace w)).

Definition get_users : M (list User) := fun w => (inr (users w), w).

Definition put_users (us : list User) : M unit :=
  fun w => (inr tt, mkWorld us (trace w)).

(** Writes of other requests that land while this one is suspended in an
    [await]. *)
Definition interleave (others : list User -> list User) : M unit :=
  fun w => (inr tt, mkWorld (others (users w)) (trace w)).

Declare Scope handler_scope.
Delimit Scope handler_scope with handler.
Notation "x <- m ;; k" := (bind m (fun x => k))
  (at level 61, m at next level, right associativity) : handler_scope.
Notation "m ;; k" := (bind m (fun _ => k))
  (at level 61, right associativity) : handler_scope.
Local Open Scope handler_scope.

(** ** express-validator chains *)

Module Validator.

(** [toString(value)] of express-validator: [null] and [undefined] become
    the empty string. *)
Definition toString (v : field string) : string :=
  match v with
  | Val s => s
  | _ => ""
  end.

Inductive Rule : Type :=
| NotEmpty                      (* .notEmpty() *)
| IsLength (min : nat)          (* .isLength({ min }) *)
| Matches (r : Regex.re)        (* .matches(REGEX) *)
| IsISO8601.                    (* .isISO8601() *)

Inductive Step : Type :=
| Trim                                      (* .trim() *)
| Validate (c : Rule) (msg : string).      (* .check().withMessage(msg) *)

(** [body(path)...], with [optional_falsy] for
    [.optional({ values: 'falsy' })]. *)
Record Chain : Type := mkChain {
  path : string;
  optional_falsy : bool;
  steps : list Step
}.

(** One entry of [errors.array()]: [{ type: 'field', value, msg, path,
    location: 'body' }]; an [undefined] value is dropped by JSON. *)
Record FieldError : Type := mkFieldError {
  fe_value : option Json;
  fe_msg : string;
  fe_path : string
}.

Definition json_of_value (v : field string) : option Json :=
  match v with
  | Undefined => None
  | Null => Some JNull
  | Val s => Some (JStr s)
  end.

Definition json_of_error (e : FieldError) : Json :=
  JObj ([("type", JStr "field")]
        ++ match fe_value e with Some j => [("value", j)] | None => [] end
        ++ [("msg", JStr (fe_msg e)); ("path", JStr (fe_path e));
            ("location", JStr "body")]).

Definition get_path (p : string) (b : Body) : field string :=
  if (p =? "username")%string then body_username b
  else if (p =? "password")%string then body_password b
  else if (p =? "email")%string then body_email b
  else if (p =? "phone")%string then body_phone b
  else if (p =? "dob")%string then body_dob b
  else Undefined.

Definition set_path (p : string) (v : field string) (b : Body) : Body :=
  if (p =? "username")%string then
    mkBody v (body_password b) (body_email b) (body_phone b) (body_dob b)
  else if (p =? "password")%string then
    mkBody (body_username b) v (body_email b) (body_phone b) (body_dob b)
  else if (p =? "email")%string then
    mkBody (body_username b) (body_password b) v (body_phone b) (body_dob b)
  else if (p =? "phone")%string then
    mkBody (body_username b) (body_password b) (body_email b) v (body_dob b)
  else if (p =? "dob")%string then
    mkBody (body_username b) (body_password b) (body_email b) (body_phone b) v
  else b.

Section Run.
Context {L : Libs}.

Definition holds (c : Rule) (s : string) : bool :=
  match c with
  | NotEmpty => negb (String.length s =? 0)
  | IsLength min => min <=? Js.isLength_len (Js.units s)
  | Matches r => Regex.test r s
  | IsISO8601 => isISO8601 s
  end.

(** The steps run in order on the current value.  Before every step an
    optional chain tests the value as it is by then, and skips the step on
    a falsy one: a member that [trim] empties does not reach the check that
    follows.  A sanitizer replaces the value; a failing check records an
    error and the chain goes on. *)
Fixpoint run_steps (optional : bool) (p : string) (ss : list Step)
  (v : field string) : list FieldError * field string :=
  match ss with
  | [] => ([], v)
  | s :: ss' =>
      if optional && negb (truthy v) then run_steps optional p ss' v
      else
        match s with
        | Trim => run_steps optional p ss' (Val (Js.trim (toString v)))
        | Validate c msg =>
            let (errs, v') := run_steps optional p ss' v in
            if holds c (toString v) then (errs, v')
            else (mkFieldError (json_of_value v) msg p :: errs, v')
        end
  end.

(** A chain on the request: the value the steps leave is written back to
    [req.body]. *)
Definition run_chain (c : Chain) (b : Body) : list FieldError * Body :=
  let (errs, v') :=
    run_steps (optional_falsy c) (path c) (steps c) (get_path (path c) b) in
  (errs, set_path (path c) v' b).

(** The array of chains of a route, run one after the other. *)
Fixpoint run_chains (cs : list Chain) (b : Body) : list FieldError * Body :=
  match cs with
  | [] => ([], b)
  | c :: cs' =>
      let (e1, b1) := run_chain c b in
      let (e2, b2) := run_chains cs' b1 in
      (e1 ++ e2, b2)
  end.

End Run.

End Validator.

(** ** The User model ([models/User.js]) on Mongoose *)

Definition field_eqb {A} (eqb : A -> A -> bool) (x y : field A) : bool :=
  match x, y with
  | Undefined, Undefined => true
  | Null, Null => true
  | Val a, Val b => eqb a b
  | _, _ => false
  end.

(** A schema setter on an assigned string: [null] and [undefined] pass
    through. *)
Definition cast_string (setter : string -> string) (v : field string)
  : field string :=
  match v with
  | Val s => Val (setter s)
  | other => other
  end.

(** Setters of the schema paths: [trim] for [username] and [phone],
    [lowercase] and [trim] for [email]. *)
Definition set_username : field string -> field string := cast_string Js.trim.
Definition set_email : field string -> field string :=
  cast_string (fun s => Js.trim (Js.toLowerCase s)).
Definition set_phone : field string -> field string := cast_string Js.trim.

(** A filter on one path; Mongoose casts the value with the path's setters. *)
Inductive Cond : Type :=
| by_username (v : field string)
| by_email (v : field string).

Inductive Query : Type :=
| One (c : Cond)                (* { path: v } *)
| Or (cs : list Cond).          (* { $or: [...] } *)

Definition is_nullish {A} (v : field A) : bool :=
  match v with
  | Val _ => false
  | _ => true
  end.

Definition matches_cond (c : Cond) (u : User) : bool :=
  match c with
  | by_username (Val s) => (username u =? Js.trim s)%string
  | by_username _ => false
  | by_email (Val s) => field_eqb String.eqb (email u) (set_email (Val s))
  | by_email _ => is_nullish (email u)
  end.

Definition matches (q : Query) (u : User) : bool :=
  match q with
  | One c => matches_cond c u
  | Or cs => existsb (fun c => matches_cond c u) cs
  end.

(** The unique indexes: [_id], [username] and [email].  The name of the
    first index that [u] would violate among the documents [us]. *)
Definition violates_unique (u : User) (us : list User) : option string :=
  if existsb (fun v => (_id v =? _id u)%string) us then Some "_id_"
  else if existsb (fun v => (username v =? username u)%string) us
  then Some "username_1"
  else if existsb (fun v => field_eqb String.eqb (email v) (email u)) us
  then Some "email_1"
  else None.

(** A loaded document: its current values, the paths modified since it was
    loaded and the paths whose last assignment could not be cast. *)
Record Doc : Type := mkDoc {
  this : User;
  isNew : bool;
  modified : list string;
  castErrors : list string
}.

Definition hydrate (u : User) : Doc := mkDoc u false [] [].

(** [this.isModified(path)] *)
Definition isModified (p : string) (d : Doc) : bool :=
  isNew d || existsb (String.eqb p) (modified d).

Definition with_password (h : string) (u : User) : User :=
  mkUser (_id u) (username u) h (email u) (phone u) (dob u)
         (createdAt u) (updatedAt u).

Definition with_email (v : field string) (u : User) : User :=
  mkUser (_id u) (username u) (password u) v (phone u) (dob u)
         (createdAt u) (updatedAt u).

Definition with_phone (v : field string) (u : User) : User :=
  mkUser (_id u) (username u) (password u) (email u) v (dob u)
         (createdAt u) (updatedAt u).

Definition with_dob (v : field Z) (u : User) : User :=
  mkUser (_id u) (username u) (password u) (email u) (phone u) v
         (createdAt u) (updatedAt u).

Definition with_updatedAt (t : Z) (u : User) : User :=
  mkUser (_id u) (username u) (password u) (email u) (phone u) (dob u)
         (createdAt u) t.

(** [doc.email = v]: the setters run, and the path is marked modified when
    the value changes. *)
Definition assign_email (v : field string) (d : Doc) : Doc :=
  let v' := set_email v in
  if field_eqb String.eqb v' (email (this d)) then d
  else mkDoc (with_email v' (this d)) (isNew d)
             ("email" :: modified d) (castErrors d).

(** [doc.phone = v] *)
Definition assign_phone (v : field string) (d : Doc) : Doc :=
  let v' := set_phone v in
  if field_eqb String.eqb v' (phone (this d)) then d
  else mkDoc (with_phone v' (this d)) (isNew d)
             ("phone" :: modified d) (castErrors d).

(** A JavaScript [Date] object, or [null]. *)
Inductive JsDate : Type :=
| DateNull
| DateAt (t : Z)
| InvalidDate.

(** [doc.dob = v]: an Invalid Date cannot be cast; the old value stays and
    the failure is reported by the next validation. *)
Definition assign_dob (v : JsDate) (d : Doc) : Doc :=
  match v with
  | InvalidDate =>
      mkDoc (this d) (isNew d) (modified d) ("dob" :: castErrors d)
  | DateNull =>
      if field_eqb Z.eqb Null (dob (this d)) then d
      else mkDoc (with_dob Null (this d)) (isNew d)
                 ("dob" :: modified d) (castErrors d)
  | DateAt t =>
      if field_eqb Z.eqb (Val t) (dob (this d)) then d
      else mkDoc (with_dob (Val t) (this d)) (isNew d)
                 ("dob" :: modified d) (castErrors d)
  end.

(** The [required] validator of a string path rejects [undefined], [null]
    and the empty string. *)
Definition required_ok (v : field string) : bool := truthy v.

Section Model.
Context {L : Libs}.

(** [new Date(s)] *)
Definition new_Date (s : string) : JsDate :=
  match Date_parse s with
  | Some t => DateAt t
  | None => InvalidDate
  end.

(** [User.findOne(query)]: the first matching document or [null]. *)
Definition findOne (q : Query) : M (option User) :=
  emit EvFindOne ;;
  us <- get_users ;;
  ret (find (matches q) us).

(** [User.findById(id)]: rejects when [id] is no ObjectId. *)
Definition findById (id : string) : M (option User) :=
  emit EvFindById ;;
  if castObjectId id then
    us <- get_users ;;
    ret (find (fun u => (_id u =? id)%string) us)
  else throw (CastError "_id").

(** The pre-save hook [hashPassword], on the password of [this]:
    [if (!this.isModified('password')) return next();] and otherwise
    [this.password = await bcrypt.hash(this.password,
    await bcrypt.genSalt(10))]. *)
Definition hashPassword (amb : Ambient) (d : Doc) : M Doc :=
  if negb (isModified "password" d) then ret d
  else
    emit EvGenSalt ;;
    let salt := bcrypt_genSalt 10 (entropy amb) in
    emit EvHash ;;
    ret (mkDoc (with_password (bcrypt_hash (password (this d)) salt) (this d))
               (isNew d) (modified d) (castErrors d)).

(** [userSchema.methods.matchPassword] *)
Definition matchPassword (u : User) (enteredPassword : string) : M bool :=
  emit EvCompare ;;
  ret (bcrypt_compare enteredPassword (password u)).

(** Validation of a document before it is written: cast failures, the
    [required] paths, and [minlength: 6] of a modified password. *)
Definition invalid_paths (d : Doc) : list string :=
  (if (username (this d) =? "")%string then ["username"] else [])
  ++ (if (password (this d) =? "")%string then ["password"]
      else if isModified "password" d
              && (String.length (password (this d)) <? 6)
           then ["password"] else [])
  ++ (if required_ok (email (this d)) then [] else ["email"])
  ++ castErrors d.

(** [User.create(fields)]: build the document through the setters,
    validate, run the pre-save hook, stamp and insert under the unique
    indexes. *)
Definition User_create (amb : Ambient) (f : Body) : M User :=
  let dob' :=
    match body_dob f with
    | Undefined => (Undefined, [])
    | Null => (Null, [])
    | Val s =>
        if (s =? "")%string then (Null, [])
        else match Date_parse s with
             | Some t => (Val t, [])
             | None => (Undefined, ["dob"])
             end
    end in
  let candidate :=
    mkUser (fresh_oid amb)
           (Validator.toString (set_username (body_username f)))
           (Validator.toString (body_password f))
           (set_email (body_email f))
           (set_phone (body_phone f))
           (fst dob') (now amb) (now amb) in
  let d := mkDoc candidate true [] (snd dob') in
  match invalid_paths d with
  | (_ :: _) as ps => throw (ValidationError ps)
  | [] =>
      d' <- hashPassword amb d ;;
      emit EvInsert ;;
      us <- get_users ;;
      match violates_unique (this d') us with
      | Some ix => throw (DuplicateKey ix)
      | None => put_users (us ++ [this d']) ;; ret (this d')
      end
  end.

(** [doc.save()] of a loaded document: validate, run the pre-save hook,
    and when something was modified refresh [updatedAt] and write the
    document back under the unique indexes. *)
Definition save (amb : Ambient) (d : Doc) : M User :=
  match invalid_paths d with
  | (_ :: _) as ps => throw (ValidationError ps)
  | [] =>
      d' <- hashPassword amb d ;;
      match modified d' with
      | [] => ret (this d')
      | _ :: _ =>
          let u := with_updatedAt (now amb) (this d') in
          emit EvUpdate ;;
          us <- get_users ;;
          let others := filter (fun v => negb (_id v =? _id u)%string) us in
          if negb (existsb (fun v => (_id v =? _id u)%string) us)
          then throw (Error "DocumentNotFoundError")
          else
            match violates_unique u others with
            | Some ix => throw (DuplicateKey ix)
            | None =>
                put_users
                  (map (fun v => if (_id v =? _id u)%string then u else v) us) ;;
                ret u
            end
      end
  end.

End Model.

(** ** The routes ([routes/auth], [routes/profile]) *)

(** An inbound request: the [Authorization] header and the parsed body. *)
Record Request : Type := mkRequest {
  authorization : option string;
  req_body : Body
}.

Definition message (m : string) : Json := JObj [("message", JStr m)].

(** [process.env.X || dflt] *)
Definition env_or (v : option string) (dflt : string) : string :=
  match v with
  | Some s => if (s =? "")%string then dflt else s
  | None => dflt
  end.

(** [const secret = process.env.JWT_SECRET;
    if (!secret) throw new Error('JWT_SECRET is not defined');] *)
Definition read_secret (env : Env) : M string :=
  match JWT_SECRET env with
  | Some secret =>
      if (secret =? "")%string then throw (Error "JWT_SECRET is not defined")
      else ret secret
  | None => throw (Error "JWT_SECRET is not defined")
  end.

(** [req.headers.authorization || ''] *)
Definition header_or_empty (h : option string) : string :=
  match h with
  | Some v => v
  | None => ""
  end.

Section Routes.
Context {L : Libs}.
Import Validator.

(** [createToken(userId)] *)
Definition createToken (env : Env) (amb : Ambient) (userId : string)
  : M string :=
  secret <- read_secret env ;;
  emit EvSign ;;
  match jwt_sign userId secret (env_or (JWT_EXPIRES_IN env) "7d") (now amb)
  with
  | Some token => ret token
  | None => throw JsonWebTokenError
  end.

(** [handleValidation]: answer 400 with every error, or call [next]. *)
Definition handleValidation (errors : list FieldError)
  (next : M Response) : M Response :=
  match errors with
  | _ :: _ =>
      ret (res_status_json 400
             (JObj [("message", JStr "Validation failed");
                    ("errors", JArr (map json_of_error errors))]))
  | [] => next
  end.

(** The chains of [POST /register]. *)
Definition register_chains : list Chain :=
  [ mkChain "username" false [Trim; Validate NotEmpty "Username is required"];
    mkChain "password" false
      [Validate (IsLength 6) "Password must be at least 6 characters"];
    mkChain "email" false
      [Trim; Validate (Matches EMAIL_REGEX)
               "Email must be a valid email address"];
    mkChain "phone" true
      [Trim; Validate (Matches PHONE_REGEX)
               "Phone must be a valid phone number"];
    mkChain "dob" true
      [Validate IsISO8601 "Date of birth must be a valid ISO-8601 date"] ].

(** The account summary both authentication routes answer with. *)
Definition account_summary (user : User) (token : string) : Json :=
  JObj ([("id", JStr (_id user)); ("username", JStr (username user))]
        ++ member "email" (email user)
        ++ [("token", JStr token)]).

(** The handler of [POST /register], after the validation.  [others] are
    the writes of concurrent requests that land between the look-up and the
    insertion. *)
Definition register_handler (env : Env) (amb : Ambient)
  (others : list User -> list User) (b : Body) : M Response :=
  try_catch
    (existingUser <- findOne (Or [by_email (body_email b);
                                  by_username (body_username b)]) ;;
     match existingUser with
     | Some _ =>
         ret (res_status_json 400
                (JObj [("message",
                        JStr "User with that username or email already exists");
                       ("errors", JArr [])]))
     | None =>
         interleave others ;;
         user <- User_create amb b ;;
         token <- createToken env amb (_id user) ;;
         ret (res_status_json 201 (account_summary user token))
     end)
    (fun error =>
       emit (EvLog "Register error:") ;;
       ret (res_status_json 500 (message "Server error"))).

(** [POST /api/auth/register] *)
Definition register (env : Env) (amb : Ambient)
  (others : list User -> list User) (b : Body) : M Response :=
  let (errors, b) := run_chains register_chains b in
  handleValidation errors (register_handler env amb others b).

(** The chains of [POST /login]; the last one is the custom check on the
    whole body. *)
Definition login_chains : list Chain :=
  [ mkChain "password" false [Validate NotEmpty "Password is required"];
    mkChain "username" true
      [Trim; Validate NotEmpty "Username cannot be empty"];
    mkChain "email" true
      [Trim; Validate (Matches EMAIL_REGEX)
               "Email must be a valid email address"] ].

Definition login_custom (b : Body) : list FieldError :=
  if negb (truthy (body_username b)) && negb (truthy (body_email b))
  then [mkFieldError (Some (json_of_body b))
                     "Username or email is required" ""]
  else [].

Definition login_validation (b : Body) : list FieldError * Body :=
  let (errors, b') := run_chains login_chains b in
  (errors ++ login_custom b', b').

(** [const query = username ? { username } : { email };] *)
Definition login_query (b : Body) : Query :=
  if truthy (body_username b)
  then One (by_username (body_username b))
  else One (by_email (body_email b)).

(** The handler of [POST /login], after the validation. *)
Definition login_handler (env : Env) (amb : Ambient) (b : Body)
  : M Response :=
  try_catch
    (user <- findOne (login_query b) ;;
     match user with
     | None => ret (res_status_json 401 (message "Invalid credentials"))
     | Some user =>
         emit EvCompare ;;
         let isMatch :=
           bcrypt_compare (toString (body_password b)) (password user) in
         if negb isMatch then
           ret (res_status_json 401 (message "Invalid credentials"))
         else
           token <- createToken env amb (_id user) ;;
           ret (res_json (account_summary user token))
     end)
    (fun error =>
       emit (EvLog "Login error:") ;;
       ret (res_status_json 500 (message "Server error"))).

(** [POST /api/auth/login] *)
Definition login (env : Env) (amb : Ambient) (b : Body) : M Response :=
  let (errors, b) := login_validation b in
  handleValidation errors (login_handler env amb b).

(** [requireAuth]: either answers itself, or attaches the user and lets
    the request through to the next handler. *)
Definition requireAuth (env : Env) (amb : Ambient) (req : Request)
  : M (Response + User) :=
  let authHeader := header_or_empty (authorization req) in
  if negb (Js.startsWith "Bearer " authHeader) then
    ret (inl (res_status_json 401 (message "Not authorized, token missing")))
  else
    let token := nth_error (Js.split " " authHeader) 1 in
    try_catch
      (secret <- read_secret env ;;
       emit EvVerify ;;
       decoded_id <-
         match token with
         | Some t =>
             match jwt_verify t secret (now amb) with
             | Some id => ret id
             | None => throw JsonWebTokenError
             end
         | None => throw JsonWebTokenError
         end ;;
       user <- findById decoded_id ;;
       match user with
       | None => ret (inl (res_status_json 401 (message "Not authorized")))
       | Some user => ret (inr user)
       end)
      (fun error =>
         ret (inl (res_status_json 401
                     (message "Not authorized, token invalid")))).

(** The profile as both profile routes answer it. *)
Definition profile_view (user : User) : Json :=
  JObj ([("id", JStr (_id user)); ("username", JStr (username user))]
        ++ member "email" (email user)
        ++ [("phone", JStr (if truthy (phone user)
                            then toString (phone user) else ""));
            ("dob", match dob user with Val t => JDate t | _ => JNull end);
            ("createdAt", JDate (createdAt user));
            ("updatedAt", JDate (updatedAt user))]).

(** [GET /api/profile] *)
Definition get_profile (env : Env) (amb : Ambient) (req : Request)
  : M Response :=
  gate <- requireAuth env amb req ;;
  match gate with
  | inl rejected => ret rejected
  | inr user => ret (res_json (profile_view user))
  end.

(** The chains of [PUT /api/profile]. *)
Definition profile_chains : list Chain :=
  [ mkChain "email" true
      [Trim; Validate (Matches EMAIL_REGEX)
               "Email must be a valid email address"];
    mkChain "phone" true
      [Trim; Validate (Matches PHONE_REGEX)
               "Phone must be a valid phone number"];
    mkChain "dob" true
      [Validate IsISO8601 "Date of birth must be a valid ISO-8601 date"] ].

(** [dob ? new Date(dob) : null] *)
Definition dob_assigned (v : field string) : JsDate :=
  if truthy v then new_Date (toString v) else DateNull.

(** The assignments of the update handler on [req.user]:
    [if (x !== undefined) req.user.x = x], with
    [dob ? new Date(dob) : null] for the date. *)
Definition apply_update (b : Body) (d : Doc) : Doc :=
  let d1 := match body_email b with
            | Undefined => d
            | v => assign_email v d
            end in
  let d2 := match body_phone b with
            | Undefined => d1
            | v => assign_phone v d1
            end in
  match body_dob b with
  | Undefined => d2
  | v => assign_dob (dob_assigned v) d2
  end.

(** The [try] block of the handler of [PUT /api/profile]. *)
Definition update_attempt (amb : Ambient) (user : User) (b : Body)
  : M Response :=
  saved <- save amb (apply_update b (hydrate user)) ;;
  ret (res_json (profile_view saved)).

(** The handler of [PUT /api/profile], after the gate and the validation:
    whatever the [try] block throws is answered 500. *)
Definition update_handler (amb : Ambient) (user : User) (b : Body)
  : M Response :=
  try_catch (update_attempt amb user b)
    (fun error => ret (res_status_json 500 (message "Server error"))).

(** [PUT /api/profile] *)
Definition put_profile (env : Env) (amb : Ambient) (req : Request)
  : M Response :=
  gate <- requireAuth env amb req ;;
  match gate with
  | inl rejected => ret rejected
  | inr user =>
      let (errors, b) := run_chains profile_chains (req_body req) in
      handleValidation errors (update_handler amb user b)
  end.

End Routes.

(** ** Start-up ([server.js], [db.js]) *)

Inductive Process : Type :=
| Listening (port : string)     (* app.listen(PORT) *)
| Exited (code : nat).          (* process.exit(code) *)

(** [connectDB()]; [reachable] is whether [mongoose.connect] succeeds. *)
Definition connectDB (env : Env) (reachable : bool) : M unit :=
  match MONGO_URI env with
  | Some mongoUri =>
      if (mongoUri =? "")%string
      then throw (Error "MONGO_URI environment variable is not set")
      else if reachable then emit (EvLog "MongoDB connected")
      else emit (EvLog "MongoDB connection error:") ;;
           throw (Error "MongoNetworkError")
  | None => throw (Error "MONGO_URI environment variable is not set")
  end.

(** [startServer()], with [const PORT = process.env.PORT || 5000]. *)
Definition startServer (env : Env) (reachable : bool) : M Process :=
  try_catch
    (connectDB env reachable ;;
     emit (EvLog "Server running on port") ;;
     ret (Listening (env_or (PORT env) "5000")))
    (fun error =>
       emit (EvLog "Failed to start server") ;;
       ret (Exited 1)).

(** ** The controllers and their gate ([src/middleware/authMiddleware.js],
    [src/controllers/userController.js])

    Their [User] model is not among the sources, so a document is any list
    of members; the router that mounts the controllers is missing as well,
    and [protect] is the only code that sets [req.user] for them. *)

Module Controller.

Definition Doc : Type := list (string * Json).

Definition get (k : string) (d : Doc) : option Json :=
  match find (fun kv => (fst kv =? k)%string) d with
  | Some (_, v) => Some v
  | None => None
  end.

Definition set (k : string) (v : Json) (d : Doc) : Doc :=
  if existsb (fun kv => (fst kv =? k)%string) d
  then map (fun kv => if (fst kv =? k)%string then (k, v) else kv) d
  else d ++ [(k, v)].

(** [query.select('-password')]: the projection drops the member. *)
Definition select_minus (k : string) (d : Doc) : Doc :=
  filter (fun kv => negb (fst kv =? k)%string) d.

Definition findById (store : list Doc) (id : string) : option Doc :=
  find (fun d => match get "_id" d with
                 | Some (JStr i) => (i =? id)%string
                 | _ => false
                 end) store.

(** The body members [updateProfile] reads. *)
Record ProfileBody : Type := mkProfileBody {
  name : field string;
  bio : field string;
  avatarUrl : field string
}.

Section Handlers.
Context {L : Libs}.

(** [protect]: answers itself, or sets [req.user] (which is [null] when the
    id does not resolve) and calls [next]. *)
Definition protect (env : Env) (t : Z) (store : list Doc)
  (authHeader : option string) : Response + option Doc :=
  match authHeader with
  | None =>
      inl (res_status_json 401 (message "Not authorized, no token provided"))
  | Some h =>
      if negb (Js.startsWith "Bearer " h) then
        inl (res_status_json 401
               (message "Not authorized, no token provided"))
      else
        let failed :=
          inl (res_status_json 401 (message "Not authorized, token failed")) in
        match JWT_SECRET env, nth_error (Js.split " " h) 1 with
        | Some secret, Some token =>
            if (secret =? "")%string then failed
            else match jwt_verify token secret t with
                 | Some id =>
                     if castObjectId id
                     then inr (option_map (select_minus "password")
                                          (findById store id))
                     else failed
                 | None => failed
                 end
        | _, _ => failed
        end
  end.

(** [getProfile] *)
Definition getProfile (req_user : option Doc) : Response :=
  match req_user with
  | None => res_status_json 401 (message "Not authorized")
  | Some user => res_json (JObj user)
  end.

(** [a || b] and [a ?? b] on a body member and the current value. *)
Definition or_else (v : field string) (cur : option Json) : option Json :=
  if truthy v then Some (JStr (Validator.toString v)) else cur.

Definition nullish_else (v : field string) (cur : option Json)
  : option Json :=
  match v with
  | Val s => Some (JStr s)
  | _ => cur
  end.

Definition assign (k : string) (v : option Json) (d : Doc) : Doc :=
  match v with
  | Some j => set k j d
  | None => d
  end.

Definition pick (k : string) (d : Doc) : list (string * Json) :=
  match get k d with
  | Some v => [(k, v)]
  | None => []
  end.

(** [updateProfile]; [save_doc] is [req.user.save()] of the missing model,
    [None] when it rejects. *)
Definition updateProfile (save_doc : Doc -> option Doc)
  (req_user : option Doc) (b : ProfileBody) : Response :=
  match req_user with
  | None => res_status_json 401 (message "Not authorized")
  | Some user =>
      let u1 := assign "name" (or_else (name b) (get "name" user)) user in
      let u2 := assign "bio" (nullish_else (bio b) (get "bio" u1)) u1 in
      let u3 := assign "avatarUrl"
                  (nullish_else (avatarUrl b) (get "avatarUrl" u2)) u2 in
      match save_doc u3 with
      | Some updatedUser =>
          res_json (JObj (pick "_id" updatedUser ++ pick "name" updatedUser
                          ++ pick "email" updatedUser ++ pick "bio" updatedUser
                          ++ pick "avatarUrl" updatedUser
                          ++ pick "updatedAt" updatedUser))
      | None => res_status_json 500 (message "Server error")
      end
  end.

(** A controller mounted behind [protect]. *)
Definition guarded (gate : Response + option Doc)
  (controller : option Doc -> Response) : Response :=
  match gate with
  | inl rejected => rejected
  | inr req_user => controller req_user
  end.

End Handlers.

End Controller.

(** ** Executable stand-ins for the packages

    Small functions with the behaviour the handlers rely on, so that the
    routes can be run on concrete requests.  A hash is a padded salt
    followed by the reversed password; a token is the signing key and the
    account id (it does not expire); a date is [YYYY-MM-DD]. *)

Module Sample.

Definition pad (n : nat) (s : string) : string :=
  String.substring 0 n (s ++ "................................")%string.

Definition drop (n : nat) (s : string) : string :=
  String.substring n (String.length s - n) s.

Definition genSalt (rounds : nat) (seed : string) : string :=
  ("$2a$10$" ++ pad 4 seed)%string.

Definition hash (pw salt : string) : string :=
  (pad 11 salt ++ Js.rev pw)%string.

Definition compare (pw h : string) : bool :=
  (11 <=? String.length h) && (drop 11 h =? Js.rev pw)%string.

Definition sign (id secret expiresIn : string) (t : Z) : option string :=
  Some ("jwt." ++ secret ++ "." ++ id)%string.

Definition verify (token secret : string) (t : Z) : option string :=
  let header := ("jwt." ++ secret ++ ".")%string in
  if String.prefix header token
  then Some (drop (String.length header) token)
  else None.

Fixpoint all_digits (s : string) : bool :=
  match s with
  | EmptyString => true
  | String c s' => Js.is_digit c && all_digits s'
  end.

Definition iso_date (s : string) : bool :=
  (String.length s =? 10)
  && all_digits (String.substring 0 4 s)
  && (String.substring 4 1 s =? "-")%string
  && all_digits (String.substring 5 2 s)
  && (String.substring 7 1 s =? "-")%string
  && all_digits (String.substring 8 2 s).

Fixpoint digits (s : string) (acc : Z) : Z :=
  match s with
  | EmptyString => acc
  | String c s' =>
      if Js.is_digit c
      then digits s' (10 * acc + Z.of_nat (nat_of_ascii c - 48))%Z
      else digits s' acc
  end.

Definition parse_date (s : string) : option Z :=
  if iso_date s then Some (digits s 0%Z) else None.

Definition digit (n : Z) : string :=
  String (ascii_of_nat (48 + Z.to_nat (n mod 10))) EmptyString.

(** [toISOString] of a date of the stand-in: [YYYYMMDD] as [YYYY-MM-DD]. *)
Definition render_date (t : Z) : string :=
  (digit (t / 10000000) ++ digit (t / 1000000) ++ digit (t / 100000)
   ++ digit (t / 10000) ++ "-" ++ digit (t / 1000) ++ digit (t / 100)
   ++ "-" ++ digit (t / 10) ++ digit t)%string.

Definition libs : Libs :=
  mkLibs iso_date parse_date genSalt hash compare sign verify
         (fun id => String.length id =? 24).


Definition env : Env :=
  mkEnv (Some "s3cr3t") None (Some "mongodb://localhost:27017/app") None.

(** The same configuration without the signing key. *)
Definition env_no_secret : Env :=
  mkEnv None None (Some "mongodb://localhost:27017/app") None.

Definition amb : Ambient :=
  mkAmbient 1700000000000%Z "abcd" "64b7f0c2a1d3e4f5a6b7c8d9".

Definition empty : World := mkWorld [] [].

Definition no_body : Body :=
  mkBody Undefined Undefined Undefined Undefined Undefined.

(** alice, as [register] stores her. *)
Definition alice : User :=
  mkUser "64b7f0c2a1d3e4f5a6b7c8d9" "alice" (hash "abcdef" (genSalt 10 "abcd"))
         (Val "a@x.com") (Val "123-456-7890") Undefined
         1700000000000%Z 1700000000000%Z.

(** The account a concurrent registration of the same username creates. *)
Definition rival : User :=
  mkUser "64b7f0c2a1d3e4f5a6b7c8da" "alice" (hash "qwerty" (genSalt 10 "wxyz"))
         (Val "alice@other.org") Undefined Undefined
         1700000000000%Z 1700000000000%Z.

(** A second account. *)
Definition bob : User :=
  mkUser "64b7f0c2a1d3e4f5a6b7c8db" "bob" (hash "hunter22" (genSalt 10 "efgh"))
         (Val "bob@y.org") Undefined Undefined
         1700000000000%Z 1700000000000%Z.


Definition alice_token : string := "jwt.s3cr3t.64b7f0c2a1d3e4f5a6b7c8d9".

Definition with_alice : World := mkWorld [alice] [].

End Sample.

(** ** Observations on a run *)

(** The response a handler gave, if it returned one. *)
Definition answer {A} (run : (Exn + A) * World) : option A :=
  match fst run with
  | inr a => Some a
  | inl _ => None
  end.

(** The response with which a gate stopped the request, if it did. *)
Definition rejection {A} (run : (Exn + (Response + A)) * World)
  : option Response :=
  match fst run with
  | inr (inl r) => Some r
  | _ => None
  end.

(** The account id a bearer header stands for at instant [t]: the signing
    key is configured, it verifies the token after the first space, and the
    id in the token casts to an ObjectId. *)
Definition bearer_id {L : Libs} (env : Env) (t : Z) (authHeader : string)
  : option string :=
  match JWT_SECRET env, nth_error (Js.split " " authHeader) 1 with
  | Some secret, Some token =>
      if (secret =? "")%string then None
      else match jwt_verify token secret t with
           | Some id => if castObjectId id then Some id else None
           | None => None
           end
  | _, _ => None
  end.

Definition is_compare (e : Event) : bool :=
  match e with
  | EvCompare => true
  | _ => false
  end.

Definition has_id (id : string) (u : User) : bool := (_id u =? id)%string.

(** The same request with another [email] member. *)
Definition with_body_email (e : field string) (b : Body) : Body :=
  mkBody (body_username b) (body_password b) e (body_phone b) (body_dob b).

Definition invalid_credentials : Response :=
  res_status_json 401 (message "Invalid credentials").

(** The stored document of an account. *)
Definition stored (id : string) (w : World) : option User :=
  find (has_id id) (users w).

(** What the route may touch in a loaded document: not [password], and the
    document is not new, so the pre-save hook leaves the hash alone. *)
Definition untouched_password (d : Doc) : Prop :=
  isNew d = false /\ existsb (String.eqb "password") (modified d) = false.

(** An assignment either changes nothing or marks its path. *)
Definition marks (p : string) (d d' : Doc) : Prop :=
  (this d' = this d /\ modified d' = modified d)
  \/ modified d' = p :: modified d.

(** The value [doc.dob = v] leaves in the document. *)
Definition dob_after (v : JsDate) (old : field Z) : field Z :=
  match v with
  | DateNull => Null
  | DateAt t => Val t
  | InvalidDate => old
  end.

(** A computation never throws and its result satisfies [P]. *)
Definition answers {A} (P : A -> Prop) (m : M A) : Prop :=
  forall w, exists a, fst (m w) = inr a /\ P a.

(** Whenever a computation returns, its result satisfies [P]. *)
Definition returns {A} (P : A -> Prop) (m : M A) : Prop :=
  forall w, match fst (m w) with inr a => P a | inl _ => True end.

(** A computation leaves the stored documents alone. *)
Definition read_only {A} (m : M A) : Prop :=
  forall w, users (snd (m w)) = users w.












(** A string that does not begin with white space. *)
Definition no_lead (s : string) : bool :=
  match s with
  | EmptyString => true
  | String c _ => negb (Js.is_space c)
  end.

(** ** What validation accepts *)

(** A member of an optional chain is still there after [trim]: it is not
    [undefined], [null], empty or white space only. *)
Definition not_blank (v : field string) : bool :=
  truthy (Val (Js.trim (Validator.toString v))).

(** The members of a registration that fail their chain, in the order of
    the chains.  A [phone] of white space only is trimmed to the empty
    string and skips its check; [dob] is not trimmed. *)
Definition register_rejected_paths {L : Libs} (b : Body) : list string :=
  (if String.length (Js.trim (Validator.toString (body_username b))) =? 0
   then ["username"] else [])
  ++ (if 6 <=? String.length (Validator.toString (body_password b))
      then [] else ["password"])
  ++ (if Regex.test EMAIL_REGEX (Js.trim (Validator.toString (body_email b)))
      then [] else ["email"])
  ++ (if not_blank (body_phone b)
         && negb (Regex.test PHONE_REGEX
                    (Js.trim (Validator.toString (body_phone b))))
      then ["phone"] else [])
  ++ (if truthy (body_dob b)
         && negb (isISO8601 (Validator.toString (body_dob b)))
      then ["dob"] else []).

(** The body of a registration as its chains leave it. *)
Definition register_sanitized (b : Body) : Body :=
  mkBody (Val (Js.trim (Validator.toString (body_username b))))
         (body_password b)
         (Val (Js.trim (Validator.toString (body_email b))))
         (if truthy (body_phone b)
          then Val (Js.trim (Validator.toString (body_phone b)))
          else body_phone b)
         (body_dob b).

(** ** The store *)

(** What no route may change in an account once it exists. *)
Definition identity_of (u : User) : string * string * string * Z :=
  (_id u, username u, password u, createdAt u).

(** The document a validated registration [b] inserts. *)
Definition registered_user {L : Libs} (amb : Ambient) (b : Body) : User :=
  mkUser (fresh_oid amb)
         (Js.trim (Validator.toString (body_username b)))
         (bcrypt_hash (Validator.toString (body_password b))
                      (bcrypt_genSalt 10 (entropy amb)))
         (set_email (Val (Js.trim (Validator.toString (body_email b)))))
         (set_phone (body_phone (register_sanitized b)))
         (match body_dob b with
          | Val s => if (s =? "")%string then Null
                     else match Date_parse s with
                          | Some t => Val t
                          | None => Undefined
                          end
          | Null => Null
          | Undefined => Undefined
          end)
         (now amb) (now amb).

(** [dob] is missing, empty, or a string [new Date] can read. *)
Definition dob_readable {L : Libs} (v : field string) : bool :=
  match v with
  | Val s => (s =? "")%string
             || match Date_parse s with Some _ => true | None => false end
  | _ => true
  end.

(** [s.includes(' ')] *)
Fixpoint has_space (s : string) : bool :=
  match s with
  | EmptyString => false
  | String c s' => Ascii.eqb c " "%char || has_space s'
  end.

(** Writing [u] back over the documents with its id. *)
Definition write_back (u : User) (us : list User) : list User :=
  map (fun v => if (_id v =? _id u)%string then u else v) us.

(** The members of a profile update that fail their chain, in the order
    of the chains.  An [email] or a [phone] of white space only is trimmed
    to the empty string and skips its check. *)
Definition profile_rejected_paths {L : Libs} (b : Body) : list string :=
  (if not_blank (body_email b)
      && negb (Regex.test EMAIL_REGEX
                 (Js.trim (Validator.toString (body_email b))))
   then ["email"] else [])
  ++ (if not_blank (body_phone b)
         && negb (Regex.test PHONE_REGEX
                    (Js.trim (Validator.toString (body_phone b))))
      then ["phone"] else [])
  ++ (if truthy (body_dob b)
         && negb (isISO8601 (Validator.toString (body_dob b)))
      then ["dob"] else []).

(** The body of a profile update as its chains leave it. *)
Definition profile_sanitized (b : Body) : Body :=
  mkBody (body_username b) (body_password b)
         (if truthy (body_email b)
          then Val (Js.trim (Validator.toString (body_email b)))
          else body_email b)
         (if truthy (body_phone b)
          then Val (Js.trim (Validator.toString (body_phone b)))
          else body_phone b)
         (body_dob b).

(** The body of a login as its chains leave it. *)
Definition login_sanitized (b : Body) : Body :=
  mkBody (if truthy (body_username b)
          then Val (Js.trim (Validator.toString (body_username b)))
          else body_username b)
         (body_password b)
         (if truthy (body_email b)
          then Val (Js.trim (Validator.toString (body_email b)))
          else body_email b)
         (body_phone b) (body_dob b).

(** The query of a login, from the body as it was sent: by the trimmed
    username when that is not blank, and by the email otherwise. *)
Definition login_lookup (b : Body) : Query :=
  if not_blank (body_username b)
  then One (by_username (Val (Js.trim (Validator.toString (body_username b)))))
  else One (by_email (body_email (login_sanitized b))).

(** The paths of the errors of a login, in the order of the chains; the
    check on the whole body has the empty path.  The [username] chain
    reports nothing: a username that [trim] empties skips [notEmpty], and
    any other passes it. *)
Definition login_rejected_paths (b : Body) : list string :=
  (if String.length (Validator.toString (body_password b)) =? 0
   then ["password"] else [])
  ++ (if not_blank (body_email b)
         && negb (Regex.test EMAIL_REGEX
                    (Js.trim (Validator.toString (body_email b))))
      then ["email"] else [])
  ++ (if negb (not_blank (body_username b)) && negb (not_blank (body_email b))
      then [EmptyString] else []).

(** ** The controllers, step by step *)

(** The document [updateProfile] hands to [save]: [req.user] after the
    three assignments. *)
Definition controller_assigned (user : Controller.Doc)
  (b : Controller.ProfileBody) : Controller.Doc :=
  let u1 := Controller.assign "name"
              (Controller.or_else (Controller.name b)
                                  (Controller.get "name" user)) user in
  let u2 := Controller.assign "bio"
              (Controller.nullish_else (Controller.bio b)
                                       (Controller.get "bio" u1)) u1 in
  Controller.assign "avatarUrl"
    (Controller.nullish_else (Controller.avatarUrl b)
                             (Controller.get "avatarUrl" u2)) u2.

(** ** What the patterns match *)

(** The strings a pattern matches in full. *)
Inductive lang : Regex.re -> string -> Prop :=
| lang_eps : lang Regex.Eps EmptyString
| lang_class p c : p c = true -> lang (Regex.Class p) (String c EmptyString)
| lang_cat r1 r2 s1 s2 :
    lang r1 s1 -> lang r2 s2 -> lang (Regex.Cat r1 r2) (s1 ++ s2)%string
| lang_alt_l r1 r2 s : lang r1 s -> lang (Regex.Alt r1 r2) s
| lang_alt_r r1 r2 s : lang r2 s -> lang (Regex.Alt r1 r2) s
| lang_star_nil r : lang (Regex.Star r) EmptyString
| lang_star_more r s1 s2 :
    lang r s1 -> lang (Regex.Star r) s2 -> lang (Regex.Star r) (s1 ++ s2)%string.

(** Every character of a string is in a class. *)
Fixpoint all_chars (p : ascii -> bool) (s : string) : bool :=
  match s with
  | EmptyString => true
  | String c s' => p c && all_chars p s'
  end.

(** A phone number as [PHONE_REGEX] reads it: an optional leading [+],
    then 7 to 15 characters that are digits, white space, dashes or
    parentheses. *)
Definition phone_shape (s : string) : bool :=
  let digits :=
    match s with
    | String c rest => if Ascii.eqb c "+" then rest else s
    | EmptyString => s
    end in
  (7 <=? String.length digits) && (String.length digits <=? 15)
  && all_chars phone_char digits.

(** ** The pages (the scripts of the registration, login and profile
    pages)

    An input element is [None] when the page has no such element and
    otherwise holds its [value].  A validator returns its verdict together
    with the feedback it shows under the field.  A submit handler returns
    the JSON body it sends, or [None] when it sends nothing (a validator
    said no, or reading a missing element threw). *)

Module Page.

Inductive Feedback : Type :=
| Problem (msg : string)        (* setFieldMessage(el, msg, 'error') *)
| Fine (msg : string)           (* setFieldMessage(el, msg, 'success') *)
| Cleared.                      (* clearFieldMessage(el) *)

(** [input?.value?.trim() || ''] *)
Definition trimmed (input : option string) : string :=
  match input with
  | Some v => Js.trim v
  | None => ""
  end.

(** [input?.value || ''] *)
Definition raw (input : option string) : string :=
  match input with
  | Some v => v
  | None => ""
  end.

Definition is_empty (s : string) : bool := (s =? "")%string.

(** The inputs of the three forms. *)
Record Form : Type := mkForm {
  usernameInput : option string;
  emailInput : option string;
  passwordInput : option string;
  phoneInput : option string;
  dobInput : option string
}.

Section Scripts.
Context {L : Libs}.

(** [new Date(...).toISOString()] of a valid date. *)
Variable toISOString : Z -> string.

(** [validateUsername] (registration and login pages) *)
Definition validateUsername (input : option string) : bool * Feedback :=
  let value := trimmed input in
  if is_empty value then (false, Problem "Username is required.")
  else (true, Fine "Username looks good.").

(** [validateEmail] (registration and profile pages) *)
Definition validateEmail (input : option string) : bool * Feedback :=
  let value := trimmed input in
  if is_empty value then (false, Problem "Email is required.")
  else if negb (Regex.test EMAIL_REGEX value)
  then (false, Problem "Please enter a valid email address.")
  else (true, Fine "Email looks good.").

(** [validatePassword] of the registration page *)
Definition validatePassword (input : option string) : bool * Feedback :=
  let value := raw input in
  if is_empty value then (false, Problem "Password is required.")
  else if String.length value <? 6
  then (false, Problem "Password must be at least 6 characters.")
  else (true, Fine "Password looks good.").

(** [validatePassword] of the login page *)
Definition login_validatePassword (input : option string)
  : bool * Feedback :=
  let value := raw input in
  if is_empty value then (false, Problem "Password is required.")
  else (true, Fine "Password looks good.").

(** [validatePhone] of the registration page *)
Definition validatePhone (input : option string) : bool * Feedback :=
  let value := trimmed input in
  if is_empty value then (true, Cleared)
  else if negb (Regex.test PHONE_REGEX value)
  then (false,
        Problem
          "Phone must contain only numbers, spaces, parentheses, or dashes.")
  else (true, Fine "Phone number looks good.").

(** [validatePhone] of the profile page *)
Definition profile_validatePhone (input : option string)
  : bool * Feedback :=
  let value := trimmed input in
  if is_empty value then (true, Fine "Phone number is optional.")
  else if negb (Regex.test PHONE_REGEX value)
  then (false,
        Problem
          "Phone must contain only numbers, spaces, parentheses, or dashes.")
  else (true, Fine "Phone number looks good.").

(** [validateDob] (registration and profile pages) *)
Definition validateDob (input : option string) : bool * Feedback :=
  let value := raw input in
  if is_empty value then (true, Cleared)
  else match Date_parse value with
       | None => (false, Problem "Please choose a valid date.")
       | Some _ => (true, Fine "Date looks good.")
       end.

(** [new Date(value).toISOString()] *)
Definition iso_of (value : string) : string :=
  match Date_parse value with
  | Some t => toISOString t
  | None => ""
  end.

(** The submit handler of the registration page: the payload of the
    request.  After the validators it reads [phoneInput.value] and
    [dobInput.value] without [?.], which throws when the element is
    missing. *)
Definition register_submit (f : Form) : option Body :=
  if negb (fst (validateUsername (usernameInput f)))
     || negb (fst (validateEmail (emailInput f)))
     || negb (fst (validatePassword (passwordInput f)))
     || negb (fst (validatePhone (phoneInput f)))
     || negb (fst (validateDob (dobInput f)))
  then None
  else
    match usernameInput f, emailInput f, passwordInput f,
          phoneInput f, dobInput f with
    | Some u, Some e, Some p, Some ph, Some d =>
        Some (mkBody (Val (Js.trim u)) (Val p) (Val (Js.trim e))
                (if is_empty (Js.trim ph) then Undefined
                 else Val (Js.trim ph))
                (if is_empty d then Undefined else Val (iso_of d)))
    | _, _, _, _, _ => None
    end.

(** The submit handler of the login page. *)
Definition login_submit (f : Form) : option Body :=
  if negb (fst (validateUsername (usernameInput f)))
     || negb (fst (login_validatePassword (passwordInput f)))
  then None
  else
    match usernameInput f, passwordInput f with
    | Some u, Some p =>
        Some (mkBody (Val (Js.trim u)) (Val p) Undefined Undefined Undefined)
    | _, _ => None
    end.

(** The submit handler of the profile page: it always sends the three
    members. *)
Definition profile_submit (f : Form) : option Body :=
  if negb (fst (validateEmail (emailInput f)))
     || negb (fst (profile_validatePhone (phoneInput f)))
     || negb (fst (validateDob (dobInput f)))
  then None
  else
    Some (mkBody Undefined Undefined
            (Val (trimmed (emailInput f)))
            (Val (trimmed (phoneInput f)))
            (if is_empty (raw (dobInput f)) then Null
             else Val (iso_of (raw (dobInput f))))).

End Scripts.

End Page.

(** * Properties *)

Example email_ok : Regex.test EMAIL_REGEX "a@x.com" = true.
Proof. reflexivity. Qed.

Example email_bad : Regex.test EMAIL_REGEX "not-an-email" = false.
Proof. reflexivity. Qed.

Example email_empty : Regex.test EMAIL_REGEX "" = false.
Proof. reflexivity. Qed.

Example phone_ok : Regex.test PHONE_REGEX "123-456-7890" = true.
Proof. reflexivity. Qed.

Example phone_short : Regex.test PHONE_REGEX "123456" = false.
Proof. reflexivity. Qed.

Example phone_long : Regex.test PHONE_REGEX "+1234567890123456" = false.
Proof. reflexivity. Qed.

Example trim_ex : Js.trim "  alice " = "alice".
Proof. reflexivity. Qed.

Example split_ex : nth_error (Js.split " " "Bearer abc def") 1 = Some "abc".
Proof. reflexivity. Qed.

(** ** A small program logic for handlers *)

Section Logic.
Context {A B : Type}.



Lemma returns_throw (P : A -> Prop) (e : Exn) : returns P (throw e).
Proof. intros w. exact I. Qed.




Lemma answers_returns (P : A -> Prop) (m : M A) : answers P m -> returns P m.
Proof.
  intros H w. destruct (H w) as (a & Ha & Pa). rewrite Ha. exact Pa.
Qed.

End Logic.


(** ** Trimming *)

Section Trim.

Lemma append_assoc (a b c : string) :
  ((a ++ b) ++ c)%string = (a ++ (b ++ c))%string.
Proof. induction a as [| x a IH]; simpl; [reflexivity | now rewrite IH]. Qed.

Lemma rev_append_spec (s acc : string) :
  Js.rev_append s acc = (Js.rev s ++ acc)%string.
Proof.
  unfold Js.rev. revert acc.
  induction s as [| c s IH]; intros acc; simpl; [reflexivity |].
  rewrite IH, (IH (String c EmptyString)).
  rewrite append_assoc. reflexivity.
Qed.

Lemma rev_cons (c : ascii) (s : string) :
  Js.rev (String c s) = (Js.rev s ++ String c EmptyString)%string.
Proof. unfold Js.rev at 1. simpl. apply rev_append_spec. Qed.

Lemma append_empty_r (s : string) : (s ++ "")%string = s.
Proof. induction s as [| c s IH]; simpl; [reflexivity | now rewrite IH]. Qed.

Lemma rev_snoc (c : ascii) (s : string) :
  Js.rev (s ++ String c EmptyString) = String c (Js.rev s).
Proof.
  induction s as [| a s IH]; simpl; [reflexivity |].
  rewrite !rev_cons, IH. reflexivity.
Qed.

Lemma rev_involutive (s : string) : Js.rev (Js.rev s) = s.
Proof.
  induction s as [| c s IH]; [reflexivity |].
  rewrite rev_cons, rev_snoc, IH. reflexivity.
Qed.

Lemma ltrim_no_lead (s : string) : no_lead (Js.ltrim s) = true.
Proof.
  induction s as [| c s IH]; simpl; [reflexivity |].
  destruct (Js.is_space c) eqn:E; [exact IH | simpl; now rewrite E].
Qed.

Lemma ltrim_fixed (s : string) : no_lead s = true -> Js.ltrim s = s.
Proof.
  destruct s as [| c s]; simpl; [reflexivity |].
  destruct (Js.is_space c); [discriminate | reflexivity].
Qed.

Lemma ltrim_snoc (c : ascii) (s : string) :
  Js.is_space c = false ->
  Js.ltrim (s ++ String c EmptyString)
  = (Js.ltrim s ++ String c EmptyString)%string.
Proof.
  intros Hc. induction s as [| a s IH]; simpl; [now rewrite Hc |].
  destruct (Js.is_space a); [exact IH | reflexivity].
Qed.

Lemma rtrim_cons (c : ascii) (s : string) :
  Js.is_space c = false ->
  Js.rtrim (String c s) = String c (Js.rtrim s).
Proof.
  intros Hc. unfold Js.rtrim.
  rewrite rev_cons, (ltrim_snoc c _ Hc), rev_snoc. reflexivity.
Qed.

Lemma rtrim_no_lead (s : string) :
  no_lead s = true -> no_lead (Js.rtrim s) = true.
Proof.
  destruct s as [| c s]; [reflexivity |]. simpl. intros H.
  destruct (Js.is_space c) eqn:E; [discriminate |].
  rewrite (rtrim_cons c s E). simpl. now rewrite E.
Qed.

Lemma rtrim_idempotent (s : string) : Js.rtrim (Js.rtrim s) = Js.rtrim s.
Proof.
  unfold Js.rtrim. rewrite rev_involutive.
  rewrite (ltrim_fixed _ (ltrim_no_lead _)). reflexivity.
Qed.

(** [s.trim().trim() === s.trim()] *)
Lemma trim_idempotent (s : string) : Js.trim (Js.trim s) = Js.trim s.
Proof.
  unfold Js.trim.
  rewrite (ltrim_fixed (Js.rtrim (Js.ltrim s))).
  - apply rtrim_idempotent.
  - apply rtrim_no_lead, ltrim_no_lead.
Qed.

End Trim.

(** ** What the chains do *)

(** On the strings of the model [isLength] measures the length: a code
    unit below 256 is neither a variation selector nor half of a surrogate
    pair. *)
Lemma units_small (s : string) : Forall (fun u => (u < 256)%N) (Js.units s).
Proof.
  induction s as [| c s IH]; simpl; constructor; [| exact IH].
  apply N_ascii_bounded.
Qed.

Lemma units_length (s : string) : List.length (Js.units s) = String.length s.
Proof. induction s as [| c s IH]; simpl; [reflexivity | now rewrite IH]. Qed.

Lemma small_no_selector (us : list N) :
  Forall (fun u => (u < 256)%N) us -> filter Js.is_selector us = [].
Proof.
  induction 1 as [| u us Hu _ IH]; simpl; [reflexivity |].
  unfold Js.is_selector.
  destruct (N.eqb_spec u 65039) as [-> | _]; [lia |].
  destruct (N.eqb_spec u 65038) as [-> | _]; [lia |].
  exact IH.
Qed.

Lemma small_no_pair (us : list N) :
  Forall (fun u => (u < 256)%N) us -> Js.count_pairs us = 0.
Proof.
  induction 1 as [| u us Hu _ IH]; [reflexivity |].
  destruct us as [| v rest]; [reflexivity |].
  cbn [Js.count_pairs]. unfold Js.is_high at 1.
  destruct (N.leb_spec 55296 u) as [H | _]; [lia |].
  cbn [andb]. exact IH.
Qed.

Lemma isLength_len_units (s : string) :
  Js.isLength_len (Js.units s) = String.length s.
Proof.
  unfold Js.isLength_len.
  rewrite (small_no_selector _ (units_small s)),
    (small_no_pair _ (units_small s)), units_length.
  simpl. lia.
Qed.

(** A falsy member is blank. *)
Lemma falsy_blank (v : field string) : truthy v = false -> not_blank v = false.
Proof.
  destruct v as [| | s]; try reflexivity.
  simpl. destruct s; [reflexivity | discriminate].
Qed.

(** A string is truthy when [notEmpty] holds of it. *)
Lemma truthy_length (x : string) :
  truthy (Val x) = negb (String.length x =? 0).
Proof. destruct x; reflexivity. Qed.

(** Runs the chains of a route in the goal, innermost condition first. *)
Ltac step_goal :=
  repeat (cbv beta iota zeta delta
            -[Js.trim Regex.test EMAIL_REGEX PHONE_REGEX String.length
              Nat.eqb Nat.leb truthy isISO8601 Js.isLength_len Js.units];
          rewrite ?isLength_len_units;
          match goal with
          | |- context [if ?c then _ else _] =>
              lazymatch c with
              | context [if _ then _ else _] => fail
              | _ => destruct c eqn:?
              end
          end);
  cbv beta iota zeta delta
    -[Js.trim Regex.test EMAIL_REGEX PHONE_REGEX String.length
      Nat.eqb Nat.leb truthy isISO8601 Js.isLength_len Js.units];
  rewrite ?isLength_len_units.

(** A member cannot be falsy as sent and still there after [trim]. *)
Ltac blank_clash :=
  match goal with
  | H : truthy ?v = false,
    H2 : truthy (Val (Js.trim _)) = true |- _ =>
      let B := fresh in
      pose proof (falsy_blank v H) as B;
      cbv beta iota zeta delta [not_blank Validator.toString] in B;
      rewrite B in H2; discriminate H2
  | H : truthy (Val ?x) = true, H2 : (String.length ?x =? 0) = true |- _ =>
      rewrite truthy_length, H2 in H; discriminate H
  end.

Section ChainRuns.
Context {L : Libs}.

Lemma register_chains_run b :
  map Validator.fe_path (fst (Validator.run_chains register_chains b))
  = register_rejected_paths b
  /\ snd (Validator.run_chains register_chains b) = register_sanitized b.
Proof.
  destruct b as [u p e ph d].
  unfold register_chains, register_rejected_paths, register_sanitized.
  step_goal.
  all: try discriminate.
  all: try blank_clash.
  all: split; reflexivity.
Qed.

Lemma profile_chains_run b :
  map Validator.fe_path (fst (Validator.run_chains profile_chains b))
  = profile_rejected_paths b
  /\ snd (Validator.run_chains profile_chains b) = profile_sanitized b.
Proof.
  destruct b as [u p e ph d].
  unfold profile_chains, profile_rejected_paths, profile_sanitized.
  step_goal.
  all: try discriminate.
  all: try blank_clash.
  all: split; reflexivity.
Qed.

Lemma login_validation_run b :
  map Validator.fe_path (fst (login_validation b)) = login_rejected_paths b
  /\ snd (login_validation b) = login_sanitized b.
Proof.
  destruct b as [u p e ph d].
  unfold login_validation, login_chains, login_custom, login_rejected_paths,
    login_sanitized.
  step_goal.
  all: try discriminate.
  all: try blank_clash.
  all: split; reflexivity.
Qed.

(** A registration that passes validation reaches the handler with the
    sanitized body. *)
Lemma register_valid_run env amb others b :
  register_rejected_paths b = [] ->
  register env amb others b
  = register_handler env amb others (register_sanitized b).
Proof.
  intros H. unfold register.
  destruct (register_chains_run b) as [Hp Hs].
  destruct (Validator.run_chains register_chains b) as [errors b'].
  simpl in Hp, Hs. rewrite H in Hp. apply map_eq_nil in Hp. subst.
  reflexivity.
Qed.

Lemma login_valid_run env amb b :
  login_rejected_paths b = [] ->
  login env amb b = login_handler env amb (login_sanitized b).
Proof.
  intros H. unfold login.
  destruct (login_validation_run b) as [Hp Hs].
  destruct (login_validation b) as [errors b'].
  simpl in Hp, Hs. rewrite H in Hp. apply map_eq_nil in Hp. subst.
  reflexivity.
Qed.

(** A validated profile update reaches the handler with the sanitized
    body, in the world the gate left. *)
Lemma put_profile_valid_run env amb req w user w1 :
  requireAuth env amb req w = (inr (inr user), w1) ->
  profile_rejected_paths (req_body req) = [] ->
  put_profile env amb req w
  = update_handler amb user (profile_sanitized (req_body req)) w1.
Proof.
  intros E Hv. unfold put_profile, bind. rewrite E.
  destruct (profile_chains_run (req_body req)) as [Hp Hs].
  destruct (Validator.run_chains profile_chains (req_body req))
    as [errors b'].
  simpl in Hp, Hs. rewrite Hv in Hp. apply map_eq_nil in Hp. subst.
  reflexivity.
Qed.

End ChainRuns.

(** ** What the answers hold *)






Section Confidentiality.
Context {L : Libs}.










(** The projection of [protect] removes the member, whatever the
    document. *)
Lemma select_minus_drops (k : string) (d : Controller.Doc) :
  has_member k (JObj (Controller.select_minus k d)) = false.
Proof.
  simpl. induction d as [| [k' v] d IH]; simpl; [reflexivity |].
  destruct (k' =? k)%string eqn:E; simpl; [exact IH |].
  rewrite E. exact IH.
Qed.







End Confidentiality.

(** ** The authorization gate *)

Section Gate.
Context {L : Libs}.

(** What [requireAuth] does, case by case; it only reads the store. *)
Lemma requireAuth_spec env amb req w :
  let h := header_or_empty (authorization req) in
  fst (requireAuth env amb req w) =
    inr (if negb (Js.startsWith "Bearer " h)
         then inl (res_status_json 401 (message "Not authorized, token missing"))
         else match bearer_id env (now amb) h with
              | None =>
                  inl (res_status_json 401
                         (message "Not authorized, token invalid"))
              | Some id =>
                  match stored id w with
                  | None => inl (res_status_json 401 (message "Not authorized"))
                  | Some user => inr user
                  end
              end)
  /\ users (snd (requireAuth env amb req w)) = users w.
Proof.
  unfold requireAuth, bearer_id, stored, read_secret, findById.
  cbv zeta.
  destruct (negb (Js.startsWith "Bearer " _)); [split; reflexivity |].
  generalize (nth_error (Js.split " " (header_or_empty (authorization req))) 1).
  intros token.
  unfold try_catch, bind, throw, ret, emit, get_users. simpl.
  destruct token as [token |];
    (destruct (JWT_SECRET env) as [secret |]; [| split; reflexivity]);
    (destruct (secret =? "")%string; simpl; [split; reflexivity |]);
    [| split; reflexivity].
  destruct (jwt_verify token secret (now amb)) as [id |]; [| split; reflexivity].
  simpl. destruct (castObjectId id); [| split; reflexivity]. simpl.
  unfold has_id.
  destruct (find _ (users w)); split; reflexivity.
Qed.

Lemma requireAuth_read_only env amb req : read_only (requireAuth env amb req).
Proof. intros w. apply requireAuth_spec. Qed.

End Gate.

Section GateOfControllers.
Context {L : Libs}.

(** What [protect] does, case by case. *)
Lemma protect_spec env t store header :
  let h := header_or_empty header in
  Controller.protect env t store header
  = if negb (Js.startsWith "Bearer " h)
    then inl (res_status_json 401
                (message "Not authorized, no token provided"))
    else match bearer_id env t h with
         | None =>
             inl (res_status_json 401 (message "Not authorized, token failed"))
         | Some id =>
             inr (option_map (Controller.select_minus "password")
                             (Controller.findById store id))
         end.
Proof.
  unfold Controller.protect, bearer_id. cbv zeta.
  destruct header as [h |]; [| reflexivity]. cbn [header_or_empty].
  destruct (negb (Js.startsWith "Bearer " h)); [reflexivity |].
  destruct (JWT_SECRET env) as [secret |]; [| reflexivity].
  destruct (nth_error _ 1) as [token |]; [| reflexivity].
  destruct (secret =? "")%string; [reflexivity |].
  destruct (jwt_verify token secret t) as [id |]; [| reflexivity].
  destruct (castObjectId id); reflexivity.
Qed.

End GateOfControllers.

(** C2, as the code has it.  Both gates answer every rejection with status
    401 and a message that begins with [Not authorized], but the message
    tells the cases apart.  [requireAuth] answers [Not authorized, token
    missing] exactly when the header is absent or does not start with
    [Bearer ]; otherwise [Not authorized, token invalid] exactly when the
    token does not verify to an id that casts (malformed, tampered, expired,
    or the signing key unset); otherwise [Not authorized] exactly when the
    id resolves to no account; otherwise it lets the request through.
    [protect] answers [Not authorized, no token provided] and
    [Not authorized, token failed] in the first two cases, and lets the
    request through in the others, with [req.user] null when the id does
    not resolve. *)
Theorem requireAuth_rejection_messages :
  forall (L : Libs) (env : Env) (amb : Ambient) (req : Request) (w : World)
         (store : list Controller.Doc),
    let h := header_or_empty (authorization req) in
    let said := fun m => res_status_json 401 (message m) in
    rejection (requireAuth env amb req w)
    = (if negb (Js.startsWith "Bearer " h)
       then Some (said "Not authorized, token missing")
       else match bearer_id env (now amb) h with
            | None => Some (said "Not authorized, token invalid")
            | Some id =>
                match stored id w with
                | None => Some (said "Not authorized")
                | Some _ => None
                end
            end)
    /\ Controller.protect env (now amb) store (authorization req)
       = (if negb (Js.startsWith "Bearer " h)
          then inl (said "Not authorized, no token provided")
          else match bearer_id env (now amb) h with
               | None => inl (said "Not authorized, token failed")
               | Some id =>
                   inr (option_map (Controller.select_minus "password")
                                   (Controller.findById store id))
               end)
    /\ (forall r,
          rejection (requireAuth env amb req w) = Some r
          \/ Controller.protect env (now amb) store (authorization req)
             = inl r ->
          status r = 401
          /\ exists m, body r = message m
                       /\ String.prefix "Not authorized" m = true).
Proof.
  intros L env amb req w store h said.
  assert (Hr : rejection (requireAuth env amb req w)
               = (if negb (Js.startsWith "Bearer " h)
                  then Some (said "Not authorized, token missing")
                  else match bearer_id env (now amb) h with
                       | None => Some (said "Not authorized, token invalid")
                       | Some id =>
                           match stored id w with
                           | None => Some (said "Not authorized")
                           | Some _ => None
                           end
                       end)).
  { unfold rejection.
    destruct (requireAuth_spec env amb req w) as [E _]. fold h in E.
    rewrite E. destruct (negb (Js.startsWith "Bearer " h)); [reflexivity |].
    destruct (bearer_id env (now amb) h) as [id |]; [| reflexivity].
    destruct (stored id w); reflexivity. }
  pose proof (protect_spec env (now amb) store (authorization req)) as Hp.
  fold h in Hp.
  split; [exact Hr |]. split; [exact Hp |].
  intros r [H | H].
  - rewrite Hr in H.
    destruct (negb (Js.startsWith "Bearer " h)).
    + injection H as <-. split; [reflexivity |].
      exists "Not authorized, token missing". split; reflexivity.
    + destruct (bearer_id env (now amb) h) as [id |].
      * destruct (stored id w); [discriminate |].
        injection H as <-. split; [reflexivity |].
        exists "Not authorized". split; reflexivity.
      * injection H as <-. split; [reflexivity |].
        exists "Not authorized, token invalid". split; reflexivity.
  - rewrite Hp in H.
    destruct (negb (Js.startsWith "Bearer " h)).
    + injection H as <-. split; [reflexivity |].
      exists "Not authorized, no token provided". split; reflexivity.
    + destruct (bearer_id env (now amb) h) as [id |]; [discriminate |].
      injection H as <-. split; [reflexivity |].
      exists "Not authorized, token failed". split; reflexivity.
Qed.

(** C2, as stated, fails: three rejected requests, three different
    messages (no header; a token that does not verify; a verified token of
    an account that is not in the store). *)
Lemma requireAuth_messages_differ :
  let gate h := rejection (requireAuth (L := Sample.libs) Sample.env Sample.amb
                             (mkRequest h Sample.no_body) Sample.with_alice) in
  let said r := match r with Some r => message_of (body r) | None => None end in
  said (gate None) = Some "Not authorized, token missing"
  /\ said (gate (Some "Bearer garbage"))
     = Some "Not authorized, token invalid"
  /\ said (gate (Some "Bearer jwt.s3cr3t.000000000000000000000000"))
     = Some "Not authorized"
  /\ said (gate None) <> said (gate (Some "Bearer garbage"))
  /\ said (gate (Some "Bearer garbage"))
     <> said (gate (Some "Bearer jwt.s3cr3t.000000000000000000000000")).
Proof.
  repeat split; try reflexivity; vm_compute; discriminate.
Qed.

(** ** Login *)

Section Login.
Context {L : Libs}.

(** A validated login for which the look-up finds nobody: one query, the
    401, and nothing else. *)
Lemma login_no_account env amb b b' w :
  login_validation b = ([], b') ->
  find (matches (login_query b')) (users w) = None ->
  login env amb b w
  = (inr invalid_credentials, mkWorld (users w) (EvFindOne :: trace w)).
Proof.
  intros Hv Hf. unfold login. rewrite Hv. simpl.
  unfold login_handler, try_catch, bind, findOne, bind, emit, get_users, ret.
  simpl.
  rewrite Hf. reflexivity.
Qed.

(** A validated login whose account is found but whose password does not
    verify: the query, the comparison, and the same 401. *)
Lemma login_wrong_secret env amb b b' w u :
  login_validation b = ([], b') ->
  find (matches (login_query b')) (users w) = Some u ->
  bcrypt_compare (Validator.toString (body_password b')) (password u) = false ->
  login env amb b w
  = (inr invalid_credentials,
     mkWorld (users w) (EvCompare :: EvFindOne :: trace w)).
Proof.
  intros Hv Hf Hc. unfold login. rewrite Hv. simpl.
  unfold login_handler, try_catch, bind, findOne, bind, emit, get_users, ret.
  simpl.
  rewrite Hf. simpl. rewrite Hc. reflexivity.
Qed.

(** Whenever the account is found, the comparison runs. *)
Lemma login_found_compares env amb b b' w u :
  login_validation b = ([], b') ->
  find (matches (login_query b')) (users w) = Some u ->
  exists evs,
    trace (snd (login env amb b w))
    = evs ++ EvCompare :: EvFindOne :: trace w.
Proof.
  intros Hv Hf. unfold login. rewrite Hv. simpl.
  unfold login_handler, try_catch, bind, findOne, bind, emit, get_users, ret.
  simpl.
  rewrite Hf. simpl.
  destruct (bcrypt_compare _ _); simpl; [| exists []; reflexivity].
  unfold createToken, read_secret, bind, emit, throw, ret.
  destruct (JWT_SECRET env) as [secret |]; simpl;
    [| exists [EvLog "Login error:"]; reflexivity].
  destruct (secret =? "")%string; simpl;
    [exists [EvLog "Login error:"]; reflexivity |].
  destruct (jwt_sign _ _ _ _); simpl;
    [exists [EvSign] | exists [EvLog "Login error:"; EvSign]]; reflexivity.
Qed.

End Login.

(** C3.  Among the logins that pass validation, the one whose identifier
    matches no account and the one whose account exists but whose secret
    does not verify get the same response: status 401 with the message
    [Invalid credentials]. *)
Theorem login_failures_same_response :
  forall (L : Libs) (env : Env) (amb : Ambient)
         (b1 b1' : Body) (w1 : World) (b2 b2' : Body) (w2 : World) (u : User),
    login_validation b1 = ([], b1') ->
    find (matches (login_query b1')) (users w1) = None ->
    login_validation b2 = ([], b2') ->
    find (matches (login_query b2')) (users w2) = Some u ->
    bcrypt_compare (Validator.toString (body_password b2')) (password u)
    = false ->
    answer (login env amb b1 w1)
    = Some (res_status_json 401 (message "Invalid credentials"))
    /\ answer (login env amb b2 w2) = answer (login env amb b1 w1).
Proof.
  intros L env amb b1 b1' w1 b2 b2' w2 u Hv1 Hf1 Hv2 Hf2 Hc.
  rewrite (login_no_account env amb b1 b1' w1 Hv1 Hf1).
  rewrite (login_wrong_secret env amb b2 b2' w2 u Hv2 Hf2 Hc).
  split; reflexivity.
Qed.

Lemma login_failures_same_response_witness :
  let unknown := mkBody (Val "bob") (Val "abcdef") Undefined Undefined Undefined in
  let wrong := mkBody (Val "alice") (Val "abcdeg") Undefined Undefined Undefined in
  answer (login (L := Sample.libs) Sample.env Sample.amb unknown Sample.with_alice)
  = Some (res_status_json 401 (message "Invalid credentials"))
  /\ answer (login (L := Sample.libs) Sample.env Sample.amb wrong Sample.with_alice)
     = answer (login (L := Sample.libs) Sample.env Sample.amb unknown
                 Sample.with_alice).
Proof.
  intros unknown wrong.
  apply (login_failures_same_response Sample.libs Sample.env Sample.amb
           unknown unknown Sample.with_alice wrong wrong Sample.with_alice
           Sample.alice); reflexivity.
Defined.

(** C8, as the code has it.  For a validated login whose identifier matches
    no account the handler answers after the look-up alone: the comparison
    does not run and nothing stands in for it; it runs exactly when an
    account is found. *)
Theorem login_compare_only_when_found :
  forall (L : Libs) (env : Env) (amb : Ambient) (b b' : Body) (w : World),
    login_validation b = ([], b') ->
    match find (matches (login_query b')) (users w) with
    | None =>
        login env amb b w
        = (inr (res_status_json 401 (message "Invalid credentials")),
           mkWorld (users w) (EvFindOne :: trace w))
    | Some _ =>
        exists evs,
          trace (snd (login env amb b w))
          = evs ++ EvCompare :: EvFindOne :: trace w
    end.
Proof.
  intros L env amb b b' w Hv.
  destruct (find _ (users w)) as [u |] eqn:Hf.
  - exact (login_found_compares env amb b b' w u Hv Hf).
  - exact (login_no_account env amb b b' w Hv Hf).
Qed.

Lemma login_compare_only_when_found_witness :
  let unknown := mkBody (Val "bob") (Val "abcdef") Undefined Undefined Undefined in
  login (L := Sample.libs) Sample.env Sample.amb unknown Sample.with_alice
  = (inr (res_status_json 401 (message "Invalid credentials")),
     mkWorld [Sample.alice] [EvFindOne]).
Proof.
  intros unknown.
  exact (login_compare_only_when_found Sample.libs Sample.env Sample.amb
           unknown unknown Sample.with_alice eq_refl).
Defined.

(** C8, as stated, fails: for an unknown user the trace of the login holds
    no comparison, while a wrong password for a known user leaves one. *)
Lemma login_unknown_user_skips_compare :
  let run name pw :=
    login (L := Sample.libs) Sample.env Sample.amb
      (mkBody (Val name) (Val pw) Undefined Undefined Undefined)
      Sample.with_alice in
  answer (run "bob" "abcdef") = answer (run "alice" "abcdeg")
  /\ existsb is_compare (trace (snd (run "bob" "abcdef"))) = false
  /\ existsb is_compare (trace (snd (run "alice" "abcdeg"))) = true.
Proof. repeat split. Qed.

(** ** Which identifier a login looks up *)

Section LoginLookup.
Context {L : Libs}.

(** The handler reads the query and the password, nothing else. *)
Lemma login_handler_ext env amb b1 b2 :
  login_query b1 = login_query b2 ->
  body_password b1 = body_password b2 ->
  login_handler env amb b1 = login_handler env amb b2.
Proof. intros Hq Hp. unfold login_handler. rewrite Hq, Hp. reflexivity. Qed.

(** The query of a login, from the body as it was sent. *)
Lemma login_query_sanitized b :
  login_query (login_sanitized b) = login_lookup b.
Proof.
  unfold login_query, login_lookup, login_sanitized. cbn [body_username body_email].
  destruct (truthy (body_username b)) eqn:Ht.
  - fold (not_blank (body_username b)).
    destruct (not_blank (body_username b)); reflexivity.
  - rewrite Ht, (falsy_blank _ Ht). reflexivity.
Qed.

(** The run of a validated login, from the look-up on. *)
Lemma login_run env amb b w :
  login_rejected_paths b = [] ->
  login env amb b w
  = match find (matches (login_lookup b)) (users w) with
    | None =>
        (inr invalid_credentials, mkWorld (users w) (EvFindOne :: trace w))
    | Some u =>
        let w1 := mkWorld (users w) (EvCompare :: EvFindOne :: trace w) in
        if bcrypt_compare (Validator.toString (body_password b)) (password u)
        then
          match createToken env amb (_id u) w1 with
          | (inr token, w2) => (inr (res_json (account_summary u token)), w2)
          | (inl _, w2) =>
              (inr (res_status_json 500 (message "Server error")),
               mkWorld (users w2) (EvLog "Login error:" :: trace w2))
          end
        else (inr invalid_credentials, w1)
    end.
Proof.
  intros Hv. rewrite (login_valid_run env amb b Hv).
  unfold login_handler, try_catch, bind, findOne, bind, emit, get_users, ret.
  cbn [users trace fst snd].
  rewrite login_query_sanitized.
  destruct (find _ (users w)) as [u |]; [| reflexivity].
  cbn [users trace fst snd login_sanitized body_password].
  destruct (bcrypt_compare _ _); [| reflexivity].
  cbn [negb].
  destruct (createToken env amb (_id u) _) as [[e | token] w2]; reflexivity.
Qed.

End LoginLookup.

(** X23.  A validated login whose username is not blank looks the account
    up by the trimmed username alone: it is answered 401 [Invalid
    credentials] when no account has that username, whether or not the email
    belongs to an account; when an account has it, the password is compared
    with that account's hash and a success is answered with that account;
    and sending any other email that passes validation, or none, changes
    neither the answer nor the effects.  A validated login whose username
    is absent, empty or blank is looked up by the email. *)
Theorem login_lookup_uses_username_only :
  forall (L : Libs) (env : Env) (amb : Ambient) (b : Body) (w : World),
    login_rejected_paths b = [] ->
    let name := Js.trim (Validator.toString (body_username b)) in
    let by_name := One (by_username (Val name)) in
    let by_mail := One (by_email (body_email (login_sanitized b))) in
    let found :=
      find (matches (if not_blank (body_username b) then by_name else by_mail))
           (users w) in
    let w1 := mkWorld (users w) (EvCompare :: EvFindOne :: trace w) in
    match found with
    | None =>
        login env amb b w
        = (inr (res_status_json 401 (message "Invalid credentials")),
           mkWorld (users w) (EvFindOne :: trace w))
    | Some u =>
        if bcrypt_compare (Validator.toString (body_password b)) (password u)
        then
          answer (login env amb b w)
          = Some (match fst (createToken env amb (_id u) w1) with
                  | inr token => res_json (account_summary u token)
                  | inl _ => res_status_json 500 (message "Server error")
                  end)
        else
          login env amb b w
          = (inr (res_status_json 401 (message "Invalid credentials")), w1)
    end
    /\ (not_blank (body_username b) = true ->
        forall e : field string,
          login_rejected_paths (with_body_email e b) = [] ->
          login env amb (with_body_email e b) w = login env amb b w).
Proof.
  intros L env amb b w Hv name by_name by_mail found w1. split.
  - rewrite (login_run env amb b w Hv). unfold login_lookup.
    fold name by_name by_mail found.
    destruct found as [u |]; [| reflexivity].
    cbv zeta. fold w1.
    destruct (bcrypt_compare _ _); [| reflexivity].
    unfold answer.
    destruct (createToken env amb (_id u) w1) as [[e | token] w2]; reflexivity.
  - intros Hn e Hv2.
    rewrite (login_valid_run env amb b Hv),
      (login_valid_run env amb (with_body_email e b) Hv2).
    apply (f_equal (fun m => m w)).
    apply login_handler_ext; [| reflexivity].
    rewrite !login_query_sanitized. unfold login_lookup.
    cbn [with_body_email body_username]. rewrite Hn. reflexivity.
Qed.

Lemma login_lookup_uses_username_only_witness :
  let b := mkBody (Val "bob") (Val "abcdef") (Val "a@x.com")
                  Undefined Undefined in
  find (matches (One (by_email (Val "a@x.com")))) (users Sample.with_alice)
  = Some Sample.alice
  /\ login (L := Sample.libs) Sample.env Sample.amb b Sample.with_alice
     = (inr (res_status_json 401 (message "Invalid credentials")),
        mkWorld [Sample.alice] [EvFindOne]).
Proof.
  intros b. split; [reflexivity |].
  exact (proj1 (login_lookup_uses_username_only Sample.libs Sample.env
                  Sample.amb b Sample.with_alice eq_refl)).
Defined.

(** C9 fails on the code at a username of white space only.  The login
    that supplies such a username together with the email and the password
    of alice passes validation ([trim] empties the username, and the
    optional chain then skips its [notEmpty], so that [Username cannot be
    empty] is not reported), is looked up by the email, and is answered 200
    as alice, although no account has that username.  The registration
    route, whose username chain is not optional, refuses the same username
    with a field error. *)
Lemma blank_username_login_uses_email :
  let b := mkBody (Val " ") (Val "abcdef") (Val "a@x.com")
                  Undefined Undefined in
  truthy (body_username b) = true
  /\ find (fun u => (username u =? " ")%string || (username u =? "")%string)
          (users Sample.with_alice) = None
  /\ fst (login_validation (L := Sample.libs) b) = []
  /\ login (L := Sample.libs) Sample.env Sample.amb b Sample.with_alice
     = (inr (res_json (account_summary Sample.alice Sample.alice_token)),
        mkWorld [Sample.alice] [EvSign; EvCompare; EvFindOne])
  /\ map Validator.fe_path
         (fst (Validator.run_chains (L := Sample.libs) register_chains b))
     = ["username"].
Proof. repeat split. Qed.

(** ** Registration against a concurrent insertion *)

Section Registration.
Context {L : Libs}.

(** A creation that throws has written nothing. *)
Lemma User_create_throw_keeps amb f w e :
  fst (User_create amb f w) = inl e ->
  users (snd (User_create amb f w)) = users w.
Proof.
  unfold User_create.
  destruct (invalid_paths _) as [| p ps]; [| reflexivity].
  unfold hashPassword, bind, emit, get_users, put_users, throw, ret. simpl.
  destruct (violates_unique _ _); simpl; [reflexivity | discriminate].
Qed.

(** The handler when the look-up finds nobody and the creation throws. *)
Lemma register_handler_create_fails env amb others b w e :
  find (matches (Or [by_email (body_email b); by_username (body_username b)]))
       (users w) = None ->
  fst (User_create amb b (mkWorld (others (users w)) (EvFindOne :: trace w)))
  = inl e ->
  fst (register_handler env amb others b w)
  = inr (res_status_json 500 (message "Server error"))
  /\ users (snd (register_handler env amb others b w)) = others (users w).
Proof.
  intros Hf Hc.
  pose proof (User_create_throw_keeps amb b _ e Hc) as Hk.
  unfold register_handler, try_catch, bind, findOne, bind, emit, get_users,
    interleave, ret.
  simpl. rewrite Hf. simpl.
  destruct (User_create amb b _) as [[e' | u] w'] eqn:E; simpl in *.
  - split; [reflexivity | exact Hk].
  - discriminate.
Qed.

End Registration.

(** C6, as the code has it.  When the look-up of a validated registration
    finds nobody but the insertion then fails on a unique index, because a
    concurrent request created the account in between, the handler's
    catch-all answers 500 [Server error]; the request adds no account. *)
Theorem register_race_answers_server_error :
  forall (L : Libs) (env : Env) (amb : Ambient)
         (others : list User -> list User) (b b' : Body) (w : World)
         (index : string),
    Validator.run_chains register_chains b = ([], b') ->
    find (matches (Or [by_email (body_email b');
                       by_username (body_username b')]))
         (users w) = None ->
    fst (User_create amb b'
           (mkWorld (others (users w)) (EvFindOne :: trace w)))
    = inl (DuplicateKey index) ->
    answer (register env amb others b w)
    = Some (res_status_json 500 (message "Server error"))
    /\ users (snd (register env amb others b w)) = others (users w).
Proof.
  intros L env amb others b b' w index Hv Hf Hc.
  unfold register, answer. rewrite Hv. simpl.
  destruct (register_handler_create_fails env amb others b' w _ Hf Hc)
    as [Ha Hu].
  rewrite Ha. split; [reflexivity | exact Hu].
Qed.

Lemma register_race_answers_server_error_witness :
  let b := mkBody (Val "alice") (Val "abcdef") (Val "a@x.com")
                  Undefined Undefined in
  let others := fun us => us ++ [Sample.rival] in
  answer (register (L := Sample.libs) Sample.env Sample.amb others b
            Sample.empty)
  = Some (res_status_json 500 (message "Server error"))
  /\ users (snd (register (L := Sample.libs) Sample.env Sample.amb others b
                   Sample.empty))
     = [Sample.rival].
Proof.
  intros b others.
  apply (register_race_answers_server_error Sample.libs Sample.env Sample.amb
           others b b Sample.empty "username_1"); reflexivity.
Defined.

(** C6, as stated, fails: a registration of a taken username answers 400
    [already exists] when the account is there at the look-up, but 500
    [Server error] when a concurrent request inserts it after the
    look-up. *)
Lemma register_race_is_not_a_duplicate_answer :
  let b := mkBody (Val "alice") (Val "abcdef") (Val "a@x.com")
                  Undefined Undefined in
  let race := register (L := Sample.libs) Sample.env Sample.amb
                (fun us => us ++ [Sample.rival]) b Sample.empty in
  let late := register (L := Sample.libs) Sample.env Sample.amb
                (fun us => us) b (mkWorld [Sample.rival] []) in
  option_map status (answer late) = Some 400
  /\ option_map (fun r => message_of (body r)) (answer late)
     = Some (Some "User with that username or email already exists")
  /\ option_map status (answer race) = Some 500
  /\ option_map (fun r => message_of (body r)) (answer race)
     = Some (Some "Server error").
Proof. repeat split. Qed.

(** ** The pre-save hook *)

Section Hashing.
Context {L : Libs}.

(** On a new document the hook replaces the password by its hash under a
    salt of cost 10 drawn for this save. *)
Lemma hashPassword_new amb u ms cs w :
  fst (hashPassword amb (mkDoc u true ms cs) w)
  = inr (mkDoc (with_password
                  (bcrypt_hash (password u) (bcrypt_genSalt 10 (entropy amb))) u)
               true ms cs).
Proof. reflexivity. Qed.

(** On a loaded document whose password was not assigned it does nothing. *)
Lemma hashPassword_untouched amb d :
  untouched_password d -> hashPassword amb d = ret d.
Proof.
  intros [Hn Hm]. unfold hashPassword, isModified. rewrite Hn, Hm. reflexivity.
Qed.

(** [matchPassword] compares with the stored hash and writes nothing. *)
Lemma matchPassword_run u entered w :
  matchPassword u entered w
  = (inr (bcrypt_compare entered (password u)),
     mkWorld (users w) (EvCompare :: trace w)).
Proof. reflexivity. Qed.

End Hashing.

(** ** Start-up and the signing key *)

Section Startup.
Context {L : Libs}.

(** [startServer] reads [MONGO_URI] and [PORT] only. *)
Lemma startServer_outcome env reachable w :
  answer (startServer env reachable w)
  = Some (if env_truthy (MONGO_URI env) && reachable
          then Listening (env_or (PORT env) "5000")
          else Exited 1).
Proof.
  unfold startServer, connectDB, answer, try_catch, bind, emit, throw, ret.
  destruct (MONGO_URI env) as [uri |]; simpl; [| reflexivity].
  destruct (uri =? "")%string; simpl; [reflexivity |].
  destruct reachable; reflexivity.
Qed.

Lemma createToken_without_key env amb id w :
  env_truthy (JWT_SECRET env) = false ->
  createToken env amb id w = (inl (Error "JWT_SECRET is not defined"), w).
Proof.
  unfold createToken, read_secret, bind, throw, env_truthy.
  destruct (JWT_SECRET env) as [secret |]; [| reflexivity].
  destruct (secret =? "")%string; [reflexivity | discriminate].
Qed.

Lemma bearer_id_without_key env t h :
  env_truthy (JWT_SECRET env) = false -> bearer_id env t h = None.
Proof.
  unfold bearer_id, env_truthy.
  destruct (JWT_SECRET env) as [secret |]; [| reflexivity].
  destruct (secret =? "")%string; [| discriminate].
  destruct (nth_error _ 1); reflexivity.
Qed.

End Startup.

(** C7, as the code has it.  Without the signing key the server starts as
    it does with it: whether it listens depends on [MONGO_URI] and on the
    database alone.  The absence shows at first use: [createToken] throws
    [JWT_SECRET is not defined] at every issuance, and [requireAuth]
    answers 401 [Not authorized, token invalid] to every bearer request. *)
Theorem missing_signing_key_found_at_first_use :
  forall (L : Libs) (env : Env) (amb : Ambient) (reachable : bool) (w : World),
    env_truthy (JWT_SECRET env) = false ->
    answer (startServer env reachable w)
    = Some (if env_truthy (MONGO_URI env) && reachable
            then Listening (env_or (PORT env) "5000")
            else Exited 1)
    /\ (forall id w', fst (createToken env amb id w')
                      = inl (Error "JWT_SECRET is not defined"))
    /\ (forall req w',
          Js.startsWith "Bearer " (header_or_empty (authorization req)) = true ->
          rejection (requireAuth env amb req w')
          = Some (res_status_json 401
                    (message "Not authorized, token invalid"))).
Proof.
  intros L env amb reachable w Hk. split; [apply startServer_outcome |]. split.
  - intros id w'. rewrite (createToken_without_key env amb id w' Hk).
    reflexivity.
  - intros req w' Hb. unfold rejection.
    destruct (requireAuth_spec env amb req w') as [E _]. rewrite E.
    cbv zeta. rewrite Hb. simpl.
    rewrite (bearer_id_without_key env (now amb) _ Hk). reflexivity.
Qed.

Lemma missing_signing_key_found_at_first_use_witness :
  env_truthy (JWT_SECRET Sample.env_no_secret) = false
  /\ answer (startServer Sample.env_no_secret true Sample.empty)
     = Some (Listening "5000")
  /\ fst (createToken (L := Sample.libs) Sample.env_no_secret Sample.amb
            "64b7f0c2a1d3e4f5a6b7c8d9" Sample.empty)
     = inl (Error "JWT_SECRET is not defined").
Proof.
  split; [reflexivity |].
  destruct (missing_signing_key_found_at_first_use Sample.libs
              Sample.env_no_secret Sample.amb true Sample.empty eq_refl)
    as (Hs & Hc & _).
  split; [exact Hs | apply Hc].
Defined.

(** C7, as stated, fails: with the signing key unset and the database
    reachable the server listens; the first registration then stores the
    account and answers 500, and a bearer request is turned away. *)
Lemma server_starts_without_signing_key :
  let b := mkBody (Val "alice") (Val "abcdef") (Val "a@x.com")
                  (Val "123-456-7890") Undefined in
  let first := register (L := Sample.libs) Sample.env_no_secret Sample.amb
                 (fun us => us) b Sample.empty in
  answer (startServer Sample.env_no_secret true Sample.empty)
  = Some (Listening "5000")
  /\ answer first = Some (res_status_json 500 (message "Server error"))
  /\ users (snd first) = [Sample.alice]
  /\ rejection (requireAuth (L := Sample.libs) Sample.env_no_secret Sample.amb
                  (mkRequest (Some "Bearer jwt.s3cr3t.64b7f0c2a1d3e4f5a6b7c8d9")
                             Sample.no_body)
                  Sample.with_alice)
     = Some (res_status_json 401 (message "Not authorized, token invalid")).
Proof. repeat split. Qed.

(** ** Updating the profile *)

Lemma field_eqb_string_eq (x y : field string) :
  field_eqb String.eqb x y = true -> x = y.
Proof.
  destruct x, y; simpl; try discriminate; try reflexivity.
  intros H. apply String.eqb_eq in H. now subst.
Qed.

Lemma field_eqb_Z_eq (x y : field Z) :
  field_eqb Z.eqb x y = true -> x = y.
Proof.
  destruct x, y; simpl; try discriminate; try reflexivity.
  intros H. apply Z.eqb_eq in H. now subst.
Qed.

Lemma assign_email_spec v d :
  this (assign_email v d) = with_email (set_email v) (this d)
  /\ marks "email" d (assign_email v d)
  /\ isNew (assign_email v d) = isNew d
  /\ castErrors (assign_email v d) = castErrors d.
Proof.
  unfold assign_email, marks.
  destruct (field_eqb String.eqb _ _) eqn:E; simpl.
  - apply field_eqb_string_eq in E. rewrite E.
    destruct (this d); simpl; auto.
  - auto.
Qed.

Lemma assign_phone_spec v d :
  this (assign_phone v d) = with_phone (set_phone v) (this d)
  /\ marks "phone" d (assign_phone v d)
  /\ isNew (assign_phone v d) = isNew d
  /\ castErrors (assign_phone v d) = castErrors d.
Proof.
  unfold assign_phone, marks.
  destruct (field_eqb String.eqb _ _) eqn:E; simpl.
  - apply field_eqb_string_eq in E. rewrite E.
    destruct (this d); simpl; auto.
  - auto.
Qed.

Lemma assign_dob_spec v d :
  this (assign_dob v d) = with_dob (dob_after v (dob (this d))) (this d)
  /\ marks "dob" d (assign_dob v d)
  /\ isNew (assign_dob v d) = isNew d.
Proof.
  unfold assign_dob, marks. destruct v as [| t |].
  - destruct (field_eqb Z.eqb Null (dob (this d))) eqn:E; [| simpl; auto].
    apply field_eqb_Z_eq in E. simpl. rewrite E.
    destruct (this d); simpl; auto.
  - destruct (field_eqb Z.eqb (Val t) (dob (this d))) eqn:E; [| simpl; auto].
    apply field_eqb_Z_eq in E. simpl. rewrite E.
    destruct (this d); simpl; auto.
  - simpl. destruct (this d); simpl; auto.
Qed.

Lemma marks_untouched p d d' :
  (p =? "password")%string = false ->
  marks p d d' -> isNew d' = isNew d ->
  untouched_password d -> untouched_password d'.
Proof.
  intros Hp [[_ Hm] | Hm] Hn [Hnew Hmod]; split; try congruence.
  rewrite Hm. cbn [existsb]. rewrite String.eqb_sym, Hp. exact Hmod.
Qed.

Lemma marks_nil p d d' :
  marks p d d' -> modified d' = [] -> this d' = this d /\ modified d = [].
Proof.
  intros [[Ht Hm] | Hm] H; [split; congruence | congruence].
Qed.

Section Update.
Context {L : Libs}.

(** The document the handler hands to [save]. *)
Lemma apply_update_spec b user :
  let d := apply_update b (hydrate user) in
  _id (this d) = _id user
  /\ email (this d) = match body_email b with
                      | Undefined => email user
                      | v => set_email v
                      end
  /\ phone (this d) = match body_phone b with
                      | Undefined => phone user
                      | v => set_phone v
                      end
  /\ dob (this d) = match body_dob b with
                    | Undefined => dob user
                    | v => dob_after (dob_assigned v) (dob user)
                    end
  /\ untouched_password d
  /\ (modified d = [] -> this d = user).
Proof.
  unfold apply_update.
  set (d0 := hydrate user).
  set (d1 := match body_email b with Undefined => d0 | _ => _ end).
  set (d2 := match body_phone b with Undefined => d1 | _ => _ end).
  set (d3 := match body_dob b with Undefined => d2 | _ => _ end).
  assert (H1 : this d1 = match body_email b with
                         | Undefined => user
                         | v => with_email (set_email v) user
                         end
               /\ marks "email" d0 d1 /\ isNew d1 = isNew d0).
  { subst d1. destruct (body_email b) as [| | e].
    - split; [reflexivity | split; [left; split; reflexivity | reflexivity]].
    - destruct (assign_email_spec Null d0) as (A & B & C & _).
      split; [exact A | split; [exact B | exact C]].
    - destruct (assign_email_spec (Val e) d0) as (A & B & C & _).
      split; [exact A | split; [exact B | exact C]]. }
  assert (H2 : this d2 = match body_phone b with
                         | Undefined => this d1
                         | v => with_phone (set_phone v) (this d1)
                         end
               /\ marks "phone" d1 d2 /\ isNew d2 = isNew d1).
  { subst d2. destruct (body_phone b) as [| | e].
    - split; [reflexivity | split; [left; split; reflexivity | reflexivity]].
    - destruct (assign_phone_spec Null d1) as (A & B & C & _).
      split; [exact A | split; [exact B | exact C]].
    - destruct (assign_phone_spec (Val e) d1) as (A & B & C & _).
      split; [exact A | split; [exact B | exact C]]. }
  assert (H3 : this d3 = match body_dob b with
                         | Undefined => this d2
                         | v => with_dob (dob_after (dob_assigned v)
                                                    (dob (this d2))) (this d2)
                         end
               /\ marks "dob" d2 d3 /\ isNew d3 = isNew d2).
  { subst d3. destruct (body_dob b) as [| | e].
    - split; [reflexivity | split; [left; split; reflexivity | reflexivity]].
    - destruct (assign_dob_spec (dob_assigned Null) d2) as (A & B & C).
      split; [exact A | split; [exact B | exact C]].
    - destruct (assign_dob_spec (dob_assigned (Val e)) d2) as (A & B & C).
      split; [exact A | split; [exact B | exact C]]. }
  destruct H1 as (T1 & M1 & N1), H2 as (T2 & M2 & N2), H3 as (T3 & M3 & N3).
  assert (U0 : untouched_password d0) by (split; reflexivity).
  pose proof (marks_untouched "email" _ _ eq_refl M1 N1 U0) as U1.
  pose proof (marks_untouched "phone" _ _ eq_refl M2 N2 U1) as U2.
  pose proof (marks_untouched "dob" _ _ eq_refl M3 N3 U2) as U3.
  cbv zeta. rewrite T3, T2, T1.
  repeat split.
  - destruct (body_dob b), (body_phone b), (body_email b); reflexivity.
  - destruct (body_dob b), (body_phone b), (body_email b); reflexivity.
  - destruct (body_dob b), (body_phone b), (body_email b); reflexivity.
  - destruct (body_dob b), (body_phone b), (body_email b); reflexivity.
  - apply U3.
  - apply U3.
  - intros Hm. rewrite <- T1, <- T2, <- T3.
    destruct (marks_nil _ _ _ M3 Hm) as [E3 Hm2].
    destruct (marks_nil _ _ _ M2 Hm2) as [E2 Hm1].
    destruct (marks_nil _ _ _ M1 Hm1) as [E1 _].
    rewrite E3, E2, E1. reflexivity.
Qed.

(** [save] of a document whose password the route did not touch: a throw
    writes nothing; a success returns the document as assigned, written
    back over the stored one when something was modified. *)
Lemma save_outcome amb d w :
  untouched_password d ->
  match fst (save amb d w) with
  | inl _ => users (snd (save amb d w)) = users w
  | inr u =>
      invalid_paths d = []
      /\ ((u = this d /\ snd (save amb d w) = w /\ modified d = [])
          \/ (u = with_updatedAt (now amb) (this d)
              /\ users (snd (save amb d w))
                 = map (fun v => if (_id v =? _id u)%string then u else v)
                       (users w)))
  end.
Proof.
  intros [Hn Hm]. unfold save.
  destruct (invalid_paths d) as [| p ps]; [| reflexivity].
  unfold hashPassword, isModified. rewrite Hn, Hm. simpl.
  unfold bind, ret. simpl.
  destruct (modified d) as [| m ms]; simpl; [auto |].
  unfold emit, get_users, put_users, throw. simpl.
  destruct (negb (existsb _ (users w))); simpl; [reflexivity |].
  destruct (violates_unique _ _); simpl; [reflexivity |].
  split; [reflexivity |]. right. split; reflexivity.
Qed.

Lemma save_invalid amb d w :
  invalid_paths d <> [] ->
  save amb d w = (inl (ValidationError (invalid_paths d)), w).
Proof.
  intros H. unfold save.
  destruct (invalid_paths d) as [| p ps]; [contradiction | reflexivity].
Qed.

Lemma invalid_email d :
  required_ok (email (this d)) = false -> invalid_paths d <> [].
Proof.
  intros H. unfold invalid_paths. rewrite H.
  intros E. apply app_eq_nil in E as [_ E].
  apply app_eq_nil in E as [_ E]. discriminate.
Qed.

(** Writing a document back over the stored one with its id. *)
Lemma stored_after_replace (u x : User) (us : list User) :
  find (has_id (_id u)) us = Some x ->
  find (has_id (_id u))
       (map (fun v => if (_id v =? _id u)%string then u else v) us)
  = Some u.
Proof.
  induction us as [| v us IH]; simpl; [discriminate |].
  unfold has_id at 1 3.
  destruct (_id v =? _id u)%string eqn:E; simpl.
  - intros _. unfold has_id. rewrite String.eqb_refl. reflexivity.
  - unfold has_id at 1. rewrite E. exact IH.
Qed.

(** The stored document after the update handler ran: unchanged when the
    handler answers 500; otherwise the document as assigned. *)
Lemma update_handler_stored amb user b w :
  stored (_id user) w = Some user ->
  let d := apply_update b (hydrate user) in
  let run := update_handler amb user b w in
  (fst run = inr (res_status_json 500 (message "Server error"))
   /\ users (snd run) = users w)
  \/ (exists st,
        fst run = inr (res_json (profile_view st))
        /\ stored (_id user) (snd run) = Some st
        /\ invalid_paths d = []
        /\ email st = email (this d)
        /\ phone st = phone (this d)
        /\ dob st = dob (this d)).
Proof.
  intros Hs d run.
  destruct (apply_update_spec b user) as (Hid & _ & _ & _ & Hu & Hsame).
  fold d in Hid, Hu, Hsame.
  pose proof (save_outcome amb d w Hu) as Ho.
  subst run. unfold update_handler, update_attempt, try_catch, bind, ret. fold d.
  destruct (save amb d w) as [[e | u] w'] eqn:E; simpl in *.
  - left. split; [reflexivity | exact Ho].
  - right. exists u. split; [reflexivity |].
    destruct Ho as (Hv & [(-> & -> & Hm) | (-> & Hw)]).
    + rewrite (Hsame Hm). auto.
    + split.
      * unfold stored. rewrite Hw.
        replace (_id user)
          with (_id (with_updatedAt (now amb) (this d)))
          by (simpl; exact Hid).
        apply (stored_after_replace _ user).
        simpl. rewrite Hid. exact Hs.
      * simpl. auto.
Qed.

End Update.

(** ** No answer depends on a stored hash *)

Section Identity.
Context {L : Libs}.

Lemma identity_with_email e u : identity_of (with_email e u) = identity_of u.
Proof. reflexivity. Qed.

Lemma identity_with_phone p u : identity_of (with_phone p u) = identity_of u.
Proof. reflexivity. Qed.

Lemma identity_with_dob d u : identity_of (with_dob d u) = identity_of u.
Proof. reflexivity. Qed.

(** The assignments of the update handler leave the id, the username, the
    hash and the creation date alone. *)
Lemma apply_update_identity b user :
  identity_of (this (apply_update b (hydrate user))) = identity_of user.
Proof.
  unfold apply_update.
  set (d0 := hydrate user).
  assert (H0 : identity_of (this d0) = identity_of user) by reflexivity.
  set (d1 := match body_email b with Undefined => d0 | _ => _ end).
  assert (H1 : identity_of (this d1) = identity_of user).
  { subst d1. destruct (body_email b) as [| | e]; [exact H0 | |].
    - destruct (assign_email_spec Null d0) as (A & _). rewrite A.
      rewrite identity_with_email. exact H0.
    - destruct (assign_email_spec (Val e) d0) as (A & _). rewrite A.
      rewrite identity_with_email. exact H0. }
  set (d2 := match body_phone b with Undefined => d1 | _ => _ end).
  assert (H2 : identity_of (this d2) = identity_of user).
  { subst d2. destruct (body_phone b) as [| | e]; [exact H1 | |].
    - destruct (assign_phone_spec Null d1) as (A & _). rewrite A.
      rewrite identity_with_phone. exact H1.
    - destruct (assign_phone_spec (Val e) d1) as (A & _). rewrite A.
      rewrite identity_with_phone. exact H1. }
  destruct (body_dob b) as [| | e]; [exact H2 | |].
  - destruct (assign_dob_spec (dob_assigned Null) d2) as (A & _). rewrite A.
    rewrite identity_with_dob. exact H2.
  - destruct (assign_dob_spec (dob_assigned (Val e)) d2) as (A & _). rewrite A.
    rewrite identity_with_dob. exact H2.
Qed.


End Identity.

Lemma select_minus_keeps k k' d :
  (k =? k')%string = false ->
  Controller.get k (Controller.select_minus k' d) = Controller.get k d.
Proof.
  intros H. unfold Controller.get, Controller.select_minus.
  induction d as [| [k0 v0] d IH]; [reflexivity |]. simpl.
  destruct (k0 =? k')%string eqn:E0; simpl.
  - apply String.eqb_eq in E0. subst k0. rewrite String.eqb_sym, H. exact IH.
  - destruct (k0 =? k)%string; [reflexivity | exact IH].
Qed.














Section Blind.
Context {L : Libs}.













End Blind.



(** The handler after the gate and the validation, on any body: absent
    members leave the stored field alone, present ones are stored as
    assigned when the update succeeds. *)
Lemma update_handler_fields :
  forall (L : Libs) (amb : Ambient) (user : User) (b : Body) (w : World),
    stored (_id user) w = Some user ->
    let run := update_handler amb user b w in
    exists st,
      stored (_id user) (snd run) = Some st
      /\ (body_email b = Undefined -> email st = email user)
      /\ (body_phone b = Undefined -> phone st = phone user)
      /\ (body_dob b = Undefined -> dob st = dob user)
      /\ (option_map status (answer run) = Some 200 ->
          (body_phone b = Val "" -> phone st = Val "")
          /\ (body_phone b = Null -> phone st = Null)
          /\ (body_dob b = Val "" \/ body_dob b = Null -> dob st = Null)).
Proof.
  intros L amb user b w Hs run.
  destruct (apply_update_spec b user) as (_ & He & Hp & Hd & _ & _).
  destruct (update_handler_stored amb user b w Hs)
    as [[Ha Hu] | (st & Ha & Hst & _ & Ee & Ep & Ed)]; fold run in Ha.
  - exists user. fold run in Hu. unfold stored. rewrite Hu.
    split; [exact Hs |]. repeat split; try reflexivity.
    all: unfold answer in H; rewrite Ha in H; discriminate H.
  - exists st. fold run in Hst. split; [exact Hst |].
    rewrite Ee, Ep, Ed, He, Hp, Hd.
    repeat split.
    + intros ->. reflexivity.
    + intros ->. reflexivity.
    + intros ->. reflexivity.
    + intros ->. reflexivity.
    + intros ->. reflexivity.
    + intros [-> | ->]; reflexivity.
Qed.

Section UpdateRoute.
Context {L : Libs}.

(** A request the gate lets through is let through as the stored document
    of its account, and the gate wrote nothing. *)
Lemma requireAuth_passes env amb req w user :
  answer (requireAuth env amb req w) = Some (inr user) ->
  exists w1,
    requireAuth env amb req w = (inr (inr user), w1)
    /\ users w1 = users w
    /\ stored (_id user) w = Some user.
Proof.
  intros H. destruct (requireAuth_spec env amb req w) as [E Hu].
  cbv zeta in E. unfold answer in H.
  destruct (requireAuth env amb req w) as [[e | [r | u]] w1];
    simpl in *; try discriminate H.
  injection H as ->. exists w1. split; [reflexivity |].
  split; [exact Hu |].
  destruct (negb _); [discriminate E |].
  destruct (bearer_id _ _ _) as [id |]; [| discriminate E].
  destruct (stored id w) as [u |] eqn:Hs; [| discriminate E].
  injection E as ->.
  unfold stored in *.
  pose proof (find_some _ _ Hs) as [_ Hid].
  unfold has_id in Hid. apply String.eqb_eq in Hid. rewrite Hid. exact Hs.
Qed.

(** A member that is blank reaches the handler as the empty string, and
    [null] as [null]. *)
Lemma sanitized_blank (v : field string) (s : string) :
  v = Val s -> not_blank v = false ->
  (if truthy v then Val (Js.trim (Validator.toString v)) else v) = Val "".
Proof.
  intros -> Hb. unfold not_blank in Hb. cbn [Validator.toString] in *.
  destruct (truthy (Val s)) eqn:Ht.
  - f_equal. destruct (Js.trim s); [reflexivity | discriminate Hb].
  - f_equal. destruct s; [reflexivity | discriminate Ht].
Qed.

End UpdateRoute.

(** C5, as the code has it.  For every profile update the gate lets
    through: a member absent from the request leaves the stored field as it
    was.  A member that is present with an empty value does not clear the
    field to the not-present state: when the update succeeds, an empty
    [phone] is stored as the empty string and a [null] one as [null]; an
    empty or [null] [dob] is stored as [null]; and no [phone] that is
    present leaves the stored field missing. *)
Theorem profile_update_absent_and_empty_fields :
  forall (L : Libs) (env : Env) (amb : Ambient) (req : Request) (w : World)
         (user : User),
    answer (requireAuth env amb req w) = Some (inr user) ->
    let b := req_body req in
    let run := put_profile env amb req w in
    exists st,
      stored (_id user) (snd run) = Some st
      /\ (body_email b = Undefined -> email st = email user)
      /\ (body_phone b = Undefined -> phone st = phone user)
      /\ (body_dob b = Undefined -> dob st = dob user)
      /\ (option_map status (answer run) = Some 200 ->
          (body_phone b = Val "" -> phone st = Val "")
          /\ (body_phone b = Null -> phone st = Null)
          /\ (body_dob b = Val "" \/ body_dob b = Null -> dob st = Null)
          /\ (body_phone b <> Undefined -> phone st <> Undefined)).
Proof.
  intros L env amb req w user Hg b run.
  destruct (requireAuth_passes env amb req w user Hg) as (w1 & E & Hu & Hs).
  subst run. unfold put_profile, bind. rewrite E.
  destruct (profile_chains_run (req_body req)) as [_ Hsan].
  destruct (Validator.run_chains profile_chains (req_body req))
    as [errs b'].
  cbn [snd] in Hsan. subst b'. fold b.
  destruct errs as [| e es]; cbn [handleValidation].
  - assert (Hs1 : stored (_id user) w1 = Some user)
      by (unfold stored in *; rewrite Hu; exact Hs).
    destruct (apply_update_spec (profile_sanitized b) user)
      as (_ & _ & Hph & _).
    destruct (update_handler_stored amb user (profile_sanitized b) w1 Hs1)
      as [[Ha Hsame] | (st' & Ha & Hst' & _ & _ & Ep' & _)].
    + destruct (update_handler_fields L amb user (profile_sanitized b) w1 Hs1)
        as (st & Hst & He & Hp & Hd & Hok).
      exists st. split; [exact Hst |].
      split; [intros H; apply He; cbn [profile_sanitized body_email];
              rewrite H; reflexivity |].
      split; [intros H; apply Hp; cbn [profile_sanitized body_phone];
              rewrite H; reflexivity |].
      split; [intros H; apply Hd; exact H |].
      intros H200. exfalso. unfold answer in H200. rewrite Ha in H200.
      discriminate H200.
    + destruct (update_handler_fields L amb user (profile_sanitized b) w1 Hs1)
        as (st & Hst & He & Hp & Hd & Hok).
      assert (st' = st) by congruence. subst st'.
      exists st. split; [exact Hst |].
      split; [intros H; apply He; cbn [profile_sanitized body_email];
              rewrite H; reflexivity |].
      split; [intros H; apply Hp; cbn [profile_sanitized body_phone];
              rewrite H; reflexivity |].
      split; [intros H; apply Hd; exact H |].
      intros H200. destruct (Hok H200) as (P1 & P2 & P3).
      split; [| split; [| split; [exact P3 |]]].
      * intros H. apply P1. cbn [profile_sanitized body_phone].
        rewrite H. reflexivity.
      * intros H. apply P2. cbn [profile_sanitized body_phone].
        rewrite H. reflexivity.
      * intros Hpres. rewrite Ep', Hph.
        cbn [profile_sanitized body_phone].
        destruct (body_phone b) as [| | s]; [contradiction | discriminate |].
        destruct (truthy (Val s)); discriminate.
  - exists user. split; [unfold stored in *; cbn [snd ret]; rewrite Hu; exact Hs |].
    repeat split; try reflexivity; discriminate H.
Qed.

Lemma profile_update_absent_and_empty_fields_witness :
  let req := mkRequest (Some "Bearer jwt.s3cr3t.64b7f0c2a1d3e4f5a6b7c8d9")
               (mkBody Undefined Undefined Undefined (Val "") Undefined) in
  let run := put_profile (L := Sample.libs) Sample.env Sample.amb req
               Sample.with_alice in
  answer (requireAuth (L := Sample.libs) Sample.env Sample.amb req
            Sample.with_alice) = Some (inr Sample.alice)
  /\ exists st,
       stored (_id Sample.alice) (snd run) = Some st
       /\ email st = email Sample.alice
       /\ dob st = dob Sample.alice
       /\ phone st = Val "".
Proof.
  intros req run. split; [reflexivity |].
  destruct (profile_update_absent_and_empty_fields Sample.libs Sample.env
              Sample.amb req Sample.with_alice Sample.alice eq_refl)
    as (st & Hst & He & _ & Hd & Hok).
  exists st. split; [exact Hst |].
  split; [apply He; reflexivity |].
  split; [apply Hd; reflexivity |].
  destruct (Hok eq_refl) as (P1 & _).
  apply P1. reflexivity.
Defined.

(** C5, as stated, fails: alice has a phone number and no date of birth;
    an update with an empty [phone] and an empty [dob] succeeds and leaves
    the empty string and [null] in the stored document, not missing
    fields. *)
Lemma empty_values_are_stored_not_unset :
  let req := mkRequest (Some "Bearer jwt.s3cr3t.64b7f0c2a1d3e4f5a6b7c8d9")
               (mkBody Undefined Undefined Undefined (Val "") (Val "")) in
  let run := put_profile (L := Sample.libs) Sample.env Sample.amb req
               Sample.with_alice in
  option_map status (answer run) = Some 200
  /\ option_map phone (stored (_id Sample.alice) (snd run)) = Some (Val "")
  /\ option_map phone (stored (_id Sample.alice) (snd run)) <> Some Undefined
  /\ option_map dob (stored (_id Sample.alice) (snd run)) = Some Null
  /\ option_map dob (stored (_id Sample.alice) (snd run)) <> Some Undefined.
Proof. repeat split; vm_compute; discriminate. Qed.

(** ** An update that empties the email *)

Section EmptyEmail.
Context {L : Libs}.

(** An [email] that is empty or white space only reaches the handler as
    the empty string and raises no error. *)
Lemma blank_email_not_rejected b :
  not_blank (body_email b) = false ->
  ~ In "email" (profile_rejected_paths b).
Proof.
  intros Hb. unfold profile_rejected_paths. rewrite Hb. cbn [andb app].
  intros Hin. apply in_app_or in Hin as [Hin | Hin].
  - destruct (_ && _); [destruct Hin as [H | []]; discriminate H | destruct Hin].
  - destruct (_ && _); [destruct Hin as [H | []]; discriminate H | destruct Hin].
Qed.

(** The [try] block on a body whose [email] is empty: the assignment
    leaves the empty string in the document and [save] rejects it on the
    required path before anything is written. *)
Lemma update_attempt_empty_email amb user b w :
  body_email b = Val "" ->
  email (this (apply_update b (hydrate user))) = Val ""
  /\ exists ps,
       In "email" ps
       /\ update_attempt amb user b w = (inl (ValidationError ps), w).
Proof.
  intros He.
  destruct (apply_update_spec b user) as (_ & Hm & _).
  rewrite He in Hm. split; [exact Hm |].
  exists (invalid_paths (apply_update b (hydrate user))). split.
  - unfold invalid_paths. rewrite Hm. cbn [required_ok truthy String.eqb negb].
    apply in_or_app. right. apply in_or_app. right.
    apply in_or_app. left. left. reflexivity.
  - unfold update_attempt, bind.
    rewrite save_invalid; [reflexivity |].
    apply invalid_email. rewrite Hm. reflexivity.
Qed.

End EmptyEmail.

(** The run of an authenticated profile update whose [email] is empty or
    white space only. *)
Lemma blank_email_update_run :
  forall (L : Libs) (env : Env) (amb : Ambient) (req : Request) (w : World)
         (user : User) (e : string),
    body_email (req_body req) = Val e ->
    Js.trim e = "" ->
    answer (requireAuth env amb req w) = Some (inr user) ->
    let b' := profile_sanitized (req_body req) in
    let w1 := snd (requireAuth env amb req w) in
    ~ In "email"
         (map Validator.fe_path
              (fst (Validator.run_chains profile_chains (req_body req))))
    /\ (profile_rejected_paths (req_body req) = [] ->
        Validator.run_chains profile_chains (req_body req) = ([], b')
        /\ body_email b' = Val ""
        /\ email (this (apply_update b' (hydrate user))) = Val ""
        /\ (exists ps,
              In "email" ps
              /\ update_attempt amb user b' w1 = (inl (ValidationError ps), w1))
        /\ put_profile env amb req w
           = (inr (res_status_json 500 (message "Server error")), w1)
        /\ users w1 = users w).
Proof.
  intros L env amb req w user e He Ht Hg b' w1.
  assert (Hb : not_blank (body_email (req_body req)) = false).
  { rewrite He. unfold not_blank. cbn [Validator.toString]. rewrite Ht.
    reflexivity. }
  assert (He' : body_email b' = Val "").
  { subst b'. cbn [profile_sanitized body_email].
    exact (sanitized_blank _ e He Hb). }
  destruct (profile_chains_run (req_body req)) as [Hp Hs].
  split.
  - rewrite Hp. apply blank_email_not_rejected, Hb.
  - intros Hv.
    destruct (requireAuth_passes env amb req w user Hg) as (w0 & E & Hu & _).
    assert (Hw : w1 = w0) by (subst w1; rewrite E; reflexivity).
    destruct (update_attempt_empty_email amb user b' w1 He') as (Hm & ps & Hin & Ha).
    split; [| split; [exact He' | split; [exact Hm | split; [| split]]]].
    + destruct (Validator.run_chains profile_chains (req_body req))
        as [errors b''].
      cbn [fst snd] in Hp, Hs. rewrite Hv in Hp. apply map_eq_nil in Hp.
      subst. reflexivity.
    + exists ps. split; [exact Hin | exact Ha].
    + rewrite (put_profile_valid_run env amb req w user w0 E Hv).
      fold b'. rewrite <- Hw. unfold update_handler, try_catch.
      rewrite Ha. reflexivity.
    + rewrite Hw. exact Hu.
Qed.

(** C10.  An authenticated profile update whose [email] is the empty
    string: the value skips the pattern check and raises no validation
    error, whatever the other members are.  When the other members pass
    their checks too, validation passes with the email as sent; the handler
    assigns the empty string; [save] throws a validation error on the
    required path [email]; and the route answers 500 [Server error], not a
    400 with field errors, leaving the world as the gate left it: none of
    the changes of the request is stored. *)
Theorem empty_email_update_is_server_error :
  forall (L : Libs) (env : Env) (amb : Ambient) (req : Request) (w : World)
         (user : User),
    body_email (req_body req) = Val "" ->
    answer (requireAuth env amb req w) = Some (inr user) ->
    let b' := profile_sanitized (req_body req) in
    let w1 := snd (requireAuth env amb req w) in
    ~ In "email"
         (map Validator.fe_path
              (fst (Validator.run_chains profile_chains (req_body req))))
    /\ (profile_rejected_paths (req_body req) = [] ->
        Validator.run_chains profile_chains (req_body req) = ([], b')
        /\ body_email b' = Val ""
        /\ email (this (apply_update b' (hydrate user))) = Val ""
        /\ (exists ps,
              In "email" ps
              /\ update_attempt amb user b' w1 = (inl (ValidationError ps), w1))
        /\ put_profile env amb req w
           = (inr (res_status_json 500 (message "Server error")), w1)
        /\ users w1 = users w).
Proof.
  intros L env amb req w user He Hg.
  exact (blank_email_update_run L env amb req w user "" He eq_refl Hg).
Qed.

Lemma empty_email_update_is_server_error_witness :
  let req := mkRequest (Some "Bearer jwt.s3cr3t.64b7f0c2a1d3e4f5a6b7c8d9")
               (mkBody Undefined Undefined (Val "") (Val "555 123 4567")
                       Undefined) in
  put_profile (L := Sample.libs) Sample.env Sample.amb req Sample.with_alice
  = (inr (res_status_json 500 (message "Server error")),
     mkWorld [Sample.alice] [EvFindById; EvVerify]).
Proof.
  intros req.
  destruct (empty_email_update_is_server_error Sample.libs Sample.env
              Sample.amb req Sample.with_alice Sample.alice eq_refl eq_refl)
    as (_ & H).
  destruct (H eq_refl) as (_ & _ & _ & _ & Ha & _).
  exact Ha.
Defined.

(** * Further properties of the code *)

(** ** Strings the chains accept *)

Lemma test_void (s : string) : Regex.test Regex.Void s = false.
Proof. induction s as [| c s IH]; [reflexivity | exact IH]. Qed.

(** An accepted email begins with a character that is not white space. *)
Lemma email_head (x : string) :
  Regex.test EMAIL_REGEX x = true ->
  exists c s, x = String c s /\ Js.is_space c = false.
Proof.
  destruct x as [| c s]; [discriminate |].
  intros H. exists c, s. split; [reflexivity |].
  destruct (Js.is_space c) eqn:E; [| reflexivity].
  exfalso. revert H. unfold EMAIL_REGEX, Regex.Plus, Regex.chr.
  cbn [Regex.test Regex.deriv Regex.nullable andb orb].
  unfold not_space_at at 1. rewrite E.
  cbn. rewrite test_void. discriminate.
Qed.

Lemma lower_char_space (c : ascii) :
  Js.is_space (Js.lower_char c) = Js.is_space c.
Proof.
  destruct c as [[] [] [] [] [] [] [] []]; vm_compute; reflexivity.
Qed.

Lemma trim_head (c : ascii) (s : string) :
  Js.is_space c = false -> Js.trim (String c s) = String c (Js.rtrim s).
Proof.
  intros H. unfold Js.trim. simpl. rewrite H. apply rtrim_cons, H.
Qed.

(** The email as stored after an accepted one is not empty. *)
Lemma accepted_email_required_ok (x : string) :
  Regex.test EMAIL_REGEX x = true -> required_ok (set_email (Val x)) = true.
Proof.
  intros H. destruct (email_head x H) as (c & s & -> & Hc).
  unfold required_ok, set_email, cast_string, truthy.
  cbn [Js.toLowerCase].
  rewrite trim_head by (rewrite lower_char_space; exact Hc).
  reflexivity.
Qed.

Lemma find_none_intro {A} (f : A -> bool) (l : list A) :
  (forall x, In x l -> f x = false) -> find f l = None.
Proof.
  induction l as [| a l IH]; intros H; simpl; [reflexivity |].
  rewrite (H a (or_introl eq_refl)). apply IH.
  intros x Hx. apply H. right. exact Hx.
Qed.

Lemma existsb_false_intro {A} (f : A -> bool) (l : list A) :
  (forall x, In x l -> f x = false) -> existsb f l = false.
Proof.
  induction l as [| a l IH]; intros H; simpl; [reflexivity |].
  rewrite (H a (or_introl eq_refl)). apply IH.
  intros x Hx. apply H. right. exact Hx.
Qed.

(** ** Registration *)

Section RegistrationFlow.
Context {L : Libs}.

Lemma register_accepted_facts b :
  register_rejected_paths b = [] ->
  (String.length (Js.trim (Validator.toString (body_username b))) =? 0) = false
  /\ (6 <=? String.length (Validator.toString (body_password b))) = true
  /\ Regex.test EMAIL_REGEX (Js.trim (Validator.toString (body_email b))) = true.
Proof.
  unfold register_rejected_paths. intros H.
  apply app_eq_nil in H as [H1 H]. apply app_eq_nil in H as [H2 H].
  apply app_eq_nil in H as [H3 _].
  destruct (_ =? 0); [discriminate |].
  destruct (6 <=? _); [| discriminate].
  destruct (Regex.test _ _); [| discriminate].
  auto.
Qed.

Lemma length_zero_false (s : string) :
  (String.length s =? 0) = false -> (s =? "")%string = false.
Proof. destruct s; [discriminate | reflexivity]. Qed.

Lemma field_eqb_string_neq (x y : field string) :
  x <> y -> field_eqb String.eqb x y = false.
Proof.
  intros H. destruct (field_eqb String.eqb x y) eqn:E; [| reflexivity].
  apply field_eqb_string_eq in E. contradiction.
Qed.

(** [User.create] on a validated body, on a store where the new id,
    username and email are free: the document is appended. *)
Lemma User_create_ok amb b w :
  register_rejected_paths b = [] ->
  dob_readable (body_dob b) = true ->
  (forall v, In v (users w) ->
             _id v <> fresh_oid amb
             /\ username v <> username (registered_user amb b)
             /\ email v <> email (registered_user amb b)) ->
  User_create amb (register_sanitized b) w
  = (inr (registered_user amb b),
     mkWorld (users w ++ [registered_user amb b])
             (EvInsert :: EvHash :: EvGenSalt :: trace w)).
Proof.
  intros Hv Hd Hfree.
  destruct (register_accepted_facts b Hv) as (Hu & Hp & He).
  unfold User_create.
  cbn [register_sanitized body_username body_password body_email body_phone
       body_dob set_username cast_string Validator.toString].
  rewrite trim_idempotent.
  set (dob' := match body_dob b with Undefined => _ | _ => _ end).
  assert (Hdob : dob' = (dob (registered_user amb b), [])).
  { subst dob'. unfold registered_user, dob_readable in *. cbn [dob].
    destruct (body_dob b) as [| | s]; try reflexivity.
    destruct (s =? "")%string; [reflexivity |].
    destruct (Date_parse s); [reflexivity | discriminate]. }
  rewrite Hdob. cbn [fst snd].
  set (cand := mkUser _ _ _ _ _ _ _ _).
  assert (Hinv : invalid_paths (mkDoc cand true [] []) = []).
  { unfold invalid_paths, isModified. subst cand.
    cbn [this username password email castErrors isNew orb].
    rewrite (length_zero_false _ Hu).
    assert (Hp' : (Validator.toString (body_password b) =? "")%string = false).
    { destruct (Validator.toString (body_password b)); [discriminate | reflexivity]. }
    rewrite Hp'. cbn [andb].
    assert (Hlt : (String.length (Validator.toString (body_password b)) <? 6)
                  = false).
    { apply Nat.ltb_ge. apply Nat.leb_le. exact Hp. }
    rewrite Hlt.
    rewrite (accepted_email_required_ok _ He). reflexivity. }
  rewrite Hinv.
  unfold hashPassword, isModified. cbn [isNew orb negb].
  unfold bind, emit, get_users, put_users, ret, throw.
  cbn [this modified castErrors isNew users trace fst snd].
  assert (Hnew : with_password
                   (bcrypt_hash (password cand) (bcrypt_genSalt 10 (entropy amb)))
                   cand = registered_user amb b).
  { subst cand. unfold with_password, registered_user. reflexivity. }
  rewrite Hnew.
  assert (Huniq : violates_unique (registered_user amb b) (users w) = None).
  { unfold violates_unique.
    rewrite (existsb_false_intro (fun v => (_id v =? _ )%string)).
    2: { intros v Hin. apply String.eqb_neq. apply (Hfree v Hin). }
    rewrite (existsb_false_intro (fun v => (username v =? _ )%string)).
    2: { intros v Hin. apply String.eqb_neq. apply (Hfree v Hin). }
    rewrite (existsb_false_intro (fun v => field_eqb String.eqb (email v) _)).
    2: { intros v Hin. apply field_eqb_string_neq. apply (Hfree v Hin). }
    reflexivity. }
  rewrite Huniq. reflexivity.
Qed.

End RegistrationFlow.

Lemma field_eqb_string_refl (x : field string) :
  field_eqb String.eqb x x = true.
Proof. destruct x; simpl; try reflexivity. apply String.eqb_refl. Qed.

Lemma find_some_intro {A} (f : A -> bool) (l : list A) (x : A) :
  In x l -> f x = true -> exists y, find f l = Some y.
Proof.
  intros Hin Hf. destruct (find f l) as [y |] eqn:E; [now exists y |].
  rewrite (find_none _ _ E x Hin) in Hf. discriminate.
Qed.

(** X1.  A registration with members that fail their checks is answered
    400 [Validation failed] with one error for every failing member, in the
    order username, password, email, phone, dob; nothing is read from or
    written to the store, and nothing is logged. *)
Theorem register_invalid_reports_every_member :
  forall (L : Libs) (env : Env) (amb : Ambient)
         (others : list User -> list User) (b : Body) (w : World),
    register_rejected_paths b <> [] ->
    exists errors,
      map Validator.fe_path errors = register_rejected_paths b
      /\ register env amb others b w
         = (inr (res_status_json 400
                   (JObj [("message", JStr "Validation failed");
                          ("errors",
                           JArr (map Validator.json_of_error errors))])),
            w).
Proof.
  intros L env amb others b w H.
  destruct (register_chains_run b) as [Hp _].
  unfold register.
  destruct (Validator.run_chains register_chains b) as [errors b'].
  simpl in Hp. exists errors. split; [exact Hp |].
  destruct errors as [| e es]; [| reflexivity].
  simpl in Hp. congruence.
Qed.

Lemma register_invalid_reports_every_member_witness :
  let b := mkBody (Val "  ") (Val "abc") (Val "a@x.com") (Val "12")
                  Undefined in
  register_rejected_paths (L := Sample.libs) b = ["username"; "password"; "phone"]
  /\ option_map status
       (answer (register (L := Sample.libs) Sample.env Sample.amb
                  (fun us => us) b Sample.with_alice)) = Some 400
  /\ snd (register (L := Sample.libs) Sample.env Sample.amb
            (fun us => us) b Sample.with_alice) = Sample.with_alice.
Proof.
  intros b. split; [reflexivity |].
  destruct (register_invalid_reports_every_member Sample.libs Sample.env
              Sample.amb (fun us => us) b Sample.with_alice)
    as (errors & _ & E).
  - discriminate.
  - rewrite E. split; reflexivity.
Defined.

(** The run of a registration that succeeds. *)
Lemma register_success_run :
  forall (L : Libs) (env : Env) (amb : Ambient) (b : Body) (w : World)
         (secret token : string),
    register_rejected_paths b = [] ->
    dob_readable (body_dob b) = true ->
    (forall v, In v (users w) ->
               _id v <> fresh_oid amb
               /\ username v <> username (registered_user amb b)
               /\ email v <> email (registered_user amb b)) ->
    JWT_SECRET env = Some secret ->
    secret <> "" ->
    jwt_sign (fresh_oid amb) secret (env_or (JWT_EXPIRES_IN env) "7d") (now amb)
    = Some token ->
    register env amb (fun us => us) b w
    = (inr (res_status_json 201
              (JObj [("id", JStr (fresh_oid amb));
                     ("username",
                      JStr (Js.trim (Validator.toString (body_username b))));
                     ("email",
                      JStr (Js.trim (Js.toLowerCase
                              (Js.trim (Validator.toString (body_email b))))));
                     ("token", JStr token)])),
       mkWorld (users w ++ [registered_user amb b])
               (EvSign :: EvInsert :: EvHash :: EvGenSalt :: EvFindOne
                :: trace w)).
Proof.
  intros L env amb b w secret token Hv Hd Hfree Hs Hne Hsign.
  rewrite (register_valid_run env amb (fun us => us) b Hv).
  unfold register_handler, try_catch, bind, findOne, bind, emit, get_users,
    interleave, ret.
  cbn [users trace fst snd].
  rewrite find_none_intro.
  2: { intros v Hin. destruct (Hfree v Hin) as (_ & Hu & He).
       unfold matches, matches_cond.
       cbn [existsb register_sanitized body_email body_username].
       rewrite trim_idempotent.
       cbn [email registered_user] in He.
       rewrite (field_eqb_string_neq _ _ He).
       apply String.eqb_neq in Hu. cbn [username registered_user] in Hu.
       rewrite Hu. reflexivity. }
  pose proof (User_create_ok amb b
                (mkWorld (users w) (EvFindOne :: trace w)) Hv Hd Hfree) as Hc.
  cbn [users trace] in Hc |- *. rewrite Hc.
  unfold createToken, read_secret, bind, emit, ret. rewrite Hs.
  apply String.eqb_neq in Hne. rewrite Hne.
  cbn [users trace fst snd _id registered_user]. rewrite Hsign.
  reflexivity.
Qed.

(** X2.  A registration that passes validation and whose date, when one is
    sent, [new Date] can read, on a store where nobody has the trimmed
    username, the normalized email or the new id, with the signing key
    configured: the answer is 201 with the id, the trimmed username, the
    lower-cased email and the token, and exactly one document is appended,
    whose password is the bcrypt hash (cost 10) of the password as sent. *)
Theorem register_creates_account :
  forall (L : Libs) (env : Env) (amb : Ambient) (b : Body) (w : World)
         (secret token : string),
    register_rejected_paths b = [] ->
    dob_readable (body_dob b) = true ->
    (forall v, In v (users w) ->
               _id v <> fresh_oid amb
               /\ username v <> username (registered_user amb b)
               /\ email v <> email (registered_user amb b)) ->
    JWT_SECRET env = Some secret ->
    secret <> "" ->
    jwt_sign (fresh_oid amb) secret (env_or (JWT_EXPIRES_IN env) "7d") (now amb)
    = Some token ->
    register env amb (fun us => us) b w
    = (inr (res_status_json 201
              (JObj [("id", JStr (fresh_oid amb));
                     ("username",
                      JStr (Js.trim (Validator.toString (body_username b))));
                     ("email",
                      JStr (Js.trim (Js.toLowerCase
                              (Js.trim (Validator.toString (body_email b))))));
                     ("token", JStr token)])),
       mkWorld (users w ++ [registered_user amb b])
               (EvSign :: EvInsert :: EvHash :: EvGenSalt :: EvFindOne
                :: trace w)).
Proof.
  intros L env amb b w secret token Hv Hd Hfree Hs Hne Hsign.
  exact (register_success_run L env amb b w secret token Hv Hd Hfree Hs Hne
           Hsign).
Qed.

Lemma register_creates_account_witness :
  let b := mkBody (Val " alice ") (Val "abcdef") (Val "A@X.com ")
                  (Val "123-456-7890") Undefined in
  register (L := Sample.libs) Sample.env Sample.amb (fun us => us) b
    Sample.empty
  = (inr (res_status_json 201
            (JObj [("id", JStr "64b7f0c2a1d3e4f5a6b7c8d9");
                   ("username", JStr "alice");
                   ("email", JStr "a@x.com");
                   ("token", JStr "jwt.s3cr3t.64b7f0c2a1d3e4f5a6b7c8d9")])),
     mkWorld [Sample.alice]
             [EvSign; EvInsert; EvHash; EvGenSalt; EvFindOne]).
Proof.
  intros b.
  apply (register_creates_account Sample.libs Sample.env Sample.amb b
           Sample.empty "s3cr3t" "jwt.s3cr3t.64b7f0c2a1d3e4f5a6b7c8d9");
    try reflexivity.
  - intros v [].
  - discriminate.
Defined.

(** The run of a registration that collides with a stored account. *)
Lemma register_existing_account_run :
  forall (L : Libs) (env : Env) (amb : Ambient)
         (others : list User -> list User) (b : Body) (w : World) (v : User),
    register_rejected_paths b = [] ->
    In v (users w) ->
    username v = Js.trim (Validator.toString (body_username b))
    \/ email v = set_email (Val (Js.trim (Validator.toString (body_email b)))) ->
    register env amb others b w
    = (inr (res_status_json 400
              (JObj [("message",
                      JStr "User with that username or email already exists");
                     ("errors", JArr [])])),
       mkWorld (users w) (EvFindOne :: trace w)).
Proof.
  intros L env amb others b w v Hv Hin Hsame.
  rewrite (register_valid_run env amb others b Hv).
  unfold register_handler, try_catch, bind, findOne, bind, emit, get_users, ret.
  cbn [users trace fst snd].
  destruct (find_some_intro
              (matches (Or [by_email (body_email (register_sanitized b));
                            by_username (body_username (register_sanitized b))]))
              (users w) v Hin) as [y Hy].
  { unfold matches, matches_cond.
    cbn [existsb register_sanitized body_email body_username].
    rewrite trim_idempotent.
    destruct Hsame as [-> | ->].
    - rewrite String.eqb_refl. apply orb_true_iff. right. reflexivity.
    - rewrite field_eqb_string_refl. reflexivity. }
  rewrite Hy. reflexivity.
Qed.

(** X3.  A registration that passes validation while an account already
    has the trimmed username or the normalized email is answered 400 with
    one fixed message, the same for both kinds of collision; the store is
    left as it was and no hash is computed. *)
Theorem register_existing_account_is_refused :
  forall (L : Libs) (env : Env) (amb : Ambient)
         (others : list User -> list User) (b : Body) (w : World) (v : User),
    register_rejected_paths b = [] ->
    In v (users w) ->
    username v = Js.trim (Validator.toString (body_username b))
    \/ email v = set_email (Val (Js.trim (Validator.toString (body_email b)))) ->
    register env amb others b w
    = (inr (res_status_json 400
              (JObj [("message",
                      JStr "User with that username or email already exists");
                     ("errors", JArr [])])),
       mkWorld (users w) (EvFindOne :: trace w)).
Proof.
  intros L env amb others b w v Hv Hin Hsame.
  exact (register_existing_account_run L env amb others b w v Hv Hin Hsame).
Qed.

Lemma register_existing_account_is_refused_witness :
  let same_name := mkBody (Val "alice") (Val "another1") (Val "new@y.org")
                          Undefined Undefined in
  let same_mail := mkBody (Val "carol") (Val "another1") (Val "a@x.com")
                          Undefined Undefined in
  answer (register (L := Sample.libs) Sample.env Sample.amb (fun us => us)
            same_name Sample.with_alice)
  = answer (register (L := Sample.libs) Sample.env Sample.amb (fun us => us)
              same_mail Sample.with_alice)
  /\ snd (register (L := Sample.libs) Sample.env Sample.amb (fun us => us)
            same_name Sample.with_alice)
     = mkWorld [Sample.alice] [EvFindOne].
Proof.
  intros same_name same_mail.
  rewrite (register_existing_account_is_refused Sample.libs Sample.env
             Sample.amb (fun us => us) same_name Sample.with_alice
             Sample.alice eq_refl (or_introl eq_refl) (or_introl eq_refl)).
  rewrite (register_existing_account_is_refused Sample.libs Sample.env
             Sample.amb (fun us => us) same_mail Sample.with_alice
             Sample.alice eq_refl (or_introl eq_refl) (or_intror eq_refl)).
  split; reflexivity.
Defined.

(** ** The unique indexes *)

Lemma existsb_false_not_in {B} (f : User -> B) (eqb : B -> B -> bool)
  (u : User) (us : list User) :
  (forall x y, eqb x y = true <-> x = y) ->
  existsb (fun v => eqb (f v) (f u)) us = false ->
  ~ In (f u) (map f us).
Proof.
  intros Heq He Hin. apply in_map_iff in Hin as (v & Hv & Hin).
  assert (H : existsb (fun v => eqb (f v) (f u)) us = true).
  { apply existsb_exists. exists v. split; [exact Hin |]. now apply Heq. }
  congruence.
Qed.

Lemma field_eqb_string_iff (x y : field string) :
  field_eqb String.eqb x y = true <-> x = y.
Proof.
  split; [apply field_eqb_string_eq |]. intros ->. apply field_eqb_string_refl.
Qed.

(** A document passes the unique indexes only when its id, username and
    email are all new. *)
Lemma violates_unique_none u us :
  violates_unique u us = None ->
  ~ In (_id u) (map _id us)
  /\ ~ In (username u) (map username us)
  /\ ~ In (email u) (map email us).
Proof.
  unfold violates_unique. intros H.
  destruct (existsb (fun v => (_id v =? _id u)%string) us) eqn:E1;
    [discriminate |].
  destruct (existsb (fun v => (username v =? username u)%string) us) eqn:E2;
    [discriminate |].
  destruct (existsb (fun v => field_eqb String.eqb (email v) (email u)) us)
    eqn:E3; [discriminate |].
  repeat split.
  - apply (existsb_false_not_in _id String.eqb); [apply String.eqb_eq | exact E1].
  - apply (existsb_false_not_in username String.eqb);
      [apply String.eqb_eq | exact E2].
  - apply (existsb_false_not_in email (field_eqb String.eqb));
      [apply field_eqb_string_iff | exact E3].
Qed.

(** ** What the routes do to the store *)

Section StoreEffects.
Context {L : Libs}.

Lemma createToken_users env amb id w :
  users (snd (createToken env amb id w)) = users w.
Proof.
  unfold createToken, read_secret, bind, emit, throw, ret.
  destruct (JWT_SECRET env) as [secret |]; [| reflexivity].
  destruct (secret =? "")%string; [reflexivity |]. simpl.
  destruct (jwt_sign _ _ _ _); reflexivity.
Qed.

End StoreEffects.

Section StoreEffectsOfUpdate.
Context {L : Libs}.

Lemma save_users amb d w :
  untouched_password d ->
  let u := with_updatedAt (now amb) (this d) in
  users (snd (save amb d w)) = users w
  \/ (violates_unique u
        (filter (fun v => negb (_id v =? _id u)%string) (users w)) = None
      /\ users (snd (save amb d w)) = write_back u (users w)).
Proof.
  intros [Hn Hm] u. unfold save.
  destruct (invalid_paths d) as [| p ps]; [| left; reflexivity].
  unfold hashPassword, isModified. rewrite Hn, Hm.
  unfold bind, ret, emit, get_users, put_users, throw.
  cbn [orb negb fst snd users trace].
  destruct (modified d) as [| m ms]; [left; reflexivity |].
  cbn [users trace fst snd]. fold u.
  destruct (negb (existsb _ (users w))); [left; reflexivity |].
  destruct (violates_unique u _) eqn:E; [left; reflexivity |].
  right. split; reflexivity.
Qed.

(** The store after [PUT /api/profile]: untouched, or the document of the
    authenticated account written back with the same identity, under the
    unique indexes. *)
Lemma put_profile_users env amb req w :
  let after := users (snd (put_profile env amb req w)) in
  after = users w
  \/ exists user u,
       answer (requireAuth env amb req w) = Some (inr user)
       /\ identity_of u = identity_of user
       /\ violates_unique u
            (filter (fun v => negb (_id v =? _id u)%string) (users w)) = None
       /\ after = write_back u (users w).
Proof.
  cbv zeta.
  pose proof (requireAuth_read_only env amb req w) as Hro.
  unfold put_profile, bind, answer.
  destruct (requireAuth env amb req w) as [[e | [r | user]] w1];
    cbn [fst snd] in *; try (left; exact Hro).
  destruct (Validator.run_chains profile_chains (req_body req)) as [errs b'].
  destruct errs as [| e es]; [| left; exact Hro].
  unfold handleValidation, update_handler, update_attempt, try_catch, bind, ret.
  destruct (apply_update_spec b' user) as (_ & _ & _ & _ & Hu & _).
  pose proof (save_users amb _ w1 Hu) as Hs. cbv zeta in Hs.
  pose proof (apply_update_identity b' user) as Hi.
  destruct (save amb (apply_update b' (hydrate user)) w1) as [[e | u] w2];
    cbn [fst snd users] in *.
  - destruct Hs as [Hs | [Hv Hs]]; [left; congruence |].
    right. exists user. eexists. rewrite <- Hro.
    split; [reflexivity |]. split; [| split; [exact Hv | exact Hs]]. exact Hi.
  - destruct Hs as [Hs | [Hv Hs]]; [left; congruence |].
    right. exists user. eexists. rewrite <- Hro.
    split; [reflexivity |]. split; [| split; [exact Hv | exact Hs]]. exact Hi.
Qed.

Lemma login_read_only env amb b : read_only (login env amb b).
Proof.
  intros w. unfold login.
  destruct (login_validation b) as [errors b'].
  destruct errors as [| e es]; [| reflexivity].
  unfold handleValidation, login_handler, try_catch, bind, findOne, bind,
    emit, get_users, ret.
  cbn [users trace fst snd].
  destruct (find _ (users w)) as [user |]; [| reflexivity].
  cbn [users trace fst snd].
  destruct (negb _); [reflexivity |].
  set (w1 := mkWorld (users w) _).
  pose proof (createToken_users env amb (_id user) w1) as Ht.
  destruct (createToken env amb (_id user) w1) as [[e | t] w2];
    cbn [fst snd users] in *; exact Ht.
Qed.

Lemma get_profile_read_only env amb req : read_only (get_profile env amb req).
Proof.
  intros w. pose proof (requireAuth_read_only env amb req w) as Hro.
  unfold get_profile, bind.
  destruct (requireAuth env amb req w) as [[e | [r | user]] w1];
    cbn [fst snd] in *; exact Hro.
Qed.

End StoreEffectsOfUpdate.

(** X5.  A login and a profile read never write to the store, whatever the
    request and however it ends. *)
Theorem login_and_profile_read_never_write :
  forall (L : Libs) (env : Env) (amb : Ambient) (b : Body) (req : Request)
         (w : World),
    users (snd (login env amb b w)) = users w
    /\ users (snd (get_profile env amb req w)) = users w.
Proof.
  intros. split; [apply login_read_only | apply get_profile_read_only].
Qed.

(** ** What a profile update cannot change *)

Lemma NoDup_map_eq {A B} (f : A -> B) (l : list A) (x y : A) :
  NoDup (map f l) -> In x l -> In y l -> f x = f y -> x = y.
Proof.
  induction l as [| a l IH]; intros Hn Hx Hy Hf; [destruct Hx |].
  simpl in Hn. inversion Hn as [| ? ? Ha Hl]; subst.
  destruct Hx as [-> | Hx], Hy as [-> | Hy].
  - reflexivity.
  - exfalso. apply Ha. rewrite Hf. apply in_map. exact Hy.
  - exfalso. apply Ha. rewrite <- Hf. apply in_map. exact Hx.
  - apply IH; assumption.
Qed.

Lemma write_back_identity u user us :
  NoDup (map _id us) -> In user us ->
  identity_of u = identity_of user ->
  map identity_of (write_back u us) = map identity_of us.
Proof.
  intros Hn Hin Hi. unfold write_back. rewrite map_map.
  apply map_ext_in. intros v Hv.
  destruct (_id v =? _id u)%string eqn:E; [| reflexivity].
  apply String.eqb_eq in E.
  assert (Hid : _id u = _id user) by (injection Hi; auto).
  rewrite (NoDup_map_eq _id us v user Hn Hv Hin) by congruence.
  exact Hi.
Qed.

Lemma write_back_others u us :
  filter (fun v => negb (has_id (_id u) v)) (write_back u us)
  = filter (fun v => negb (has_id (_id u) v)) us.
Proof.
  unfold write_back, has_id.
  induction us as [| v us IH]; [reflexivity |]. simpl.
  destruct (_id v =? _id u)%string eqn:E; simpl.
  - rewrite String.eqb_refl. simpl. exact IH.
  - rewrite E. simpl. now rewrite IH.
Qed.

(** X6.  A profile update, however it ends, changes no account's id,
    username, password hash or creation date, adds or removes no account,
    and leaves the documents of all other accounts exactly as they were. *)
Theorem profile_update_keeps_identity_and_others :
  forall (L : Libs) (env : Env) (amb : Ambient) (req : Request) (w : World),
    NoDup (map _id (users w)) ->
    let after := users (snd (put_profile env amb req w)) in
    map identity_of after = map identity_of (users w)
    /\ (forall user,
          answer (requireAuth env amb req w) = Some (inr user) ->
          filter (fun v => negb (has_id (_id user) v)) after
          = filter (fun v => negb (has_id (_id user) v)) (users w)).
Proof.
  intros L env amb req w Hn after. subst after.
  destruct (put_profile_users env amb req w)
    as [-> | (user & u & Hg & Hi & _ & ->)]; [split; reflexivity |].
  destruct (requireAuth_passes env amb req w user Hg) as (_ & _ & _ & Hs).
  assert (Hin : In user (users w)) by (apply (find_some _ _ Hs)).
  assert (Hid : _id u = _id user) by (injection Hi; auto).
  split.
  - apply (write_back_identity u user); assumption.
  - intros user' Hg'. rewrite Hg in Hg'. injection Hg' as <-.
    rewrite <- Hid. apply write_back_others.
Qed.

Lemma profile_update_keeps_identity_and_others_witness :
  let req := mkRequest (Some "Bearer jwt.s3cr3t.64b7f0c2a1d3e4f5a6b7c8d9")
               (mkBody (Val "mallory") (Val "newpassword") (Val "new@x.com")
                       Undefined Undefined) in
  let w := mkWorld [Sample.alice; Sample.bob] [] in
  let after := users (snd (put_profile (L := Sample.libs) Sample.env
                             Sample.amb req w)) in
  option_map email (stored (_id Sample.alice) (mkWorld after []))
  = Some (Val "new@x.com")
  /\ map identity_of after = map identity_of [Sample.alice; Sample.bob].
Proof.
  intros req w after. split; [reflexivity |].
  apply (profile_update_keeps_identity_and_others Sample.libs Sample.env
           Sample.amb req w).
  repeat constructor; simpl; intuition discriminate.
Defined.

(** X7.  An authenticated profile update with a member that fails its
    check is answered 400 [Validation failed] with one error per failing
    member, in the order email, phone, dob, and nothing at all is written:
    the valid members of the same request are not applied either. *)
Theorem profile_update_invalid_writes_nothing :
  forall (L : Libs) (env : Env) (amb : Ambient) (req : Request) (w : World)
         (user : User),
    answer (requireAuth env amb req w) = Some (inr user) ->
    profile_rejected_paths (req_body req) <> [] ->
    exists errors,
      map Validator.fe_path errors = profile_rejected_paths (req_body req)
      /\ answer (put_profile env amb req w)
         = Some (res_status_json 400
                   (JObj [("message", JStr "Validation failed");
                          ("errors",
                           JArr (map Validator.json_of_error errors))]))
      /\ users (snd (put_profile env amb req w)) = users w.
Proof.
  intros L env amb req w user Hg Hbad.
  destruct (requireAuth_passes env amb req w user Hg) as (w1 & E & Hu & _).
  destruct (profile_chains_run (req_body req)) as [Hp _].
  unfold put_profile, bind, answer. rewrite E.
  destruct (Validator.run_chains profile_chains (req_body req))
    as [errors b'].
  simpl in Hp. exists errors. split; [exact Hp |].
  destruct errors as [| e es]; [simpl in Hp; congruence |].
  split; [reflexivity | exact Hu].
Qed.

Lemma profile_update_invalid_writes_nothing_witness :
  let req := mkRequest (Some "Bearer jwt.s3cr3t.64b7f0c2a1d3e4f5a6b7c8d9")
               (mkBody Undefined Undefined (Val "new@x.com") (Val "abc")
                       Undefined) in
  profile_rejected_paths (L := Sample.libs) (req_body req) = ["phone"]
  /\ option_map status
       (answer (put_profile (L := Sample.libs) Sample.env Sample.amb req
                  Sample.with_alice)) = Some 400
  /\ users (snd (put_profile (L := Sample.libs) Sample.env Sample.amb req
                   Sample.with_alice)) = [Sample.alice].
Proof.
  intros req. split; [reflexivity |].
  destruct (profile_update_invalid_writes_nothing Sample.libs Sample.env
              Sample.amb req Sample.with_alice Sample.alice eq_refl)
    as (errors & _ & Ha & Hu).
  - discriminate.
  - rewrite Ha. split; [reflexivity | exact Hu].
Defined.

(** ** When a profile update is written *)

Section UpdateOutcome.
Context {L : Libs}.

(** [save] returns only a valid document, and one it modified only under
    the unique indexes. *)
Lemma save_returns amb d w u :
  untouched_password d ->
  fst (save amb d w) = inr u ->
  invalid_paths d = []
  /\ (modified d = []
      \/ violates_unique (with_updatedAt (now amb) (this d))
           (filter (fun v => negb (_id v =? _id (this d))%string) (users w))
         = None).
Proof.
  intros [Hn Hm]. unfold save.
  destruct (invalid_paths d) as [| p ps]; [| discriminate].
  unfold hashPassword, isModified. rewrite Hn, Hm.
  unfold bind, ret, emit, get_users, put_users, throw.
  cbn [orb negb fst snd users trace].
  destruct (modified d) as [| m ms]; [auto |].
  cbn [users trace fst snd _id with_updatedAt].
  destruct (negb (existsb _ (users w))); [discriminate |].
  destruct (violates_unique _ _) eqn:E; [discriminate |].
  intros _. split; [reflexivity | right; reflexivity].
Qed.

(** [save] succeeds on a valid document that is in the store and passes
    the unique indexes against the other documents. *)
Lemma save_succeeds amb d w :
  untouched_password d ->
  invalid_paths d = [] ->
  existsb (fun v => (_id v =? _id (this d))%string) (users w) = true ->
  violates_unique (with_updatedAt (now amb) (this d))
    (filter (fun v => negb (_id v =? _id (this d))%string) (users w)) = None ->
  exists u, fst (save amb d w) = inr u.
Proof.
  intros [Hn Hm] Hv Hex Hu. unfold save. rewrite Hv.
  unfold hashPassword, isModified. rewrite Hn, Hm.
  unfold bind, ret, emit, get_users, put_users, throw.
  cbn [orb negb fst snd users trace].
  destruct (modified d) as [| m ms]; [eexists; reflexivity |].
  cbn [users trace fst snd _id with_updatedAt].
  rewrite Hex. cbn [negb]. rewrite Hu. eexists. reflexivity.
Qed.

(** The cast failures the assignments of the handler leave. *)
Lemma apply_update_castErrors b user :
  castErrors (apply_update b (hydrate user))
  = match body_dob b with
    | Undefined => []
    | v => match dob_assigned v with InvalidDate => ["dob"] | _ => [] end
    end.
Proof.
  unfold apply_update.
  set (d1 := match body_email b with Undefined => _ | _ => _ end).
  assert (H1 : castErrors d1 = []).
  { subst d1. destruct (body_email b) as [| | e]; [reflexivity | |].
    - destruct (assign_email_spec Null (hydrate user)) as (_ & _ & _ & A).
      now rewrite A.
    - destruct (assign_email_spec (Val e) (hydrate user)) as (_ & _ & _ & A).
      now rewrite A. }
  set (d2 := match body_phone b with Undefined => _ | _ => _ end).
  assert (H2 : castErrors d2 = []).
  { subst d2. destruct (body_phone b) as [| | e]; [exact H1 | |].
    - destruct (assign_phone_spec Null d1) as (_ & _ & _ & A). now rewrite A.
    - destruct (assign_phone_spec (Val e) d1) as (_ & _ & _ & A).
      now rewrite A. }
  assert (Hd : forall v, castErrors (assign_dob v d2)
                         = match v with InvalidDate => ["dob"] | _ => [] end).
  { intros v. unfold assign_dob. destruct v as [| t |].
    - destruct (field_eqb Z.eqb Null _); [exact H2 | simpl; exact H2].
    - destruct (field_eqb Z.eqb (Val t) _); [exact H2 | simpl; exact H2].
    - simpl. now rewrite H2. }
  destruct (body_dob b) as [| | e]; [exact H2 | apply Hd | apply Hd].
Qed.

End UpdateOutcome.

Section UpdateFlow.
Context {L : Libs}.

Lemma profile_accepted_email b :
  profile_rejected_paths b = [] ->
  not_blank (body_email b) = true ->
  Regex.test EMAIL_REGEX (Js.trim (Validator.toString (body_email b))) = true.
Proof.
  unfold profile_rejected_paths. intros H Hn.
  apply app_eq_nil in H as [H _]. rewrite Hn in H. cbn [andb] in H.
  destruct (Regex.test EMAIL_REGEX _); [reflexivity | discriminate].
Qed.

End UpdateFlow.

(** X8.  An authenticated, validated profile update that sets the email to
    one that another account already has (after trimming and lower-casing)
    is answered 500 [Server error], not a field error, and writes
    nothing. *)
Theorem profile_update_taken_email_is_server_error :
  forall (L : Libs) (env : Env) (amb : Ambient) (req : Request) (w : World)
         (user other : User) (e : string),
    answer (requireAuth env amb req w) = Some (inr user) ->
    profile_rejected_paths (req_body req) = [] ->
    body_email (req_body req) = Val e ->
    truthy (Val e) = true ->
    In other (users w) ->
    _id other <> _id user ->
    email other = set_email (Val (Js.trim e)) ->
    email user <> set_email (Val (Js.trim e)) ->
    answer (put_profile env amb req w)
    = Some (res_status_json 500 (message "Server error"))
    /\ users (snd (put_profile env amb req w)) = users w.
Proof.
  intros L env amb req w user other e Hg Hv He Ht Hin Hid Hother Hown.
  destruct (requireAuth_passes env amb req w user Hg) as (w1 & E & Hu & _).
  rewrite (put_profile_valid_run env amb req w user w1 E Hv).
  set (b' := profile_sanitized (req_body req)).
  assert (He' : body_email b' = Val (Js.trim e)).
  { subst b'. unfold profile_sanitized. cbn [body_email].
    rewrite He, Ht. reflexivity. }
  destruct (apply_update_spec b' user) as (Hi & Hem & _ & _ & Hun & Hsame).
  rewrite He' in Hem.
  pose proof (save_outcome amb (apply_update b' (hydrate user)) w1 Hun) as Ho.
  pose proof (save_returns amb (apply_update b' (hydrate user)) w1) as Hr.
  unfold update_handler, update_attempt, try_catch, bind, ret, answer.
  destruct (save amb (apply_update b' (hydrate user)) w1) as [[x | u] w2];
    cbn [fst snd] in *.
  - split; [reflexivity | congruence].
  - exfalso. destruct (Hr u Hun eq_refl) as (_ & [Hm | Hq]).
    + apply Hown. rewrite <- Hem, (Hsame Hm). reflexivity.
    + destruct (violates_unique_none _ _ Hq) as (_ & _ & Hne).
      apply Hne. cbn [email with_updatedAt]. rewrite Hem, <- Hother.
      apply in_map. apply filter_In. split; [congruence |].
      rewrite Hi. apply String.eqb_neq in Hid. now rewrite Hid.
Qed.

Lemma profile_update_taken_email_is_server_error_witness :
  let req := mkRequest (Some "Bearer jwt.s3cr3t.64b7f0c2a1d3e4f5a6b7c8d9")
               (mkBody Undefined Undefined (Val " Bob@Y.org")
                       Undefined Undefined) in
  let w := mkWorld [Sample.alice; Sample.bob] [] in
  answer (put_profile (L := Sample.libs) Sample.env Sample.amb req w)
  = Some (res_status_json 500 (message "Server error"))
  /\ users (snd (put_profile (L := Sample.libs) Sample.env Sample.amb req w))
     = [Sample.alice; Sample.bob].
Proof.
  intros req w.
  apply (profile_update_taken_email_is_server_error Sample.libs Sample.env
           Sample.amb req w Sample.alice Sample.bob " Bob@Y.org");
    try reflexivity; try discriminate.
  right. left. reflexivity.
Defined.

(** X9.  An authenticated, validated profile update whose email is absent
    or not blank, whose date can be read, and whose new email no other
    account has, succeeds: the answer is 200 with the profile as stored,
    where every member that was sent is stored trimmed (the email also
    lower-cased, the date parsed), and every absent member is as before. *)
Theorem profile_update_succeeds :
  forall (L : Libs) (env : Env) (amb : Ambient) (req : Request) (w : World)
         (user : User),
    let b := profile_sanitized (req_body req) in
    let new_email := match body_email b with
                     | Undefined => email user
                     | v => set_email v
                     end in
    answer (requireAuth env amb req w) = Some (inr user) ->
    profile_rejected_paths (req_body req) = [] ->
    body_email (req_body req) = Undefined
    \/ not_blank (body_email (req_body req)) = true ->
    dob_readable (body_dob (req_body req)) = true ->
    username user <> "" /\ password user <> ""
    /\ required_ok (email user) = true ->
    (forall other, In other (users w) -> _id other <> _id user ->
                   username other <> username user
                   /\ email other <> new_email) ->
    exists st,
      answer (put_profile env amb req w) = Some (res_json (profile_view st))
      /\ stored (_id user) (snd (put_profile env amb req w)) = Some st
      /\ email st = new_email
      /\ phone st = match body_phone b with
                    | Undefined => phone user
                    | v => set_phone v
                    end
      /\ dob st = match body_dob b with
                  | Undefined => dob user
                  | v => dob_after (dob_assigned v) (dob user)
                  end.
Proof.
  intros L env amb req w user b new_email Hg Hv Hem Hd (Hun & Hpw & Hreq) Hfree.
  destruct (requireAuth_passes env amb req w user Hg) as (w1 & E & Hu & Hs).
  assert (Hs1 : stored (_id user) w1 = Some user)
    by (unfold stored in *; rewrite Hu; exact Hs).
  rewrite (put_profile_valid_run env amb req w user w1 E Hv). fold b.
  destruct (apply_update_spec b user) as (Hi & He & Hp & Hdo & Hunt & _).
  pose proof (apply_update_identity b user) as Hident.
  pose proof (apply_update_castErrors b user) as Hcast.
  set (d := apply_update b (hydrate user)) in *.
  fold new_email in He.
  assert (Hne : required_ok new_email = true).
  { subst new_email b. unfold profile_sanitized. cbn [body_email].
    destruct Hem as [Hab | Htr].
    - rewrite Hab. exact Hreq.
    - pose proof (profile_accepted_email (req_body req) Hv Htr) as Hacc.
      destruct (truthy (body_email (req_body req))) eqn:Ht.
      + apply accepted_email_required_ok. exact Hacc.
      + rewrite (falsy_blank _ Ht) in Htr. discriminate Htr. }
  assert (Hvalid : invalid_paths d = []).
  { unfold invalid_paths, isModified. destruct Hunt as [Hn Hm].
    rewrite Hn, Hm. cbn [orb andb].
    assert (Hu' : username (this d) = username user)
      by (injection Hident; auto).
    assert (Hp' : password (this d) = password user)
      by (injection Hident; auto).
    rewrite Hu', Hp'.
    apply String.eqb_neq in Hun, Hpw. rewrite Hun, Hpw.
    rewrite He, Hne, Hcast. subst b. unfold profile_sanitized.
    cbn [body_dob]. unfold dob_readable, dob_assigned, new_Date in *.
    destruct (body_dob (req_body req)) as [| | s]; try reflexivity.
    unfold truthy. destruct (s =? "")%string; [reflexivity |].
    cbn [negb Validator.toString].
    destruct (Date_parse s); [reflexivity | discriminate]. }
  assert (Hex : existsb (fun v => (_id v =? _id (this d))%string) (users w1)
                = true).
  { apply existsb_exists. exists user. split.
    - rewrite Hu. apply (find_some _ _ Hs).
    - rewrite Hi. apply String.eqb_refl. }
  assert (Huniq : violates_unique (with_updatedAt (now amb) (this d))
                    (filter (fun v => negb (_id v =? _id (this d))%string)
                            (users w1)) = None).
  { unfold violates_unique. cbn [_id username email with_updatedAt].
    rewrite (existsb_false_intro (fun v => (_id v =? _ )%string)).
    2: { intros v Hin. apply filter_In in Hin as [_ Hin].
         destruct (_id v =? _id (this d))%string; [discriminate | reflexivity]. }
    assert (Hoth : forall v,
               In v (filter (fun v => negb (_id v =? _id (this d))%string)
                            (users w1)) ->
               username v <> username user /\ email v <> new_email).
    { intros v Hin. apply filter_In in Hin as [Hin Hne'].
      apply Hfree; [rewrite <- Hu; exact Hin |].
      rewrite Hi in Hne'. intros Heq. rewrite Heq, String.eqb_refl in Hne'.
      discriminate. }
    assert (Hu' : username (this d) = username user)
      by (injection Hident; auto).
    rewrite Hu', He.
    rewrite (existsb_false_intro (fun v => (username v =? _ )%string)).
    2: { intros v Hin. apply String.eqb_neq. apply (Hoth v Hin). }
    rewrite (existsb_false_intro (fun v => field_eqb String.eqb (email v) _)).
    2: { intros v Hin. apply field_eqb_string_neq. apply (Hoth v Hin). }
    reflexivity. }
  destruct (save_succeeds amb d w1 Hunt Hvalid Hex Huniq) as [u Hsave].
  destruct (update_handler_stored amb user b w1 Hs1)
    as [[Ha _] | (st & Ha & Hst & _ & Ee & Ep & Ed)].
  - exfalso. revert Ha. unfold update_handler, update_attempt, try_catch, bind, ret. fold d.
    destruct (save amb d w1) as [[x | u'] w2]; cbn [fst] in *;
      [discriminate Hsave | discriminate].
  - exists st. unfold answer. rewrite Ha.
    split; [reflexivity |]. split; [exact Hst |].
    fold d in Ee, Ep, Ed. rewrite Ee, Ep, Ed, He, Hp, Hdo. auto.
Qed.

Lemma profile_update_succeeds_witness :
  let req := mkRequest (Some "Bearer jwt.s3cr3t.64b7f0c2a1d3e4f5a6b7c8d9")
               (mkBody Undefined Undefined (Val " New@X.com ")
                       Undefined (Val "2001-02-03")) in
  let w := mkWorld [Sample.alice; Sample.bob] [] in
  exists st,
    answer (put_profile (L := Sample.libs) Sample.env Sample.amb req w)
    = Some (res_json (profile_view st))
    /\ stored (_id Sample.alice)
         (snd (put_profile (L := Sample.libs) Sample.env Sample.amb req w))
       = Some st
    /\ email st = Val "new@x.com"
    /\ phone st = Val "123-456-7890"
    /\ dob st = Val 20010203%Z.
Proof.
  intros req w.
  apply (profile_update_succeeds Sample.libs Sample.env Sample.amb req w
           Sample.alice); try reflexivity.
  - right. reflexivity.
  - repeat split; discriminate.
  - intros other [<- | [<- | []]] Hid; [contradiction |].
    split; discriminate.
Defined.

(** ** The bearer header *)

Lemma split_aux_segment (t rest cur : string) :
  has_space t = false ->
  Js.split_aux " " (t ++ rest) cur
  = match rest with
    | EmptyString => [Js.rev (Js.rev_append t cur)]
    | String c junk =>
        if Ascii.eqb c " "
        then Js.rev (Js.rev_append t cur) :: Js.split_aux " " junk EmptyString
        else Js.split_aux " " rest (Js.rev_append t cur)
    end.
Proof.
  revert cur. induction t as [| a t IH]; intros cur Ht; simpl.
  - destruct rest as [| c junk]; [reflexivity |]. simpl.
    destruct (Ascii.eqb c " "); reflexivity.
  - simpl in Ht. destruct (Ascii.eqb a " ") eqn:E; [discriminate |].
    simpl in Ht. apply IH. exact Ht.
Qed.

Lemma rev_rev_append_nil (t : string) :
  Js.rev (Js.rev_append t EmptyString) = t.
Proof. apply rev_involutive. Qed.

(** [('Bearer ' + t).split(' ')[1]] is [t] when [t] has no space, also
    when more text follows after a space. *)
Lemma bearer_token (t : string) :
  has_space t = false ->
  nth_error (Js.split " " ("Bearer " ++ t)) 1 = Some t.
Proof.
  intros Ht. unfold Js.split. cbn [String.append Js.split_aux Ascii.eqb
    Bool.eqb Js.rev Js.rev_append].
  rewrite <- (append_empty_r t) at 1.
  rewrite (split_aux_segment t EmptyString EmptyString Ht).
  cbn [nth_error]. now rewrite rev_rev_append_nil.
Qed.

Lemma bearer_token_then_more (t junk : string) :
  has_space t = false ->
  nth_error (Js.split " " ("Bearer " ++ t ++ " " ++ junk)) 1 = Some t.
Proof.
  intros Ht. unfold Js.split. cbn [String.append Js.split_aux Ascii.eqb
    Bool.eqb Js.rev Js.rev_append].
  rewrite (split_aux_segment t (String " " junk) EmptyString Ht).
  cbn [Ascii.eqb Bool.eqb nth_error]. now rewrite rev_rev_append_nil.
Qed.

Lemma startsWith_bearer (t : string) :
  Js.startsWith "Bearer " ("Bearer " ++ t) = true.
Proof.
  unfold Js.startsWith. cbn [String.append String.prefix].
  repeat (destruct (ascii_dec _ _) as [_ | N]; [| now elim N]).
  destruct t; reflexivity.
Qed.

(** X10.  The gate takes as the token the text between the first and the
    second space of the header: whatever follows the token after a space
    is ignored, and the request is treated exactly like the one with the
    bare token. *)
Theorem requireAuth_ignores_text_after_token :
  forall (L : Libs) (env : Env) (amb : Ambient) (b : Body) (w : World)
         (token more : string),
    has_space token = false ->
    requireAuth env amb
      (mkRequest (Some ("Bearer " ++ token ++ " " ++ more)%string) b) w
    = requireAuth env amb (mkRequest (Some ("Bearer " ++ token)%string) b) w.
Proof.
  intros L env amb b w token more Ht.
  unfold requireAuth. cbn [authorization header_or_empty].
  rewrite (startsWith_bearer token).
  replace (Js.startsWith "Bearer " ("Bearer " ++ token ++ " " ++ more))
    with true
    by (symmetry; apply (startsWith_bearer (token ++ " " ++ more)%string)).
  rewrite (bearer_token token Ht), (bearer_token_then_more token more Ht).
  reflexivity.
Qed.

Lemma requireAuth_ignores_text_after_token_witness :
  answer (requireAuth (L := Sample.libs) Sample.env Sample.amb
            (mkRequest
               (Some "Bearer jwt.s3cr3t.64b7f0c2a1d3e4f5a6b7c8d9 and more")
               Sample.no_body)
            Sample.with_alice)
  = Some (inr Sample.alice).
Proof.
  exact (eq_trans
           (f_equal answer
              (requireAuth_ignores_text_after_token Sample.libs Sample.env
                 Sample.amb Sample.no_body Sample.with_alice
                 "jwt.s3cr3t.64b7f0c2a1d3e4f5a6b7c8d9" "and more" eq_refl))
           eq_refl).
Defined.

(** X11.  A token that [createToken] issued for a stored account opens the
    gate for that account: sent as [Bearer <token>] while the library still
    verifies it under the configured key, the request is let through with
    the stored document attached, and the profile read answers 200 with
    that account's profile. *)
Theorem issued_token_opens_the_gate :
  forall (L : Libs) (env : Env) (issued_at asked_at : Ambient)
         (user : User) (w0 w : World) (b : Body) (token : string),
    fst (createToken env issued_at (_id user) w0) = inr token ->
    has_space token = false ->
    (forall secret, JWT_SECRET env = Some secret ->
                    jwt_verify token secret (now asked_at) = Some (_id user)) ->
    castObjectId (_id user) = true ->
    stored (_id user) w = Some user ->
    let req := mkRequest (Some ("Bearer " ++ token)%string) b in
    answer (requireAuth env asked_at req w) = Some (inr user)
    /\ answer (get_profile env asked_at req w)
       = Some (res_json (profile_view user)).
Proof.
  intros L env issued_at asked_at user w0 w b token Hc Ht Hver Hcast Hs req.
  assert (Hid : bearer_id env (now asked_at) ("Bearer " ++ token)%string
                = Some (_id user)).
  { unfold bearer_id. rewrite (bearer_token token Ht).
    revert Hc. unfold createToken, read_secret, bind, throw, ret.
    destruct (JWT_SECRET env) as [secret |] eqn:Es; [| discriminate].
    destruct (secret =? "")%string; [discriminate |]. intros _.
    rewrite (Hver secret eq_refl), Hcast. reflexivity. }
  assert (Hgate : fst (requireAuth env asked_at req w) = inr (inr user)).
  { destruct (requireAuth_spec env asked_at req w) as [E _].
    rewrite E. subst req. cbn [authorization header_or_empty].
    rewrite (startsWith_bearer token). cbn [negb].
    rewrite Hid, Hs. reflexivity. }
  split.
  - unfold answer. rewrite Hgate. reflexivity.
  - unfold get_profile, bind, answer.
    destruct (requireAuth env asked_at req w) as [[e | [r | u]] w1];
      cbn [fst] in Hgate; try discriminate.
    injection Hgate as ->. reflexivity.
Qed.

Lemma issued_token_opens_the_gate_witness :
  answer (get_profile (L := Sample.libs) Sample.env Sample.amb
            (mkRequest (Some "Bearer jwt.s3cr3t.64b7f0c2a1d3e4f5a6b7c8d9")
                       Sample.no_body)
            Sample.with_alice)
  = Some (res_json (profile_view Sample.alice)).
Proof.
  apply (issued_token_opens_the_gate Sample.libs Sample.env Sample.amb
           Sample.amb Sample.alice Sample.empty Sample.with_alice
           Sample.no_body "jwt.s3cr3t.64b7f0c2a1d3e4f5a6b7c8d9");
    try reflexivity.
  intros secret H. injection H as <-. reflexivity.
Defined.

(** X12.  A login that fails validation is answered 400 [Validation
    failed] with every error: an empty password, an email that is not blank
    and malformed, and the error with the empty path when neither a
    username nor an email remains after trimming.  No error is ever
    reported for the path [username]: a username of white space only is
    emptied by [trim] and skips [notEmpty].  The store is not queried and
    no comparison runs. *)
Theorem login_invalid_reports_every_error :
  forall (L : Libs) (env : Env) (amb : Ambient) (b : Body) (w : World),
    login_rejected_paths b <> [] ->
    exists errors,
      map Validator.fe_path errors = login_rejected_paths b
      /\ ~ In "username" (map Validator.fe_path errors)
      /\ login env amb b w
         = (inr (res_status_json 400
                   (JObj [("message", JStr "Validation failed");
                          ("errors",
                           JArr (map Validator.json_of_error errors))])),
            w).
Proof.
  intros L env amb b w H.
  destruct (login_validation_run b) as [Hp _].
  unfold login.
  destruct (login_validation b) as [errors b'].
  simpl in Hp. exists errors. split; [exact Hp |]. split.
  - rewrite Hp. unfold login_rejected_paths. intros Hin.
    apply in_app_or in Hin as [Hin | Hin].
    { destruct (_ =? 0); [destruct Hin as [E | []]; discriminate E
                         | destruct Hin]. }
    apply in_app_or in Hin as [Hin | Hin].
    { destruct (_ && _); [destruct Hin as [E | []]; discriminate E
                         | destruct Hin]. }
    destruct (_ && _); [destruct Hin as [E | []]; discriminate E
                       | destruct Hin].
  - destruct errors as [| e es]; [| reflexivity].
    simpl in Hp. congruence.
Qed.

Lemma login_invalid_reports_every_error_witness :
  let b := mkBody (Val "   ") (Val "abcdef") Undefined Undefined Undefined in
  login_rejected_paths b = [""]
  /\ option_map status
       (answer (login (L := Sample.libs) Sample.env Sample.amb b
                  Sample.with_alice)) = Some 400
  /\ snd (login (L := Sample.libs) Sample.env Sample.amb b Sample.with_alice)
     = Sample.with_alice.
Proof.
  intros b. split; [reflexivity |].
  destruct (login_invalid_reports_every_error Sample.libs Sample.env
              Sample.amb b Sample.with_alice) as (errors & _ & _ & E).
  - discriminate.
  - rewrite E. split; reflexivity.
Defined.

(** ** Registering, then logging in *)

Lemma find_app_last {A} (f : A -> bool) (l : list A) (x : A) :
  (forall y, In y l -> f y = false) -> f x = true ->
  find f (l ++ [x]) = Some x.
Proof.
  intros Hl Hx. induction l as [| a l IH]; simpl.
  - now rewrite Hx.
  - rewrite (Hl a (or_introl eq_refl)). apply IH.
    intros y Hy. apply Hl. right. exact Hy.
Qed.

Section RoundTrip.
Context {L : Libs}.

(** A body that registration accepts is one that login accepts, and login
    will look it up by its trimmed username. *)
Lemma registration_body_logs_in b :
  register_rejected_paths b = [] ->
  login_rejected_paths b = []
  /\ login_query (login_sanitized b)
     = One (by_username
              (Val (Js.trim (Validator.toString (body_username b)))))
  /\ body_password (login_sanitized b) = body_password b.
Proof.
  intros Hv. destruct (register_accepted_facts b Hv) as (Hu & Hp & He).
  assert (Hnb : not_blank (body_username b) = true).
  { unfold not_blank. rewrite truthy_length, Hu. reflexivity. }
  assert (Hp0 : (String.length (Validator.toString (body_password b)) =? 0)
                = false).
  { apply Nat.leb_le in Hp. apply Nat.eqb_neq. lia. }
  split; [| split].
  - unfold login_rejected_paths. rewrite Hp0, He, Hnb.
    rewrite andb_false_r. reflexivity.
  - rewrite login_query_sanitized. unfold login_lookup. rewrite Hnb.
    reflexivity.
  - reflexivity.
Qed.

End RoundTrip.

(** X13.  The credentials of a successful registration log in: on the
    store the registration left, a login with the same body (or any body
    with that username and password) finds the new account by its trimmed
    username, and when bcrypt accepts the password against the hash it
    made of it, the answer is 200 with the new account's id, username and
    email and a fresh token. *)
Theorem registered_credentials_log_in :
  forall (L : Libs) (env : Env) (amb later : Ambient) (b : Body) (w : World)
         (secret token token' : string),
    register_rejected_paths b = [] ->
    dob_readable (body_dob b) = true ->
    (forall v, In v (users w) ->
               _id v <> fresh_oid amb
               /\ username v <> username (registered_user amb b)
               /\ email v <> email (registered_user amb b)) ->
    JWT_SECRET env = Some secret ->
    secret <> "" ->
    jwt_sign (fresh_oid amb) secret (env_or (JWT_EXPIRES_IN env) "7d") (now amb)
    = Some token ->
    jwt_sign (fresh_oid amb) secret (env_or (JWT_EXPIRES_IN env) "7d")
             (now later) = Some token' ->
    bcrypt_compare (Validator.toString (body_password b))
      (bcrypt_hash (Validator.toString (body_password b))
                   (bcrypt_genSalt 10 (entropy amb))) = true ->
    answer (login env later b (snd (register env amb (fun us => us) b w)))
    = Some (res_json (account_summary (registered_user amb b) token')).
Proof.
  intros L env amb later b w secret token token' Hv Hd Hfree Hs Hne Hsign
    Hsign' Hcmp.
  rewrite (register_success_run L env amb b w secret token Hv Hd Hfree Hs Hne
             Hsign).
  cbn [snd].
  destruct (registration_body_logs_in b Hv) as (Hl & Hq & Hp).
  rewrite (login_valid_run env later b Hl).
  unfold login_handler, try_catch, bind, findOne, bind, emit, get_users, ret,
    answer.
  cbn [users trace fst snd]. rewrite Hq.
  rewrite (find_app_last _ (users w) (registered_user amb b)).
  2: { intros v Hin. destruct (Hfree v Hin) as (_ & Hu & _).
       unfold matches, matches_cond. rewrite trim_idempotent.
       apply String.eqb_neq. exact Hu. }
  2: { unfold matches, matches_cond. rewrite trim_idempotent.
       apply String.eqb_refl. }
  cbn [users trace fst snd]. rewrite Hp.
  cbn [password registered_user]. rewrite Hcmp. cbn [negb].
  unfold createToken, read_secret, bind, emit, ret. rewrite Hs.
  apply String.eqb_neq in Hne. rewrite Hne.
  cbn [users trace fst snd _id registered_user]. rewrite Hsign'.
  reflexivity.
Qed.

Lemma registered_credentials_log_in_witness :
  let b := mkBody (Val " alice ") (Val "abcdef") (Val "A@X.com ")
                  (Val "123-456-7890") Undefined in
  answer (login (L := Sample.libs) Sample.env Sample.amb b
            (snd (register (L := Sample.libs) Sample.env Sample.amb
                    (fun us => us) b Sample.empty)))
  = Some (res_json (account_summary Sample.alice
                      "jwt.s3cr3t.64b7f0c2a1d3e4f5a6b7c8d9")).
Proof.
  intros b.
  apply (registered_credentials_log_in Sample.libs Sample.env Sample.amb
           Sample.amb b Sample.empty "s3cr3t"
           "jwt.s3cr3t.64b7f0c2a1d3e4f5a6b7c8d9"
           "jwt.s3cr3t.64b7f0c2a1d3e4f5a6b7c8d9");
    try reflexivity.
  - intros v [].
  - discriminate.
Defined.

(** ** The controllers behind [protect] *)

Lemma controller_get_set_same k v d :
  Controller.get k (Controller.set k v d) = Some v.
Proof.
  unfold Controller.get, Controller.set.
  destruct (existsb (fun kv => (fst kv =? k)%string) d) eqn:E.
  - induction d as [| [k' v'] d IH]; [discriminate |]. simpl in *.
    destruct (k' =? k)%string eqn:Ek; simpl.
    + rewrite String.eqb_refl. reflexivity.
    + rewrite Ek. apply IH. exact E.
  - induction d as [| [k' v'] d IH]; simpl in *.
    + rewrite String.eqb_refl. reflexivity.
    + destruct (k' =? k)%string eqn:Ek; [discriminate |]. apply IH. exact E.
Qed.

Lemma controller_get_set_other k k' v d :
  (k' =? k)%string = false ->
  Controller.get k (Controller.set k' v d) = Controller.get k d.
Proof.
  intros Hk. unfold Controller.get, Controller.set.
  assert (Hkk : (k =? k')%string = false) by (now rewrite String.eqb_sym).
  destruct (existsb (fun kv => (fst kv =? k')%string) d).
  - induction d as [| [k0 v0] d IH]; [reflexivity |]. simpl.
    destruct (k0 =? k')%string eqn:E0; simpl.
    + apply String.eqb_eq in E0. subst k0.
      rewrite Hk. exact IH.
    + destruct (k0 =? k)%string; [reflexivity | exact IH].
  - induction d as [| [k0 v0] d IH]; simpl.
    + now rewrite Hk.
    + destruct (k0 =? k)%string; [reflexivity | exact IH].
Qed.

Lemma controller_get_assign_same k v d :
  Controller.get k (Controller.assign k v d)
  = match v with Some j => Some j | None => Controller.get k d end.
Proof.
  destruct v as [j |]; simpl; [apply controller_get_set_same | reflexivity].
Qed.

Lemma controller_get_assign_other k k' v d :
  (k' =? k)%string = false ->
  Controller.get k (Controller.assign k' v d) = Controller.get k d.
Proof.
  intros H. destruct v as [j |]; simpl;
    [apply controller_get_set_other, H | reflexivity].
Qed.

Lemma option_same {A} (o : option A) :
  match o with Some j => Some j | None => o end = o.
Proof. destruct o; reflexivity. Qed.

(** X14.  [updateProfile] saves [req.user] with three members assigned:
    [name] is replaced only by a non-empty name (an empty, [null] or absent
    one keeps the old name), while [bio] and [avatarUrl] are replaced by any
    string that is sent, the empty one included, and kept when [null] or
    absent.  Every other member of the document is saved as it was. *)
Theorem updateProfile_assignments :
  forall (L : Libs) (save_doc : Controller.Doc -> option Controller.Doc)
         (user : Controller.Doc) (b : Controller.ProfileBody),
    let d := controller_assigned user b in
    Controller.updateProfile save_doc (Some user) b
    = match save_doc d with
      | Some updated =>
          res_json (JObj (Controller.pick "_id" updated
                          ++ Controller.pick "name" updated
                          ++ Controller.pick "email" updated
                          ++ Controller.pick "bio" updated
                          ++ Controller.pick "avatarUrl" updated
                          ++ Controller.pick "updatedAt" updated))
      | None => res_status_json 500 (message "Server error")
      end
    /\ Controller.get "name" d
       = (if truthy (Controller.name b)
          then Some (JStr (Validator.toString (Controller.name b)))
          else Controller.get "name" user)
    /\ Controller.get "bio" d
       = match Controller.bio b with
         | Val s => Some (JStr s)
         | _ => Controller.get "bio" user
         end
    /\ Controller.get "avatarUrl" d
       = match Controller.avatarUrl b with
         | Val s => Some (JStr s)
         | _ => Controller.get "avatarUrl" user
         end
    /\ (forall k, (k =? "name")%string = false ->
                  (k =? "bio")%string = false ->
                  (k =? "avatarUrl")%string = false ->
                  Controller.get k d = Controller.get k user).
Proof.
  intros L save_doc user b d. split; [reflexivity |].
  subst d. unfold controller_assigned.
  repeat split.
  - rewrite !controller_get_assign_other by reflexivity.
    rewrite controller_get_assign_same. unfold Controller.or_else.
    destruct (truthy (Controller.name b)); [reflexivity | apply option_same].
  - rewrite controller_get_assign_other by reflexivity.
    rewrite controller_get_assign_same. unfold Controller.nullish_else.
    rewrite controller_get_assign_other by reflexivity.
    destruct (Controller.bio b); try apply option_same. reflexivity.
  - rewrite controller_get_assign_same. unfold Controller.nullish_else.
    rewrite !controller_get_assign_other by reflexivity.
    destruct (Controller.avatarUrl b); try apply option_same. reflexivity.
  - intros k H1 H2 H3.
    rewrite !controller_get_assign_other
      by (rewrite String.eqb_sym; assumption).
    reflexivity.
Qed.

(** X15.  Behind [protect], [getProfile] answers a bearer request whose
    token verifies to a castable id as follows: 200 with the stored
    document without its [password] member, every other member as stored,
    when the id resolves; 401 [Not authorized] when it does not (the gate
    lets the request through with [req.user] null and the controller turns
    it away). *)
Theorem getProfile_behind_protect :
  forall (L : Libs) (env : Env) (t : Z) (store : list Controller.Doc)
         (secret token id : string),
    JWT_SECRET env = Some secret ->
    secret <> "" ->
    has_space token = false ->
    jwt_verify token secret t = Some id ->
    castObjectId id = true ->
    let answered :=
      Controller.guarded
        (Controller.protect env t store (Some ("Bearer " ++ token)%string))
        Controller.getProfile in
    match Controller.findById store id with
    | Some d =>
        exists shown,
          answered = res_json (JObj shown)
          /\ Controller.get "password" shown = None
          /\ (forall k, (k =? "password")%string = false ->
                        Controller.get k shown = Controller.get k d)
    | None => answered = res_status_json 401 (message "Not authorized")
    end.
Proof.
  intros L env t store secret token id Hs Hne Ht Hv Hc answered.
  subst answered. unfold Controller.guarded, Controller.protect.
  rewrite (startsWith_bearer token). cbn [negb].
  rewrite Hs, (bearer_token token Ht).
  apply String.eqb_neq in Hne. rewrite Hne, Hv, Hc.
  destruct (Controller.findById store id) as [d |]; cbn [option_map].
  - exists (Controller.select_minus "password" d). split; [reflexivity |].
    split.
    + pose proof (select_minus_drops "password" d) as H. simpl in H.
      unfold Controller.get.
      destruct (find _ (Controller.select_minus "password" d))
        as [[k v] |] eqn:E; [| reflexivity].
      apply find_some in E as [Hin Hk].
      assert (existsb (fun kv => (fst kv =? "password")%string)
                (Controller.select_minus "password" d) = true).
      { apply existsb_exists. exists (k, v). split; assumption. }
      congruence.
    + intros k Hk. apply select_minus_keeps. exact Hk.
  - reflexivity.
Qed.

Lemma getProfile_behind_protect_witness :
  let doc := [("_id", JStr "64b7f0c2a1d3e4f5a6b7c8d9"); ("name", JStr "Alice");
              ("password", JStr "$2a$10$abcdfedcba"); ("bio", JStr "hi")] in
  Controller.guarded
    (Controller.protect (L := Sample.libs) Sample.env 0%Z [doc]
       (Some "Bearer jwt.s3cr3t.64b7f0c2a1d3e4f5a6b7c8d9"))
    Controller.getProfile
  = res_json (JObj [("_id", JStr "64b7f0c2a1d3e4f5a6b7c8d9");
                    ("name", JStr "Alice"); ("bio", JStr "hi")]).
Proof.
  intros doc.
  assert (Hne : "s3cr3t" <> EmptyString) by discriminate.
  pose proof (getProfile_behind_protect Sample.libs Sample.env 0%Z [doc]
                "s3cr3t" "jwt.s3cr3t.64b7f0c2a1d3e4f5a6b7c8d9"
                "64b7f0c2a1d3e4f5a6b7c8d9" eq_refl Hne eq_refl eq_refl
                eq_refl) as H.
  cbv zeta in H. destruct H as (shown & E & _).
  reflexivity.
Defined.

(** ** The patterns *)

Section Patterns.

Lemma lang_void_inv s : ~ lang Regex.Void s.
Proof. intros H. inversion H. Qed.

Lemma lang_eps_inv s : lang Regex.Eps s <-> s = EmptyString.
Proof. split; [intros H; now inversion H | intros ->; constructor]. Qed.

Lemma lang_class_inv p s :
  lang (Regex.Class p) s <-> exists c, s = String c EmptyString /\ p c = true.
Proof.
  split.
  - intros H. inversion H; subst. eauto.
  - intros (c & -> & Hc). now constructor.
Qed.

Lemma lang_cat_inv r1 r2 s :
  lang (Regex.Cat r1 r2) s
  <-> exists s1 s2, s = (s1 ++ s2)%string /\ lang r1 s1 /\ lang r2 s2.
Proof.
  split.
  - intros H. inversion H; subst. eauto.
  - intros (s1 & s2 & -> & H1 & H2). now constructor.
Qed.

Lemma lang_alt_inv r1 r2 s :
  lang (Regex.Alt r1 r2) s <-> lang r1 s \/ lang r2 s.
Proof.
  split.
  - intros H. inversion H; subst; auto.
  - intros [H | H]; [now apply lang_alt_l | now apply lang_alt_r].
Qed.

Lemma lang_cat_smart r1 r2 s :
  lang (Regex.cat r1 r2) s <-> lang (Regex.Cat r1 r2) s.
Proof.
  rewrite lang_cat_inv.
  destruct r1, r2; simpl;
    first
      [ apply lang_cat_inv
      | split;
        [ intros H; now apply lang_void_inv in H
        | intros (s1 & s2 & _ & H1 & H2);
          first [now apply lang_void_inv in H1
                | now apply lang_void_inv in H2] ]
      | split;
        [ intros H; exists EmptyString, s;
          split; [reflexivity | split; [constructor | exact H]]
        | intros (s1 & s2 & -> & H1 & H2);
          apply lang_eps_inv in H1; subst; exact H2 ] ].
Qed.

Lemma lang_alt_smart r1 r2 s :
  lang (Regex.alt r1 r2) s <-> lang (Regex.Alt r1 r2) s.
Proof.
  rewrite lang_alt_inv.
  destruct r1, r2; simpl;
    first
      [ apply lang_alt_inv
      | split;
        [ intros H; first [now right | now left]
        | intros [H | H];
          first [now apply lang_void_inv in H | exact H] ] ].
Qed.

Lemma append_nil_inv (a b : string) :
  (a ++ b)%string = EmptyString -> a = EmptyString /\ b = EmptyString.
Proof. destruct a; simpl; [auto | discriminate]. Qed.

Lemma nullable_lang r : Regex.nullable r = true <-> lang r EmptyString.
Proof.
  split.
  - induction r; simpl; intros H; try discriminate.
    + constructor.
    + apply andb_true_iff in H as [H1 H2].
      change EmptyString with (EmptyString ++ EmptyString)%string.
      constructor; auto.
    + apply orb_true_iff in H as [H | H];
        [apply lang_alt_l | apply lang_alt_r]; auto.
    + constructor.
  - intros H. remember EmptyString as s eqn:Es.
    induction H; simpl; try reflexivity; try discriminate.
    + apply append_nil_inv in Es as [-> ->].
      rewrite IHlang1, IHlang2; reflexivity.
    + rewrite IHlang; auto.
    + rewrite IHlang; auto. apply orb_true_r.
Qed.

Lemma deriv_sound c r s : lang (Regex.deriv c r) s -> lang r (String c s).
Proof.
  revert s. induction r; intros s; simpl; intros H.
  - now apply lang_void_inv in H.
  - now apply lang_void_inv in H.
  - destruct (p c) eqn:E; [| now apply lang_void_inv in H].
    apply lang_eps_inv in H. subst. now constructor.
  - apply lang_alt_smart, lang_alt_inv in H as [H | H].
    + apply lang_cat_smart, lang_cat_inv in H as (s1 & s2 & -> & H1 & H2).
      change (String c (s1 ++ s2)) with (String c s1 ++ s2)%string.
      constructor; auto.
    + destruct (Regex.nullable r1) eqn:E; [| now apply lang_void_inv in H].
      change (String c s) with (EmptyString ++ String c s)%string.
      constructor; [now apply nullable_lang | auto].
  - apply lang_alt_smart, lang_alt_inv in H as [H | H];
      [apply lang_alt_l | apply lang_alt_r]; auto.
  - apply lang_cat_smart, lang_cat_inv in H as (s1 & s2 & -> & H1 & H2).
    change (String c (s1 ++ s2)) with (String c s1 ++ s2)%string.
    constructor; auto.
Qed.

Lemma deriv_complete x r t : lang r (String x t) -> lang (Regex.deriv x r) t.
Proof.
  intros H. remember (String x t) as s' eqn:Es. revert x t Es.
  induction H; intros x t Es; simpl; try discriminate.
  - injection Es as -> <-. rewrite H. constructor.
  - apply lang_alt_smart, lang_alt_inv.
    destruct s1 as [| a s1]; simpl in Es.
    + right. apply nullable_lang in H. rewrite H. now apply IHlang2.
    + injection Es as -> <-. left. apply lang_cat_smart.
      constructor; [now apply IHlang1 | exact H0].
  - apply lang_alt_smart, lang_alt_l. now apply IHlang.
  - apply lang_alt_smart, lang_alt_r. now apply IHlang.
  - destruct s1 as [| a s1]; simpl in Es.
    + now apply IHlang2.
    + injection Es as -> <-. apply lang_cat_smart.
      constructor; [now apply IHlang1 | exact H0].
Qed.

(** The matcher decides the language. *)
Lemma test_lang r s : Regex.test r s = true <-> lang r s.
Proof.
  revert r. induction s as [| c s IH]; intros r; simpl.
  - apply nullable_lang.
  - rewrite IH. split; [apply deriv_sound | apply deriv_complete].
Qed.

End Patterns.

Section Shapes.
Variable p : ascii -> bool.

Lemma all_chars_app (a b : string) :
  all_chars p (a ++ b) = all_chars p a && all_chars p b.
Proof.
  induction a as [| c a IH]; simpl; [reflexivity |].
  rewrite IH. apply andb_assoc.
Qed.

Lemma length_app (a b : string) :
  String.length (a ++ b) = String.length a + String.length b.
Proof. induction a as [| c a IH]; simpl; [reflexivity | now rewrite IH]. Qed.

Lemma split_at (n : nat) (s : string) :
  n <= String.length s ->
  exists s1 s2, s = (s1 ++ s2)%string /\ String.length s1 = n.
Proof.
  revert s. induction n as [| n IH]; intros s Hn.
  - exists EmptyString, s. split; reflexivity.
  - destruct s as [| c s]; simpl in Hn; [lia |].
    destruct (IH s ltac:(lia)) as (s1 & s2 & -> & Hl).
    exists (String c s1), s2. split; [reflexivity | simpl; now rewrite Hl].
Qed.

Lemma lang_times (n : nat) (s : string) :
  lang (Regex.Times n (Regex.Class p)) s
  <-> String.length s = n /\ all_chars p s = true.
Proof.
  revert s. induction n as [| n IH]; intros s; simpl.
  - rewrite lang_eps_inv. split.
    + intros ->. split; reflexivity.
    + intros [H _]. destruct s; [reflexivity | discriminate].
  - rewrite lang_cat_inv. split.
    + intros (s1 & s2 & -> & H1 & H2).
      apply lang_class_inv in H1 as (c & -> & Hc).
      apply IH in H2 as [Hl Ha]. simpl. rewrite Hl, Hc, Ha. auto.
    + intros [Hl Ha]. destruct s as [| c s]; [discriminate |]. simpl in *.
      apply andb_true_iff in Ha as [Hc Ha].
      exists (String c EmptyString), s. split; [reflexivity |].
      split; [now constructor | apply IH; split; [lia | exact Ha]].
Qed.

Lemma lang_upto (m : nat) (s : string) :
  lang (Regex.UpTo m (Regex.Class p)) s
  <-> String.length s <= m /\ all_chars p s = true.
Proof.
  revert s. induction m as [| m IH]; intros s; simpl.
  - rewrite lang_eps_inv. split.
    + intros ->. split; [simpl; lia | reflexivity].
    + intros [H _]. destruct s; [reflexivity | simpl in H; lia].
  - unfold Regex.Opt. rewrite lang_alt_inv, lang_eps_inv, lang_cat_inv. split.
    + intros [-> | (s1 & s2 & -> & H1 & H2)].
      * split; [simpl; lia | reflexivity].
      * apply lang_class_inv in H1 as (c & -> & Hc).
        apply IH in H2 as [Hl Ha]. simpl. rewrite Hc, Ha. split; [lia | auto].
    + intros [Hl Ha]. destruct s as [| c s]; [now left |]. right.
      simpl in *. apply andb_true_iff in Ha as [Hc Ha].
      exists (String c EmptyString), s. split; [reflexivity |].
      split; [now constructor | apply IH; split; [lia | exact Ha]].
Qed.

Lemma lang_between (lo hi : nat) (s : string) :
  lo <= hi ->
  lang (Regex.Between lo hi (Regex.Class p)) s
  <-> (lo <= String.length s <= hi) /\ all_chars p s = true.
Proof.
  intros Hlh. unfold Regex.Between. rewrite lang_cat_inv. split.
  - intros (s1 & s2 & -> & H1 & H2).
    apply lang_times in H1 as [L1 A1]. apply lang_upto in H2 as [L2 A2].
    rewrite length_app, all_chars_app, A1, A2. split; [lia | reflexivity].
  - intros [[Hl Hh] Ha].
    destruct (split_at lo s Hl) as (s1 & s2 & -> & L1).
    rewrite all_chars_app in Ha. apply andb_true_iff in Ha as [A1 A2].
    rewrite length_app in Hh.
    exists s1, s2. split; [reflexivity |].
    split; [apply lang_times; auto | apply lang_upto; split; [lia | auto]].
Qed.

Lemma lang_star_class (s : string) :
  lang (Regex.Star (Regex.Class p)) s <-> all_chars p s = true.
Proof.
  split.
  - intros H. remember (Regex.Star (Regex.Class p)) as r eqn:Er.
    induction H; try discriminate; [reflexivity |].
    injection Er as ->. apply lang_class_inv in H as (c & -> & Hc).
    simpl. rewrite Hc. now apply IHlang2.
  - induction s as [| c s IH]; simpl; intros H; [constructor |].
    apply andb_true_iff in H as [Hc Ha].
    change (String c s) with (String c EmptyString ++ s)%string.
    constructor; [now constructor | now apply IH].
Qed.

Lemma lang_plus_class (s : string) :
  lang (Regex.Plus (Regex.Class p)) s
  <-> s <> EmptyString /\ all_chars p s = true.
Proof.
  unfold Regex.Plus. rewrite lang_cat_inv. split.
  - intros (s1 & s2 & -> & H1 & H2).
    apply lang_class_inv in H1 as (c & -> & Hc).
    apply lang_star_class in H2. simpl. rewrite Hc, H2.
    split; [discriminate | reflexivity].
  - intros [Hn Ha]. destruct s as [| c s]; [contradiction |].
    simpl in Ha. apply andb_true_iff in Ha as [Hc Ha].
    exists (String c EmptyString), s. split; [reflexivity |].
    split; [now constructor | now apply lang_star_class].
Qed.

End Shapes.

Lemma lang_chr (x : ascii) (s : string) :
  lang (Regex.chr x) s <-> s = String x EmptyString.
Proof.
  unfold Regex.chr. rewrite lang_class_inv. split.
  - intros (c & -> & Hc). apply Ascii.eqb_eq in Hc. now subst.
  - intros ->. exists x. split; [reflexivity | apply Ascii.eqb_refl].
Qed.

Lemma bool_eq_iff (a b : bool) : (a = true <-> b = true) -> a = b.
Proof.
  destruct a, b; intros [H1 H2]; try reflexivity.
  - symmetry. apply H1. reflexivity.
  - apply H2. reflexivity.
Qed.

(** X16.  [PHONE_REGEX] accepts exactly the strings made of an optional
    leading [+] followed by 7 to 15 characters, each a digit, a white-space
    character, a dash or a parenthesis; so at most 16 characters in all,
    and no digit is required. *)
Theorem phone_regex_accepts_phone_shape :
  forall s : string, Regex.test PHONE_REGEX s = phone_shape s.
Proof.
  intros s. apply bool_eq_iff. rewrite test_lang.
  unfold PHONE_REGEX, Regex.Opt.
  rewrite lang_cat_inv. unfold phone_shape. split.
  - intros (s1 & s2 & -> & H1 & H2).
    apply lang_between in H2 as [[Hl Hh] Ha]; [| lia].
    apply lang_alt_inv in H1 as [H1 | H1].
    + apply lang_eps_inv in H1. subst s1. cbn [String.append].
      destruct s2 as [| c s2]; [simpl in Hl; lia |].
      cbv beta iota zeta.
      destruct (Ascii.eqb c "+") eqn:E.
      * apply Ascii.eqb_eq in E. subst c. simpl in Ha. discriminate.
      * apply andb_true_iff. split; [| exact Ha].
        apply andb_true_iff. split; apply Nat.leb_le; lia.
    + apply lang_chr in H1. subst s1. cbn [String.append].
      cbv beta iota zeta. rewrite Ascii.eqb_refl.
      apply andb_true_iff. split; [| exact Ha].
      apply andb_true_iff. split; apply Nat.leb_le; lia.
  - intros H.
    apply andb_true_iff in H as [H Ha]. apply andb_true_iff in H as [Hl Hh].
    apply Nat.leb_le in Hl, Hh.
    destruct s as [| c s].
    + simpl in Hl. lia.
    + cbv beta iota zeta in Hl, Hh, Ha.
      destruct (Ascii.eqb c "+") eqn:E.
      * apply Ascii.eqb_eq in E. subst c.
        exists (String "+" EmptyString), s. split; [reflexivity |].
        split; [apply lang_alt_r, lang_chr; reflexivity |].
        apply lang_between; [lia | auto].
      * exists EmptyString, (String c s). split; [reflexivity |].
        split; [apply lang_alt_l; constructor |].
        apply lang_between; [lia | auto].
Qed.

(** X17.  [EMAIL_REGEX] accepts exactly the strings [a@b.c] in which [a],
    [b] and [c] are not empty and hold neither white space nor [@]; so an
    accepted email has exactly one [@], no white space, and a dot inside
    its domain that is neither its first nor its last character. *)
Theorem email_regex_accepts_email_shape :
  forall s : string,
    Regex.test EMAIL_REGEX s = true
    <-> exists a b c,
          s = (a ++ "@" ++ b ++ "." ++ c)%string
          /\ a <> EmptyString /\ b <> EmptyString /\ c <> EmptyString
          /\ all_chars not_space_at a = true
          /\ all_chars not_space_at b = true
          /\ all_chars not_space_at c = true.
Proof.
  intros s. rewrite test_lang. unfold EMAIL_REGEX. split.
  - intros H.
    apply lang_cat_inv in H as (a & r1 & -> & Ha & H).
    apply lang_cat_inv in H as (at_ & r2 & -> & Hat & H).
    apply lang_cat_inv in H as (b & r3 & -> & Hb & H).
    apply lang_cat_inv in H as (dot & c & -> & Hdot & Hc).
    apply lang_chr in Hat, Hdot. subst at_ dot.
    apply lang_plus_class in Ha as [Na Aa], Hb as [Nb Ab], Hc as [Nc Ac].
    exists a, b, c. repeat split; auto.
  - intros (a & b & c & -> & Na & Nb & Nc & Aa & Ab & Ac).
    constructor; [apply lang_plus_class; auto |].
    change ("@" ++ b ++ "." ++ c)%string
      with (String "@" EmptyString ++ (b ++ "." ++ c))%string.
    constructor; [apply lang_chr; reflexivity |].
    constructor; [apply lang_plus_class; auto |].
    change ("." ++ c)%string with (String "." EmptyString ++ c)%string.
    constructor; [apply lang_chr; reflexivity | apply lang_plus_class; auto].
Qed.

(** ** The pages against the server *)

Section Pages.
Context {L : Libs}.
Variable toISOString : Z -> string.

Lemma is_empty_length (s : string) :
  Page.is_empty s = false -> (String.length s =? 0) = false.
Proof. destruct s; [discriminate | reflexivity]. Qed.

Lemma is_empty_truthy (s : string) :
  Page.is_empty s = false -> truthy (Val s) = true.
Proof. unfold Page.is_empty, truthy. now intros ->. Qed.

Lemma validateUsername_ok input :
  fst (Page.validateUsername input) = true ->
  exists u, input = Some u /\ Page.is_empty (Js.trim u) = false.
Proof.
  unfold Page.validateUsername, Page.trimmed.
  destruct input as [u |]; [| intros H; vm_compute in H; discriminate].
  cbv zeta.
  destruct (Page.is_empty (Js.trim u)) eqn:E; [discriminate |].
  intros _. exists u. split; [reflexivity | exact E].
Qed.

Lemma validateEmail_ok input :
  fst (Page.validateEmail input) = true ->
  exists e, input = Some e /\ Page.is_empty (Js.trim e) = false
            /\ Regex.test EMAIL_REGEX (Js.trim e) = true.
Proof.
  unfold Page.validateEmail, Page.trimmed.
  destruct input as [e |]; [| intros H; vm_compute in H; discriminate].
  cbv zeta.
  destruct (Page.is_empty (Js.trim e)) eqn:E; [discriminate |].
  destruct (Regex.test EMAIL_REGEX (Js.trim e)) eqn:T; [| discriminate].
  intros _. exists e. auto.
Qed.

Lemma validatePassword_ok input :
  fst (Page.validatePassword input) = true ->
  exists p, input = Some p /\ (6 <=? String.length p) = true.
Proof.
  unfold Page.validatePassword, Page.raw.
  destruct input as [p |]; [| intros H; vm_compute in H; discriminate].
  cbv zeta.
  destruct (Page.is_empty p); [discriminate |].
  destruct (String.length p <? 6) eqn:E; [discriminate |].
  intros _. exists p. split; [reflexivity |].
  apply Nat.leb_le. apply Nat.ltb_ge in E. exact E.
Qed.

Lemma validatePhone_ok ph :
  fst (Page.validatePhone (Some ph)) = true ->
  Page.is_empty (Js.trim ph) = true
  \/ (Page.is_empty (Js.trim ph) = false
      /\ Regex.test PHONE_REGEX (Js.trim ph) = true).
Proof.
  unfold Page.validatePhone, Page.trimmed. cbv zeta.
  destruct (Page.is_empty (Js.trim ph)); [auto |].
  destruct (Regex.test PHONE_REGEX (Js.trim ph)); [auto | discriminate].
Qed.

Lemma profile_validatePhone_ok input :
  fst (Page.profile_validatePhone input) = true ->
  Page.is_empty (Page.trimmed input) = true
  \/ (Page.is_empty (Page.trimmed input) = false
      /\ Regex.test PHONE_REGEX (Page.trimmed input) = true).
Proof.
  unfold Page.profile_validatePhone. cbv zeta.
  destruct (Page.is_empty (Page.trimmed input)); [auto |].
  destruct (Regex.test PHONE_REGEX (Page.trimmed input));
    [auto | discriminate].
Qed.

Lemma trimmed_fixed input :
  Js.trim (Page.trimmed input) = Page.trimmed input.
Proof. destruct input; simpl; [apply trim_idempotent | reflexivity]. Qed.

Lemma orb_false_5 a b c d e :
  a || b || c || d || e = false ->
  a = false /\ b = false /\ c = false /\ d = false /\ e = false.
Proof. destruct a, b, c, d, e; simpl; intros H; try discriminate; auto. Qed.

Lemma negb_false (a : bool) : negb a = false -> a = true.
Proof. destruct a; [reflexivity | discriminate]. Qed.

End Pages.

(** X18.  For form text in Latin-1 (the strings of this model, on which
    [isLength] counts every code unit, as [value.length] does): whatever
    the registration page sends passes the validation of [POST /register],
    and the server's sanitizers change nothing in it.  The page trims the
    username, the email and the phone itself, refuses a password under 6
    code units, leaves out an empty phone or date, and sends a date in the
    form [toISOString] gives it, which [isISO8601] is assumed to accept. *)
Theorem registration_page_payload_is_accepted :
  forall (L : Libs) (toISOString : Z -> string) (f : Page.Form)
         (payload : Body),
    Page.register_submit toISOString f = Some payload ->
    (forall d t, Page.dobInput f = Some d -> Date_parse d = Some t ->
                 isISO8601 (toISOString t) = true) ->
    register_rejected_paths payload = []
    /\ register_sanitized payload = payload.
Proof.
  intros L toISOString f payload Hs Hiso.
  unfold Page.register_submit in Hs.
  destruct (_ || _) eqn:E in Hs; [discriminate |].
  apply orb_false_5 in E as (Eu & Ee & Ep & Eph & Ed).
  apply negb_false in Eu, Ee, Ep, Eph, Ed.
  destruct (validateUsername_ok _ Eu) as (u & Hu & Nu).
  destruct (validateEmail_ok _ Ee) as (e & He & Ne & Te).
  destruct (validatePassword_ok _ Ep) as (p & Hp & Lp).
  rewrite Hu, He, Hp in Hs.
  destruct (Page.phoneInput f) as [ph |] eqn:Hph; [| discriminate].
  destruct (Page.dobInput f) as [d |] eqn:Hd; [| discriminate].
  injection Hs as <-.
  assert (Hphone :
            not_blank (if Page.is_empty (Js.trim ph) then Undefined
                       else Val (Js.trim ph))
            && negb (Regex.test PHONE_REGEX
                       (Js.trim (Validator.toString
                                   (if Page.is_empty (Js.trim ph) then Undefined
                                    else Val (Js.trim ph))))) = false).
  { destruct (validatePhone_ok ph Eph) as [Hem | [Hem Tph]]; rewrite Hem.
    - reflexivity.
    - cbn [Validator.toString]. rewrite trim_idempotent, Tph.
      apply andb_false_r. }
  assert (Hdob :
            truthy (if Page.is_empty d then Undefined
                    else Val (Page.iso_of toISOString d))
            && negb (isISO8601
                       (Validator.toString
                          (if Page.is_empty d then Undefined
                           else Val (Page.iso_of toISOString d)))) = false).
  { destruct (Page.is_empty d); [reflexivity |].
    unfold Page.iso_of. destruct (Date_parse d) as [t |] eqn:Ept.
    - cbn [Validator.toString]. rewrite (Hiso d t eq_refl Ept).
      apply andb_false_r.
    - reflexivity. }
  split.
  - unfold register_rejected_paths.
    cbn [body_username body_password body_email body_phone body_dob].
    cbn [Validator.toString]. rewrite !trim_idempotent.
    rewrite (is_empty_length _ Nu), Lp, Te, Hdob, Hphone.
    reflexivity.
  - unfold register_sanitized.
    cbn [body_username body_password body_email body_phone body_dob].
    cbn [Validator.toString]. rewrite !trim_idempotent.
    destruct (Page.is_empty (Js.trim ph)) eqn:Hem; [reflexivity |].
    rewrite (is_empty_truthy _ Hem). cbn [Validator.toString].
    rewrite trim_idempotent. reflexivity.
Qed.

Lemma registration_page_payload_is_accepted_witness :
  let f := Page.mkForm (Some " alice ") (Some "A@X.com ") (Some "abcdef")
                       (Some "") (Some "2001-02-03") in
  let payload := mkBody (Val "alice") (Val "abcdef") (Val "A@X.com")
                        Undefined (Val "2001-02-03") in
  Page.register_submit (L := Sample.libs) Sample.render_date f = Some payload
  /\ register_rejected_paths (L := Sample.libs) payload = []
  /\ register_sanitized payload = payload.
Proof.
  intros f payload. split; [reflexivity |].
  apply (registration_page_payload_is_accepted Sample.libs Sample.render_date
           f payload eq_refl).
  intros d t Hd Ht. injection Hd as <-. injection Ht as <-. reflexivity.
Defined.

(** X19.  Whatever the login page sends passes the validation of
    [POST /login] unchanged, and the account is looked up by the trimmed
    username the page sent. *)
Theorem login_page_payload_is_accepted :
  forall (L : Libs) (f : Page.Form) (payload : Body),
    Page.login_submit f = Some payload ->
    login_rejected_paths payload = []
    /\ login_sanitized payload = payload
    /\ login_query (login_sanitized payload)
       = One (by_username (Val (Page.trimmed (Page.usernameInput f)))).
Proof.
  intros L f payload Hs. unfold Page.login_submit in Hs.
  destruct (_ || _) eqn:E in Hs; [discriminate |].
  apply orb_false_iff in E as [Eu Ep]. apply negb_false in Eu, Ep.
  destruct (validateUsername_ok _ Eu) as (u & Hu & Nu).
  rewrite Hu in Hs |- *.
  destruct (Page.passwordInput f) as [p |] eqn:Hp; [| discriminate].
  injection Hs as <-.
  assert (Np : Page.is_empty p = false).
  { revert Ep. unfold Page.login_validatePassword, Page.raw. cbv zeta.
    destruct (Page.is_empty p); [discriminate | reflexivity]. }
  pose proof (is_empty_truthy _ Nu) as Tu.
  assert (Hsan : login_sanitized
                   (mkBody (Val (Js.trim u)) (Val p) Undefined Undefined
                           Undefined)
                 = mkBody (Val (Js.trim u)) (Val p) Undefined Undefined
                          Undefined).
  { unfold login_sanitized. cbn [body_username body_password body_email
      body_phone body_dob]. rewrite Tu. cbn [Validator.toString].
    rewrite trim_idempotent. reflexivity. }
  split; [| split].
  - unfold login_rejected_paths, not_blank.
    cbn [body_username body_password body_email Validator.toString].
    rewrite trim_idempotent, Tu, (is_empty_length _ Np).
    reflexivity.
  - exact Hsan.
  - rewrite Hsan. unfold login_query. cbn [body_username]. rewrite Tu.
    reflexivity.
Qed.

Lemma login_page_payload_is_accepted_witness :
  let f := Page.mkForm (Some " alice ") None (Some "abcdef") None None in
  Page.login_submit f
  = Some (mkBody (Val "alice") (Val "abcdef") Undefined Undefined Undefined)
  /\ login_rejected_paths
       (mkBody (Val "alice") (Val "abcdef") Undefined Undefined Undefined)
     = [].
Proof.
  intros f. split; [reflexivity |].
  apply (login_page_payload_is_accepted Sample.libs f _ eq_refl).
Defined.

(** X20.  Whatever the profile page sends passes the validation of
    [PUT /api/profile].  The page always sends all three members: a
    non-empty email, the phone as a string (empty when the field is blank)
    and the date or [null]; so a save from the page never leaves the stored
    phone or date untouched. *)
Theorem profile_page_payload_is_accepted :
  forall (L : Libs) (toISOString : Z -> string) (f : Page.Form)
         (payload : Body),
    Page.profile_submit toISOString f = Some payload ->
    (forall t, Date_parse (Page.raw (Page.dobInput f)) = Some t ->
               isISO8601 (toISOString t) = true) ->
    profile_rejected_paths payload = []
    /\ truthy (body_email payload) = true
    /\ body_phone payload = Val (Page.trimmed (Page.phoneInput f))
    /\ body_dob payload <> Undefined.
Proof.
  intros L toISOString f payload Hs Hiso.
  unfold Page.profile_submit in Hs.
  destruct (_ || _) eqn:E in Hs; [discriminate |].
  apply orb_false_iff in E as [E Ed]. apply orb_false_iff in E as [Ee Eph].
  apply negb_false in Ee, Eph, Ed.
  destruct (validateEmail_ok _ Ee) as (e & He & Ne & Te).
  injection Hs as <-.
  cbn [body_email body_phone body_dob].
  assert (Hem : Page.trimmed (Page.emailInput f) = Js.trim e)
    by (rewrite He; reflexivity).
  split; [| split; [| split]].
  - unfold profile_rejected_paths, not_blank.
    cbn [body_email body_phone body_dob Validator.toString].
    rewrite (trimmed_fixed (Page.emailInput f)),
      (trimmed_fixed (Page.phoneInput f)), Hem, Te.
    assert (Hph : truthy (Val (Page.trimmed (Page.phoneInput f)))
                  && negb (Regex.test PHONE_REGEX
                             (Page.trimmed (Page.phoneInput f))) = false).
    { destruct (profile_validatePhone_ok _ Eph) as [H | [_ T]].
      - unfold Page.is_empty in H. unfold truthy. now rewrite H.
      - rewrite T. apply andb_false_r. }
    rewrite Hph, andb_false_r.
    destruct (Page.is_empty (Page.raw (Page.dobInput f))); [reflexivity |].
    unfold Page.iso_of.
    destruct (Date_parse (Page.raw (Page.dobInput f))) as [t |] eqn:Ept.
    + cbn [Validator.toString]. rewrite (Hiso t eq_refl).
      rewrite andb_false_r. reflexivity.
    + reflexivity.
  - rewrite Hem. apply is_empty_truthy, Ne.
  - reflexivity.
  - destruct (Page.is_empty (Page.raw (Page.dobInput f)));
      intros H; discriminate H.
Qed.

Lemma profile_page_payload_is_accepted_witness :
  let f := Page.mkForm None (Some "a@x.com") None (Some "  ")
                       (Some "2001-02-03") in
  let payload := mkBody Undefined Undefined (Val "a@x.com") (Val "")
                        (Val "2001-02-03") in
  Page.profile_submit (L := Sample.libs) Sample.render_date f = Some payload
  /\ profile_rejected_paths (L := Sample.libs) payload = []
  /\ body_phone payload = Val "".
Proof.
  intros f payload. split; [reflexivity |].
  destruct (profile_page_payload_is_accepted Sample.libs Sample.render_date
              f payload eq_refl) as (Hv & _ & Hp & _).
  - intros t Ht. vm_compute in Ht. injection Ht as <-. reflexivity.
  - split; [exact Hv | exact Hp].
Defined.

(** X21.  Registration is not atomic with the token: when the signing key
    is not configured, a registration that passes validation, whose date
    (when one is sent) [new Date] can read, and that collides with no
    account, still stores the account and then answers 500 [Server error];
    sending the same registration again finds the account and answers 400
    [already exists]. *)
Theorem register_without_key_still_creates_account :
  forall (L : Libs) (env : Env) (amb again : Ambient) (b : Body) (w : World),
    register_rejected_paths b = [] ->
    dob_readable (body_dob b) = true ->
    (forall v, In v (users w) ->
               _id v <> fresh_oid amb
               /\ username v <> username (registered_user amb b)
               /\ email v <> email (registered_user amb b)) ->
    env_truthy (JWT_SECRET env) = false ->
    let first := register env amb (fun us => us) b w in
    answer first = Some (res_status_json 500 (message "Server error"))
    /\ users (snd first) = users w ++ [registered_user amb b]
    /\ answer (register env again (fun us => us) b (snd first))
       = Some (res_status_json 400
                 (JObj [("message",
                         JStr "User with that username or email already exists");
                        ("errors", JArr [])])).
Proof.
  intros L env amb again b w Hv Hd Hfree Hk first.
  assert (Hfirst : first
                   = (inr (res_status_json 500 (message "Server error")),
                      mkWorld (users w ++ [registered_user amb b])
                              (EvLog "Register error:" :: EvInsert :: EvHash
                               :: EvGenSalt :: EvFindOne :: trace w))).
  { subst first.
    rewrite (register_valid_run env amb (fun us => us) b Hv).
    unfold register_handler, try_catch, bind, findOne, bind, emit, get_users,
      interleave, ret.
    cbn [users trace fst snd].
    rewrite find_none_intro.
    2: { intros v Hin. destruct (Hfree v Hin) as (_ & Hu & He).
         unfold matches, matches_cond.
         cbn [existsb register_sanitized body_email body_username].
         rewrite trim_idempotent.
         cbn [email registered_user] in He.
         rewrite (field_eqb_string_neq _ _ He).
         apply String.eqb_neq in Hu. cbn [username registered_user] in Hu.
         rewrite Hu. reflexivity. }
    pose proof (User_create_ok amb b
                  (mkWorld (users w) (EvFindOne :: trace w)) Hv Hd Hfree) as Hc.
    cbn [users trace] in Hc |- *. rewrite Hc.
    rewrite (createToken_without_key env amb _ _ Hk). reflexivity. }
  rewrite Hfirst. cbn [snd users]. split; [reflexivity |].
  split; [reflexivity |].
  unfold answer.
  rewrite (register_existing_account_run L env again (fun us => us) b _
             (registered_user amb b) Hv).
  - reflexivity.
  - cbn [users]. apply in_or_app. right. left. reflexivity.
  - left. reflexivity.
Qed.

Lemma register_without_key_still_creates_account_witness :
  let b := mkBody (Val "alice") (Val "abcdef") (Val "a@x.com")
                  (Val "123-456-7890") Undefined in
  let first := register (L := Sample.libs) Sample.env_no_secret Sample.amb
                 (fun us => us) b Sample.empty in
  answer first = Some (res_status_json 500 (message "Server error"))
  /\ users (snd first) = [Sample.alice]
  /\ option_map status
       (answer (register (L := Sample.libs) Sample.env_no_secret Sample.amb
                  (fun us => us) b (snd first))) = Some 400.
Proof.
  intros b first.
  destruct (register_without_key_still_creates_account Sample.libs
              Sample.env_no_secret Sample.amb Sample.amb b Sample.empty)
    as (H1 & H2 & H3); try reflexivity.
  - intros v [].
  - split; [exact H1 |]. split; [exact H2 |].
    exact (eq_trans (f_equal (option_map status) H3) eq_refl).
Defined.


